(** * python-ocr-converter: the page-merge pipeline of [pdf_ocr_cli.py]

    A shallow embedding of the command line converter: the page classifier
    [pdf_page_has_text], the OCR adapters, the per-document assembler
    [process_single_pdf] and the batch driver [main], followed by the
    properties the specification states about them.  The worker [run_ocr]
    of the desktop form [pdf_ocr_gui.py], which drives the same functions,
    and further properties of the code come after.

    The external services (PyPDF2, pdfplumber, pdf2image, pytesseract, the
    file system) are opaque: each call the source makes to one of them is
    an oracle field of a record, returning either a value or the exception
    it raises.  The Python code itself (control flow, [try]/[except], the
    mutation of [writer] and [all_text]) is transcribed as it is written.

    What is taken not to raise: [logging], [print] and [tqdm]; leaving a
    [with pdfplumber.open(...)] block; [writer.add_page] on a page of a
    document the OCR engine has just returned; [writer.add_blank_page].
    Argument parsing and the set-up of logging are left out.  In the
    desktop form, the dialogs, the progress bar and the queue of log lines
    are taken not to raise; the widgets, the file dialogs and the thread
    that runs the worker are left out. *)

From Stdlib Require Import String Ascii.
From Stdlib Require Import List ZArith NArith Bool Arith Lia.
From Stdlib Require Import Sorted Permutation.
Import ListNotations.
Open Scope string_scope.
Open Scope list_scope.
Open Scope nat_scope.

Set Implicit Arguments.

(** ** Python values *)

(** A Python [str] is a sequence of Unicode code points; [len] counts them. *)
Definition char := N.
Definition str := list char.

(** The code points of a literal. *)
Definition py (s : string) : str := map N_of_ascii (list_ascii_of_string s).

(** [str.isspace] on one code point: the characters [str.strip()] removes. *)
Definition isspace (c : char) : bool :=
  (((9 <=? c) && (c <=? 13)) || ((28 <=? c) && (c <=? 32))
   || (c =? 133) || (c =? 160) || (c =? 5760)
   || ((8192 <=? c) && (c <=? 8202))
   || (c =? 8232) || (c =? 8233) || (c =? 8239) || (c =? 8287)
   || (c =? 12288))%N.

Fixpoint lstrip (s : str) : str :=
  match s with
  | [] => []
  | c :: s' => if isspace c then lstrip s' else s
  end.

Definition rstrip (s : str) : str := rev (lstrip (rev s)).

(** [s.strip()] *)
Definition strip (s : str) : str := rstrip (lstrip s).

(** Truth value of a string: [if t]. *)
Definition truthy (s : str) : bool :=
  match s with [] => false | _ :: _ => true end.

(** [sep.join(parts)] *)
Fixpoint join (sep : str) (parts : list str) : str :=
  match parts with
  | [] => []
  | [p] => p
  | p :: rest => p ++ sep ++ join sep rest
  end.

(** ** Exceptions

    [exn] stands for instances of [Exception], which is what every
    [except Exception] clause of the source catches.  [SystemExit], raised
    by [sys.exit], is not an [Exception]; it is part of [main]'s outcome. *)
Inductive exn_class := RuntimeError | FileNotFoundError | IndexError | OtherError.

Record exn := Exn { exn_type : exn_class; exn_str : string }.

Inductive result (A : Type) : Type :=
| Ok (a : A)
| Raise (e : exn).
Arguments Ok {A} a.
Arguments Raise {A} e.

Definition is_ok {A} (r : result A) : bool :=
  match r with Ok _ => true | Raise _ => false end.

(** ** Monads: exceptions alone, and exceptions over a mutable state *)

Class Monad (m : Type -> Type) : Type := {
  ret : forall {A}, A -> m A;
  bind : forall {A B}, m A -> (A -> m B) -> m B
}.

Class MonadExc (m : Type -> Type) : Type := {
  raise : forall {A}, exn -> m A;
  try_except : forall {A}, m A -> (exn -> m A) -> m A
}.

Declare Scope py_scope.
Delimit Scope py_scope with py.
Notation "x <- c ;; k" := (bind c (fun x => k))
  (at level 61, c at next level, right associativity) : py_scope.
Notation "c ;; k" := (bind c (fun _ => k))
  (at level 61, right associativity) : py_scope.
Notation "'try' c 'except' e => h" := (try_except c (fun e => h))
  (at level 60, c at level 99, e name, h at level 99) : py_scope.
Open Scope py_scope.

#[global] Instance Monad_result : Monad result := {
  ret := fun A a => Ok a;
  bind := fun A B c k => match c with Ok a => k a | Raise e => Raise e end
}.

#[global] Instance MonadExc_result : MonadExc result := {
  raise := fun A e => Raise e;
  try_except := fun A c h => match c with Ok a => Ok a | Raise e => h e end
}.

(** A computation over a state [S]: the state reached when an exception is
    raised is kept, as a Python object mutated before the [raise] stays
    mutated in the handler. *)
Definition M (S A : Type) : Type := S -> result A * S.

#[global] Instance Monad_M (S : Type) : Monad (M S) := {
  ret := fun A a s => (Ok a, s);
  bind := fun A B c k s =>
    match c s with
    | (Ok a, s') => k a s'
    | (Raise e, s') => (Raise e, s')
    end
}.

#[global] Instance MonadExc_M (S : Type) : MonadExc (M S) := {
  raise := fun A e s => (Raise e, s);
  try_except := fun A c h s =>
    match c s with
    | (Ok a, s') => (Ok a, s')
    | (Raise e, s') => h e s'
    end
}.

(** The outcome of a call into a collaborator, inside a stateful computation. *)
Definition call {S A} (r : result A) : M S A := fun s => (r, s).

Definition modify {S} (f : S -> S) : M S unit := fun s => (Ok tt, f s).

Definition when {m} `{Monad m} (b : bool) (c : m unit) : m unit :=
  if b then c else ret tt.

(** [xs[i]] for a non-negative [i]. *)
Definition index {A} (xs : list A) (i : nat) : result A :=
  match nth_error xs i with
  | Some x => Ok x
  | None => Raise (Exn IndexError "list index out of range")
  end.

(** ** The page classifier *)

(** What pdfplumber gives for a document: [pdfplumber.open] raises, or
    yields the pages; for each page, [extract_text()] raises, returns
    [None], or returns a string. *)
Definition plumber_page := result (option str).
Definition plumber_doc := result (list plumber_page).

(** [p.extract_text()] *)
Definition extract_text (p : plumber_page) : result (option str) := p.

(** [pdf_page_has_text(pdf_path, page_number)], lines 91-106.  [pdf] is what
    [pdfplumber.open(str(pdf_path))] yields at this call.  The [return False]
    that follows the [try] statement is the [else] of the last test. *)
Definition pdf_page_has_text (pdf : plumber_doc) (page_number : Z) : result bool :=
  try (doc <- pdf ;;
       if (page_number <? 0)%Z || (page_number >=? Z.of_nat (length doc))%Z
       then ret false
       else
         p <- index doc (Z.to_nat page_number) ;;
         text <- extract_text p ;;
         match text with
         | Some t =>
             if truthy t && (20 <? length (strip t))
             then ret true
             else ret false
         | None => ret false
         end)
  except _ =>
    (* If pdfplumber fails, assume no text to be safe and run OCR *)
    ret false.

(** ** Paths *)

(** A [pathlib.Path]: the directory it lies in, and the stem and suffix of
    its last component. *)
Record Path := mkPath { parent : string; stem : string; suffix : string }.

(** [p.name] *)
Definition name (p : Path) : string := stem p ++ suffix p.

(** [str(p)] *)
Definition path_str (p : Path) : string := parent p ++ "/" ++ name p.

(** [s.lower()] on the ASCII letters. *)
Definition lower_ascii (a : ascii) : ascii :=
  let n := nat_of_ascii a in
  if (65 <=? n) && (n <=? 90) then ascii_of_nat (n + 32) else a.

Fixpoint lower (s : string) : string :=
  match s with
  | EmptyString => EmptyString
  | String a s' => String (lower_ascii a) (lower s')
  end.

(** [sorted(paths)]: stable, by the order of the paths; the paths sorted by
    the source lie in one directory, where that is the order of their names. *)
Fixpoint insert_path (p : Path) (ps : list Path) : list Path :=
  match ps with
  | [] => [p]
  | q :: ps' =>
      if String.leb (name p) (name q) then p :: q :: ps'
      else q :: insert_path p ps'
  end.

Definition sorted (ps : list Path) : list Path := fold_right insert_path [] ps.

(** [o] when it is a non-empty string, as in [if poppler_path:]. *)
Definition if_set (o : option string) : option string :=
  match o with
  | Some EmptyString => None
  | _ => o
  end.

(** [o or ""] *)
Definition or_empty (o : option string) : string :=
  match o with Some s => s | None => "" end.

Section Pipeline.

(** PIL images, PyPDF2 page objects and the bytes of a PDF are opaque. *)
Variables image page bytes : Type.

(** ** The state the program mutates *)

(** A page of the [PdfWriter]: a page object taken from a reader, or the
    blank page of [add_blank_page]. *)
Inductive out_page :=
| OfPage (p : page)
| BlankPage (width height : Z).

Inductive level := INFO | WARNING | ERROR.

(** The log records of the source, by the line that emits them. *)
Inductive message :=
| Processing (pdf : Path) (dpi : Z) (lang : string)          (* l.186 *)
| ImageCountMismatch (n_images n_pages : nat)                (* l.199 *)
| CopyingOriginal (page_no : nat)                            (* l.209 *)
| CopyFailedFallingBack (page_no : nat) (e : exn)            (* l.219 *)
| PageError (page_no : nat) (pdf_name : string) (e : exn)    (* l.234 *)
| WrotePdf (p : Path)                                        (* l.248 *)
| WritePdfFailed (p : Path) (e : exn)                        (* l.250 *)
| WroteText (p : Path)                                       (* l.259 *)
| WriteTextFailed (p : Path) (e : exn)                       (* l.261 *)
| DependencyError (e : exn)                                  (* l.301 *)
| InputError (e : exn)                                       (* l.311 *)
| BatchNeedsDirectory                                        (* l.315 *)
| FailedProcessing (pdf : Path) (e : exn).                   (* l.334 *)

(** One entry of [results]: the dict [process_single_pdf] returns, or the
    dict [main] builds from an exception. *)
Inductive entry :=
| Summary (input : string) (output_pdf output_txt : option string) (pages : nat)
| Failure (input : string) (error : string).

(** What the program does to the outside, in the order it does it. *)
Inductive event :=
| Log (l : level) (m : message)
| ListInputs (input_path : Path)        (* [list_input_files] is entered *)
| OpenPdf (pdf : Path)                  (* [PdfReader(str(pdf_path))] *)
| Rasterize (pdf : Path)                (* [convert_from_path] *)
| Progress (page_idx : nat)             (* [tqdm] hands out the next image *)
| OcrPdf (img : image)                  (* [pytesseract.image_to_pdf_or_hocr] *)
| OcrText (img : image)                 (* [pytesseract.image_to_string] *)
| Printed (r : entry).

Inductive file :=
| PdfFile (pages : list out_page)
| TextFile (text : str)
| Unfinished.   (* opened for writing and not written to the end: empty or partial *)

Record state := mkState {
  writer : list out_page;          (* the pages of [writer] *)
  all_text : list str;             (* [all_text] *)
  trace : list event;
  files : list (Path * file)       (* files written, the latest first *)
}.

Definition initial : state := mkState [] [] [] [].

(** The state after appending pages to [writer], texts to [all_text] and
    events to the trace. *)
Definition extend (ps : list out_page) (ts : list str) (es : list event)
    (s : state) : state :=
  mkState (writer s ++ ps) (all_text s ++ ts) (trace s ++ es) (files s).

Definition emit (e : event) : M state unit := modify (extend [] [] [e]).

Definition logging (l : level) (m : message) : M state unit := emit (Log l m).

(** [writer = PdfWriter()] *)
Definition new_writer : M state unit :=
  modify (fun s => mkState [] (all_text s) (trace s) (files s)).

(** [all_text = []] *)
Definition new_all_text : M state unit :=
  modify (fun s => mkState (writer s) [] (trace s) (files s)).

(** The append at the end of [writer.add_page] and [writer.add_blank_page]. *)
Definition writer_append (p : out_page) : M state unit :=
  modify (extend [p] [] []).

(** [all_text.append(text)] *)
Definition all_text_append (t : str) : M state unit :=
  modify (extend [] [t] []).

Definition store (p : Path) (f : file) : M state unit :=
  modify (fun s => mkState (writer s) (all_text s) (trace s) ((p, f) :: files s)).

Definition get_writer : M state (list out_page) := fun s => (Ok (writer s), s).
Definition get_all_text : M state (list str) := fun s => (Ok (all_text s), s).

(** [for x in xs: body(x)] *)
Fixpoint for_each {A} (xs : list A) (body : A -> M state unit) : M state unit :=
  match xs with
  | [] => ret tt
  | x :: xs' => body x ;; for_each xs' body
  end.

(** [for i, x in enumerate(xs): body(i, x)], counting from [i]. *)
Fixpoint for_enumerate {A} (i : nat) (xs : list A) (body : nat -> A -> M state unit)
  : M state unit :=
  match xs with
  | [] => ret tt
  | x :: xs' => body i x ;; for_enumerate (S i) xs' body
  end.

(** ** The collaborators, for one document

    Every field is one call of the source into PyPDF2, pdfplumber, pdf2image,
    pytesseract or the file system, for the document being processed.  Calls
    the source makes at several places, or once per page, take the place or
    the page index, so that each can fail on its own. *)
Record Collab := mkCollab {
  (* [out_dir.mkdir(parents=True, exist_ok=True)], l.180 *)
  mkdir : result unit;
  (* [PdfReader(str(pdf_path))] and its [pages], l.190-191 *)
  PdfReader_path : result (list page);
  (* [convert_from_path(str(pdf_path), dpi=.., poppler_path=..)], l.119 *)
  convert_from_path : Z -> option string -> result (list image);
  (* [pdfplumber.open(str(pdf_path))] at l.97, when page [i] is classified *)
  plumber_classify : nat -> plumber_doc;
  (* whether [writer.add_page(reader_orig.pages[i])] at l.212 raises,
     for [i] within the reader's pages *)
  copy_original : nat -> result unit;
  (* [pdfplumber.open(str(pdf_path))] at l.215, for the text of page [i] *)
  plumber_text : nat -> plumber_doc;
  (* whether [writer.add_page(reader_orig.pages[i])] at l.237 raises *)
  copy_original_again : nat -> result unit;
  (* [pytesseract.image_to_pdf_or_hocr(image, extension="pdf", lang, config)] *)
  image_to_pdf_or_hocr : image -> string -> string -> result bytes;
  (* [pytesseract.image_to_string(image, lang, config)] *)
  image_to_string : image -> string -> string -> result str;
  (* [PdfReader(io.BytesIO(pdf_bytes))] and its [pages], l.159-160 *)
  PdfReader_bytes : bytes -> result (list page);
  (* [open(output_pdf_path, "wb")], l.246 *)
  open_output_pdf : Path -> result unit;
  (* [writer.write(f)], l.247 *)
  writer_write : Path -> list out_page -> result unit;
  (* [open(output_txt_path, "w", encoding="utf-8")], l.257 *)
  open_output_txt : Path -> result unit;
  (* [f.write(combined_text)], l.258 *)
  f_write : Path -> str -> result unit
}.

(** How the [with] block of lines 246-247 ends: it returns when the file
    can be opened and [writer.write] returns. *)
Definition write_pdf (c : Collab) (p : Path) (pages : list out_page) : result unit :=
  open_output_pdf c p ;; writer_write c p pages.

(** How the [with] block of lines 257-258 ends. *)
Definition write_text (c : Collab) (p : Path) (text : str) : result unit :=
  open_output_txt c p ;; f_write c p text.

(** [with open(p, mode) as f: body], for a mode that creates the file or
    truncates it: when [open] raises nothing is touched; when the body
    raises the file is left as it is, empty or partly written; otherwise
    the file holds [content]. *)
Definition with_open (opening : result unit) (p : Path) (body : M state unit)
    (content : file) : M state unit :=
  call opening ;;
  (try body except e => (store p Unfinished ;; raise e)) ;;
  store p content.

(** ** The adapters *)

(** [pdf_to_images(pdf_path, dpi, poppler_path)], lines 109-128. *)
Definition pdf_to_images (c : Collab) (pdf_path : Path) (dpi : Z)
    (poppler_path : option string) : M state (list image) :=
  try (emit (Rasterize pdf_path) ;;
       call (convert_from_path c dpi (if_set poppler_path)))
  except e =>
    raise (Exn RuntimeError ("Failed to convert PDF to images: " ++ exn_str e)).

(** [ocr_image_to_pdf_bytes(image, lang, config)], lines 131-145.  The
    conversion of the image to RGB before the call is part of the oracle. *)
Definition ocr_image_to_pdf_bytes (c : Collab) (img : image) (lang : string)
    (config : option string) : M state bytes :=
  emit (OcrPdf img) ;;
  call (image_to_pdf_or_hocr c img lang (or_empty config)).

(** [ocr_image_to_text(image, lang, config)], lines 148-152. *)
Definition ocr_image_to_text (c : Collab) (img : image) (lang : string)
    (config : option string) : M state str :=
  emit (OcrText img) ;;
  call (image_to_string c img lang (or_empty config)).

(** [merge_pdf_bytes_into_writer(writer, pdf_bytes)], lines 155-161: every
    page of the parsed bytes is appended, however many there are. *)
Definition merge_pdf_bytes_into_writer (c : Collab) (pdf_bytes : bytes)
  : M state unit :=
  reader_pages <- call (PdfReader_bytes c pdf_bytes) ;;
  for_each reader_pages (fun p => writer_append (OfPage p)).

(** [doc.pages[page_idx].extract_text() or ""] under [pdfplumber.open], l.215-216 *)
Definition extract_text_or_empty (pdf : plumber_doc) (page_idx : nat) : result str :=
  doc <- pdf ;;
  p <- index doc page_idx ;;
  text <- extract_text p ;;
  ret (match text with
       | Some t => if truthy t then t else []
       | None => []
       end).

(** ** The page assembler *)

(** The separator of line 256. *)
Definition PAGE_BREAK : str :=
  [10; 10]%N ++ py "=== PAGE BREAK ===" ++ [10; 10]%N.

(** [SEP.join([t.strip() for t in all_text if t])], line 256. *)
Definition combined_text (texts : list str) : str :=
  join PAGE_BREAK (map strip (filter truthy texts)).

Section Document.

Variable c : Collab.
Variables (pdf_path : Path) (output_pdf output_txt : bool) (dpi : Z)
  (lang : string) (skip_if_text : bool) (poppler_path tesseract_config : option string).

(** Lines 228-232 (and 221-225): OCR the rasterized image. *)
Definition perform_ocr (img : image) : M state unit :=
  pdf_bytes <- ocr_image_to_pdf_bytes c img lang tesseract_config ;;
  merge_pdf_bytes_into_writer c pdf_bytes ;;
  when output_txt
    (text <- ocr_image_to_text c img lang tesseract_config ;;
     all_text_append text).

(** The body of the loop of line 205, lines 206-241. *)
Definition process_page (reader_orig : list page) (page_idx : nat) (img : image)
  : M state unit :=
  emit (Progress page_idx) ;;
  try (has_text <-
         (if skip_if_text
          then call (pdf_page_has_text (plumber_classify c page_idx) (Z.of_nat page_idx))
          else ret false) ;;
       if has_text then
         logging INFO (CopyingOriginal (page_idx + 1)) ;;
         try (p <- call (index reader_orig page_idx) ;;
              call (copy_original c page_idx) ;;
              writer_append (OfPage p) ;;
              when output_txt
                (text <- call (extract_text_or_empty (plumber_text c page_idx) page_idx) ;;
                 all_text_append text))
         except e =>
           (logging WARNING (CopyFailedFallingBack (page_idx + 1) e) ;;
            perform_ocr img)
       else
         perform_ocr img)
  except e =>
    (logging ERROR (PageError (page_idx + 1) (name pdf_path) e) ;;
     try (p <- call (index reader_orig page_idx) ;;
          call (copy_original_again c page_idx) ;;
          writer_append (OfPage p))
     except _ =>
       writer_append (BlankPage 595 842)).

(** [process_single_pdf], lines 164-269; [out_dir] is the directory resolved
    at line 179. *)
Definition process_single_pdf (out_dir : option string) : M state entry :=
  let out_dir := match out_dir with Some d => d | None => parent pdf_path end in
  call (mkdir c) ;;
  let base_name := stem pdf_path in
  let output_pdf_path :=
    if output_pdf then Some (mkPath out_dir (base_name ++ "_searchable") ".pdf") else None in
  let output_txt_path :=
    if output_txt then Some (mkPath out_dir base_name ".txt") else None in
  logging INFO (Processing pdf_path dpi lang) ;;
  reader_orig <-
    (try (emit (OpenPdf pdf_path) ;; call (PdfReader_path c))
     except e =>
       raise (Exn RuntimeError ("Failed to read PDF file with PyPDF2: " ++ exn_str e))) ;;
  let num_pages := length reader_orig in
  images <- pdf_to_images c pdf_path dpi poppler_path ;;
  when (negb (length images =? num_pages))
    (logging WARNING (ImageCountMismatch (length images) num_pages)) ;;
  new_writer ;;
  new_all_text ;;
  for_enumerate 0 images (process_page reader_orig) ;;
  match output_pdf_path with
  | Some p =>
      try (pages <- get_writer ;;
           with_open (open_output_pdf c p) p
             (call (writer_write c p pages)) (PdfFile pages) ;;
           logging INFO (WrotePdf p))
      except e =>
        (logging ERROR (WritePdfFailed p e) ;; raise e)
  | None => ret tt
  end ;;
  match output_txt_path with
  | Some p =>
      try (texts <- get_all_text ;;
           let combined := combined_text texts in
           with_open (open_output_txt c p) p
             (call (f_write c p combined)) (TextFile combined) ;;
           logging INFO (WroteText p))
      except e =>
        (logging ERROR (WriteTextFailed p e) ;; raise e)
  | None => ret tt
  end ;;
  ret (Summary (path_str pdf_path)
               (option_map path_str output_pdf_path)
               (option_map path_str output_txt_path)
               num_pages).

End Document.

(** ** The command line driver *)

(** What the input path is on disk: [is_file()], [is_dir()] with what
    [iterdir()] yields, or neither. *)
Inductive path_kind :=
| IsFile
| IsDir (entries : result (list Path))
| Missing.

Record World := mkWorld {
  (* [pytesseract.get_tesseract_version()], with the executable set at l.60 *)
  get_tesseract_version : option string -> result unit;
  kind : Path -> path_kind;
  (* the collaborators as they answer for each document *)
  collab : Path -> Collab
}.

(** The parsed command line, lines 277-290. *)
Record Args := mkArgs {
  args_input : Path;
  args_out_dir : option string;
  args_dpi : Z;
  args_lang : string;
  args_txt : bool;
  args_no_pdf : bool;
  args_skip_text_pages : bool;
  args_poppler_path : option string;
  args_tesseract_cmd : option string;
  args_config : option string;
  args_log : option string;
  args_batch : bool
}.

(** The message of lines 64-65. *)
Definition TESSERACT_NOT_FOUND : string :=
  "Tesseract not found or not working. Please install Tesseract OCR and ensure it's on PATH, or provide --tesseract-cmd path. See README for install instructions.".

(** [check_dependencies(tesseract_cmd)], lines 52-75. *)
Definition check_dependencies (w : World) (tesseract_cmd : option string)
  : M state unit :=
  (* Tesseract *)
  (try call (get_tesseract_version w (if_set tesseract_cmd))
   except _ =>
     raise (Exn RuntimeError TESSERACT_NOT_FOUND)) ;;
  (* Poppler: the body of the [try] is [pass] *)
  (try ret tt except _ => ret tt).

(** [list_input_files(input_path)], lines 78-88. *)
Definition list_input_files (w : World) (input_path : Path) : M state (list Path) :=
  emit (ListInputs input_path) ;;
  match kind w input_path with
  | IsFile => ret [input_path]
  | IsDir entries =>
      ps <- call entries ;;
      ret (sorted (filter (fun p => String.eqb (lower (suffix p)) ".pdf") ps))
  | Missing =>
      raise (Exn FileNotFoundError
               ("Input path " ++ path_str input_path ++ " does not exist."))
  end.

(** [input_path.is_dir()] *)
Definition is_dir (w : World) (p : Path) : bool :=
  match kind w p with IsDir _ => true | _ => false end.

(** How [main] ends: [return code], or [sys.exit(code)]. *)
Inductive outcome :=
| Returned (code : Z)
| SysExit (code : Z).

(** [try: c  except cls as e: h]: other exceptions pass through. *)
Definition try_except_only {A} (cls : exn_class) (c : M state A)
    (h : exn -> M state A) : M state A :=
  try c except e =>
    match exn_type e, cls with
    | RuntimeError, RuntimeError
    | FileNotFoundError, FileNotFoundError
    | IndexError, IndexError
    | OtherError, OtherError => h e
    | _, _ => raise e
    end.

(** The loop of lines 318-335, appending to [results]; [out_dir] is the
    value of line 305, [None] for an empty --out-dir. *)
Fixpoint process_files (w : World) (args : Args) (files : list Path)
    (results : list entry) : M state (list entry) :=
  match files with
  | [] => ret results
  | pdf_file :: files' =>
      results <-
        (try (res <- process_single_pdf (collab w pdf_file) pdf_file
                       (negb (args_no_pdf args)) (args_txt args) (args_dpi args)
                       (args_lang args) (args_skip_text_pages args)
                       (args_poppler_path args) (args_config args)
                       (if_set (args_out_dir args)) ;;
              ret (results ++ [res]))
         except e =>
           (logging ERROR (FailedProcessing pdf_file e) ;;
            ret (results ++ [Failure (path_str pdf_file) (exn_str e)]))) ;;
      process_files w args files' results
  end.

(** [main(argv)], lines 276-342, from the parsed arguments on.  A
    [sys.exit(1)] ends the function with [SysExit 1]. *)
Definition main (w : World) (args : Args) : M state outcome :=
  deps_ok <-
    try_except_only RuntimeError
      (check_dependencies w (args_tesseract_cmd args) ;; ret true)
      (fun e => logging ERROR (DependencyError e) ;; ret false) ;;
  if negb deps_ok then ret (SysExit 1) else
  let input_path := args_input args in
  (* Build file list *)
  listed <-
    (try (files <- list_input_files w input_path ;; ret (Some files))
     except e => (logging ERROR (InputError e) ;; ret None)) ;;
  match listed with
  | None => ret (SysExit 1)
  | Some files =>
      if args_batch args && negb (is_dir w input_path) then
        logging ERROR BatchNeedsDirectory ;;
        ret (SysExit 1)
      else
        results <- process_files w args files [] ;;
        (* Print summary *)
        for_each results (fun r => emit (Printed r)) ;;
        ret (Returned 0)
  end.

(** ** Vocabulary of the properties *)

(** The page indices the loop of [process_single_pdf] went through, in order. *)
Fixpoint progress_indices (es : list event) : list nat :=
  match es with
  | [] => []
  | Progress i :: es' => i :: progress_indices es'
  | _ :: es' => progress_indices es'
  end.

(** The images handed to the OCR engine for a searchable page, in order. *)
Fixpoint ocr_calls (es : list event) : list image :=
  match es with
  | [] => []
  | OcrPdf img :: es' => img :: ocr_calls es'
  | OcrText img :: es' => img :: ocr_calls es'
  | _ :: es' => ocr_calls es'
  end.

(** The contract of the OCR engine: the document it returns has one page. *)
Definition single_page_ocr (c : Collab) : Prop :=
  forall pdf_bytes ps, PdfReader_bytes c pdf_bytes = Ok ps -> length ps = 1.

(** The two steps that fetch the text of a page, for the text output, both
    return: the extraction of line 216 and the recognition of lines 224/231. *)
Definition text_steps_succeed (c : Collab) (lang : string)
    (config : option string) (page_idx : nat) (img : image) : Prop :=
  is_ok (extract_text_or_empty (plumber_text c page_idx) page_idx) = true
  /\ is_ok (image_to_string c img lang (or_empty config)) = true.

(** [writer.add_page(reader_orig.pages[page_idx])] at line 212 raises [e]. *)
Definition copy_fails (c : Collab) (reader_orig : list page) (page_idx : nat)
    (e : exn) : Prop :=
  index reader_orig page_idx = Raise e
  \/ (exists p, index reader_orig page_idx = Ok p)
     /\ copy_original c page_idx = Raise e.

(** The page takes the branch of line 208 that copies the original. *)
Definition takes_skip_path (c : Collab) (skip_if_text : bool) (page_idx : nat)
  : bool :=
  skip_if_text &&
  match pdf_page_has_text (plumber_classify c page_idx) (Z.of_nat page_idx) with
  | Ok has_text => has_text
  | Raise _ => false
  end.

(** The steps that fetch the text of the page, on the path its turn takes,
    do not raise: the extraction of line 216 when the page takes the branch
    that copies and its original is copied; the recognition of line 224 or
    231 when the image is OCRed into a document that can be read. *)
Definition executed_text_steps_succeed (c : Collab) (lang : string)
    (config : option string) (skip_if_text : bool) (reader_orig : list page)
    (page_idx : nat) (img : image) : Prop :=
  if takes_skip_path c skip_if_text page_idx
     && is_ok (index reader_orig page_idx)
     && is_ok (copy_original c page_idx)
  then is_ok (extract_text_or_empty (plumber_text c page_idx) page_idx) = true
  else forall pdf_bytes,
         image_to_pdf_or_hocr c img lang (or_empty config) = Ok pdf_bytes ->
         is_ok (PdfReader_bytes c pdf_bytes) = true ->
         is_ok (image_to_string c img lang (or_empty config)) = true.

(** No step raises for the page, and the text fetched for it is [t]: the
    original is copied and its text extracted, or the image is OCRed into a
    document and into a text. *)
Definition page_yields (c : Collab) (lang : string) (config : option string)
    (skip_if_text : bool) (reader_orig : list page) (page_idx : nat)
    (img : image) (t : str) : Prop :=
  if takes_skip_path c skip_if_text page_idx then
    is_ok (index reader_orig page_idx) = true
    /\ copy_original c page_idx = Ok tt
    /\ extract_text_or_empty (plumber_text c page_idx) page_idx = Ok t
  else
    (exists pdf_bytes,
        image_to_pdf_or_hocr c img lang (or_empty config) = Ok pdf_bytes
        /\ is_ok (PdfReader_bytes c pdf_bytes) = true)
    /\ image_to_string c img lang (or_empty config) = Ok t.

(** The warning of line 199, when it is logged. *)
Definition mismatch_warning (n_images n_pages : nat) : list event :=
  if n_images =? n_pages then []
  else [Log WARNING (ImageCountMismatch n_images n_pages)].

(** The state in which the loop of line 205 starts. *)
Definition loop_start (pdf_path : Path) (dpi : Z) (lang : string)
    (n_images n_pages : nat) (s : state) : state :=
  mkState [] []
    (trace s ++ [Log INFO (Processing pdf_path dpi lang); OpenPdf pdf_path;
                 Rasterize pdf_path]
             ++ mismatch_warning n_images n_pages)
    (files s).

(** The paths of lines 183-184. *)
Definition searchable_pdf_path (pdf_path : Path) (out_dir : option string) : Path :=
  mkPath (match out_dir with Some d => d | None => parent pdf_path end)
         (stem pdf_path ++ "_searchable") ".pdf".

Definition text_path (pdf_path : Path) (out_dir : option string) : Path :=
  mkPath (match out_dir with Some d => d | None => parent pdf_path end)
         (stem pdf_path) ".txt".

(** The entry [main] records for a document, from how its processing ended. *)
Definition entry_of (pdf_file : Path) (r : result entry) : entry :=
  match r with
  | Ok res => res
  | Raise e => Failure (path_str pdf_file) (exn_str e)
  end.

(** The OCR engine cannot be reached: [get_tesseract_version] raises. *)
Definition ocr_engine_unreachable (w : World) (args : Args) : Prop :=
  is_ok (get_tesseract_version w (if_set (args_tesseract_cmd args))) = false.

(** The rasterizer cannot be reached: [convert_from_path] raises for every
    document, whatever the resolution and the path given for poppler. *)
Definition rasterizer_unreachable (w : World) : Prop :=
  forall pdf dpi poppler_path,
    is_ok (convert_from_path (collab w pdf) dpi poppler_path) = false.

End Pipeline.

Arguments BlankPage {page} width height.
Arguments TextFile {page} text.
Arguments Unfinished {page}.
Arguments Log {image} l m.
Arguments ListInputs {image} input_path.
Arguments OpenPdf {image} pdf.
Arguments Rasterize {image} pdf.
Arguments Progress {image} page_idx.
Arguments Printed {image} r.
Arguments initial {image page}.
Arguments mismatch_warning {image} n_images n_pages.

(** ** Concrete documents

    Images, pages and PDF bytes are named by strings; the OCR of image [i]
    is the one-page document ["ocr:i"], and its text is the name [i]. *)

Definition boom : exn := Exn OtherError "boom".

Definition sample : Path := mkPath "/in" "sample" ".pdf".

(** 21 characters. *)
Definition long_text : str := py "abcdefghijklmnopqrstu".

(** The collaborators for a document whose reader sees [pages], rasterized
    into [images], whose pages pdfplumber sees as [plumber], where copying
    an original page ends as [copy] and recognizing text as [to_string]. *)
Definition collab_of (pages : list string) (images : result (list string))
    (plumber : plumber_doc) (copy : result unit) (to_string : string -> result str)
  : Collab string string string :=
  mkCollab (Ok tt) (Ok pages) (fun _ _ => images)
    (fun _ => plumber) (fun _ => copy) (fun _ => plumber) (fun _ => copy)
    (fun img _ _ => Ok (String.append "ocr:" img))
    (fun img _ _ => to_string img)
    (fun pdf_bytes => Ok [pdf_bytes])
    (fun _ => Ok tt) (fun _ _ => Ok tt)
    (fun _ => Ok tt) (fun _ _ => Ok tt).

(** Two scanned pages, nothing fails. *)
Definition scanned : Collab string string string :=
  collab_of ["p0"; "p1"] (Ok ["i0"; "i1"]) (Ok [Ok None; Ok None]) (Ok tt)
            (fun img => Ok (py img)).

(** One scanned page whose text recognition raises. *)
Definition text_fails : Collab string string string :=
  collab_of ["p0"] (Ok ["i0"]) (Ok [Ok None]) (Ok tt) (fun _ => Raise boom).

(** Two pages, of which the rasterizer returns one image. *)
Definition fewer_images : Collab string string string :=
  collab_of ["p0"; "p1"] (Ok ["i0"]) (Ok [Ok None; Ok None]) (Ok tt)
            (fun img => Ok (py img)).

(** One page, for which the rasterizer returns two images. *)
Definition more_images : Collab string string string :=
  collab_of ["p0"] (Ok ["i0"; "i1"]) (Ok [Ok None]) (Ok tt)
            (fun img => Ok (py img)).

(** One page that carries 21 characters of text. *)
Definition born_digital : Collab string string string :=
  collab_of ["p0"] (Ok ["i0"]) (Ok [Ok (Some long_text)]) (Ok tt)
            (fun img => Ok (py img)).

(** The same page, when adding it to the writer raises. *)
Definition copy_broken : Collab string string string :=
  collab_of ["p0"] (Ok ["i0"]) (Ok [Ok (Some long_text)]) (Raise boom)
            (fun img => Ok (py img)).

(** A document when poppler is not installed. *)
Definition no_poppler : Collab string string string :=
  collab_of ["p0"] (Raise (Exn OtherError "Unable to get page count. Is poppler installed and in PATH?"))
            (Ok [Ok None]) (Ok tt) (fun img => Ok (py img)).

(** Three pages: the first and the third are scans whose text is ["A"] and
    ["C"], the second is classified as text and its extracted text is ["B"]. *)
Definition three_pages : Collab string string string :=
  mkCollab (Ok tt) (Ok ["p0"; "p1"; "p2"]) (fun _ _ => Ok ["A"; "b"; "C"])
    (fun _ => Ok [Ok None; Ok (Some long_text); Ok None])
    (fun _ => Ok tt)
    (fun _ => Ok [Ok None; Ok (Some (py "B")); Ok None])
    (fun _ => Ok tt)
    (fun img _ _ => Ok (String.append "ocr:" img))
    (fun img _ _ => Ok (py img))
    (fun pdf_bytes => Ok [pdf_bytes])
    (fun _ => Ok tt) (fun _ _ => Ok tt)
    (fun _ => Ok tt) (fun _ _ => Ok tt).

Definition default_args (input : Path) : Args :=
  mkArgs input None 300 "eng" false false false None None None None false.

(** Tesseract answers, poppler is missing, the input is one file. *)
Definition world_without_poppler : World string string string :=
  mkWorld (fun _ => Ok tt) (fun _ => IsFile) (fun _ => no_poppler).

(** Tesseract is missing. *)
Definition world_without_tesseract : World string string string :=
  mkWorld (fun _ => Raise (Exn OtherError "tesseract is not installed or it's not in your PATH"))
          (fun _ => IsFile) (fun _ => scanned).

(** A directory of three documents, the second of which cannot be rasterized. *)
Definition doc1 : Path := mkPath "/in" "a" ".pdf".
Definition doc2 : Path := mkPath "/in" "b" ".pdf".
Definition doc3 : Path := mkPath "/in" "c" ".pdf".

Definition batch_world : World string string string :=
  mkWorld (fun _ => Ok tt)
          (fun _ => IsDir (Ok [doc3; mkPath "/in" "notes" ".txt"; doc1; doc2]))
          (fun p => if String.eqb (stem p) "b" then no_poppler else scanned).

(** The state before anything is done. *)
Definition start : state string string := initial.

(** A run of [process_single_pdf] on [sample], writing the searchable PDF,
    from the initial state. *)
Definition run (c : Collab string string string) (output_txt skip_if_text : bool)
  : result entry * state string string :=
  process_single_pdf c sample true output_txt 300 "eng" skip_if_text
    None None None start.

(** One turn of the loop for page 0 of [sample], with [skip_if_text] on. *)
Definition turn (c : Collab string string string) (output_txt : bool)
  : result unit * state string string :=
  process_page c sample output_txt "eng" true None ["p0"] 0 "i0" start.

(** * The rest of the code: vocabulary and the desktop front end *)

(** [t] does not begin with a character [strip()] removes. *)
Definition no_leading_space (t : str) : bool :=
  match t with
  | [] => true
  | ch :: _ => negb (isspace ch)
  end.

(** The suffix test of line 85. *)
Definition is_pdf (p : Path) : bool := String.eqb (lower (suffix p)) ".pdf".

(** The order [sorted] puts the paths of a directory in. *)
Definition name_le (p q : Path) : Prop := String.leb (name p) (name q) = true.

Section Provenance.

Variables image page bytes : Type.

(** Where a page of the output can come from, in the turn of the loop for
    index [k] and image [img]: the reader's page [k] (lines 212 and 237), a
    page of the document the OCR engine returned for [img] (line 161), or
    the blank page of line 241, which needs the copy of line 237 to fail. *)
Definition page_from (c : Collab image page bytes) (lang : string)
    (config : option string) (reader_orig : list page) (k : nat) (img : image)
    (pg : out_page page) : Prop :=
  (exists p, index reader_orig k = Ok p /\ pg = OfPage p)
  \/ (exists pdf_bytes ps p,
        image_to_pdf_or_hocr c img lang (or_empty config) = Ok pdf_bytes
        /\ PdfReader_bytes c pdf_bytes = Ok ps
        /\ In p ps /\ pg = OfPage p)
  \/ (pg = BlankPage 595 842
      /\ (is_ok (index reader_orig k) = false
          \/ is_ok (copy_original_again c k) = false)).

(** The pages of the document the OCR engine returns for an image, none
    when a step raises. *)
Definition ocr_pages (c : Collab image page bytes) (lang : string)
    (config : option string) (img : image) : list page :=
  match image_to_pdf_or_hocr c img lang (or_empty config) with
  | Ok pdf_bytes =>
      match PdfReader_bytes c pdf_bytes with
      | Ok ps => ps
      | Raise _ => []
      end
  | Raise _ => []
  end.

(** OCR returns for the image: a document that can be read, and, when text
    output is on, a text. *)
Definition ocr_succeeds (c : Collab image page bytes) (lang : string)
    (config : option string) (output_txt : bool) (img : image) : Prop :=
  (exists pdf_bytes,
      image_to_pdf_or_hocr c img lang (or_empty config) = Ok pdf_bytes
      /\ is_ok (PdfReader_bytes c pdf_bytes) = true)
  /\ (output_txt = true ->
      is_ok (image_to_string c img lang (or_empty config)) = true).

(** The page at index [k] is classified as text and can be copied as it is
    (lines 208-217). *)
Definition copies_cleanly (c : Collab image page bytes) (output_txt : bool)
    (reader_orig : list page) (k : nat) : Prop :=
  pdf_page_has_text (plumber_classify c k) (Z.of_nat k) = Ok true
  /\ is_ok (index reader_orig k) = true
  /\ copy_original c k = Ok tt
  /\ (output_txt = true ->
      is_ok (extract_text_or_empty (plumber_text c k) k) = true).

(** No step raises in the turn of index [k]: on the branch that copies,
    the copy and the text extraction return; on the OCR branch, the OCR
    engine does. *)
Definition page_succeeds (c : Collab image page bytes) (lang : string)
    (config : option string) (skip_if_text output_txt : bool)
    (reader_orig : list page) (k : nat) (img : image) : Prop :=
  if takes_skip_path c skip_if_text k then
    is_ok (index reader_orig k) = true
    /\ copy_original c k = Ok tt
    /\ (output_txt = true ->
        is_ok (extract_text_or_empty (plumber_text c k) k) = true)
  else ocr_succeeds c lang config output_txt img.

(** What the turn of index [k] is meant to append: the reader's page on the
    branch that copies, the pages of the OCR result on the other. *)
Definition expected_pages (c : Collab image page bytes) (lang : string)
    (config : option string) (skip_if_text : bool) (reader_orig : list page)
    (ki : nat * image) : list (out_page page) :=
  if takes_skip_path c skip_if_text (fst ki) then
    match nth_error reader_orig (fst ki) with
    | Some p => [OfPage p]
    | None => []
    end
  else map (@OfPage page) (ocr_pages c lang config (snd ki)).

(** The calls to the OCR engine the turn is meant to make: none on the
    branch that copies; on the other, one for the page and, with text
    output on, one for the text. *)
Definition expected_ocr_calls (c : Collab image page bytes)
    (skip_if_text output_txt : bool) (ki : nat * image) : list image :=
  if takes_skip_path c skip_if_text (fst ki) then []
  else if output_txt then [snd ki; snd ki] else [snd ki].

(** What a [with open(p, mode) as f: ...] block leaves at [p]: nothing new
    when [open] raises, the file with its [content] when the write returns,
    an unfinished file when the write raises after [open]. *)
Definition left_at (opening written : result unit) (p : Path) (content : file page)
  : list (Path * file page) :=
  match opening, written with
  | Raise _, _ => []
  | Ok _, Ok _ => [(p, content)]
  | Ok _, Raise _ => [(p, Unfinished)]
  end.

(** The two writes of lines 244-262, as they end for the pages [PS] and the
    texts [TS] the loop has left: the write itself when the output is asked
    for, the log record (the text is not attempted after a failed PDF write)
    and the files left behind. *)
Definition pdf_write (c : Collab image page bytes) (pdf_path : Path)
    (out_dir : option string) (output_pdf : bool) (PS : list (out_page page))
  : result unit :=
  if output_pdf then write_pdf c (searchable_pdf_path pdf_path out_dir) PS
  else Ok tt.

Definition text_write (c : Collab image page bytes) (pdf_path : Path)
    (out_dir : option string) (output_txt : bool) (TS : list str)
  : result unit :=
  if output_txt then write_text c (text_path pdf_path out_dir) (combined_text TS)
  else Ok tt.

Definition write_logs (c : Collab image page bytes) (pdf_path : Path)
    (out_dir : option string) (output_pdf output_txt : bool)
    (PS : list (out_page page)) (TS : list str) : list (event image) :=
  (if output_pdf then
     [match pdf_write c pdf_path out_dir output_pdf PS with
      | Ok _ => Log INFO (WrotePdf (searchable_pdf_path pdf_path out_dir))
      | Raise e => Log ERROR (WritePdfFailed (searchable_pdf_path pdf_path out_dir) e)
      end]
   else [])
  ++ (if is_ok (pdf_write c pdf_path out_dir output_pdf PS) && output_txt then
        [match text_write c pdf_path out_dir output_txt TS with
         | Ok _ => Log INFO (WroteText (text_path pdf_path out_dir))
         | Raise e => Log ERROR (WriteTextFailed (text_path pdf_path out_dir) e)
         end]
      else []).

Definition written_files (c : Collab image page bytes) (pdf_path : Path)
    (out_dir : option string) (output_pdf output_txt : bool)
    (PS : list (out_page page)) (TS : list str) : list (Path * file page) :=
  (if is_ok (pdf_write c pdf_path out_dir output_pdf PS) && output_txt
   then left_at (open_output_txt c (text_path pdf_path out_dir))
          (f_write c (text_path pdf_path out_dir) (combined_text TS))
          (text_path pdf_path out_dir) (TextFile (combined_text TS))
   else [])
  ++ (if output_pdf
      then left_at (open_output_pdf c (searchable_pdf_path pdf_path out_dir))
             (writer_write c (searchable_pdf_path pdf_path out_dir) PS)
             (searchable_pdf_path pdf_path out_dir) (PdfFile PS)
      else []).

(** What [list_input_files] returns or raises, as a value. *)
Definition input_files (w : World image page bytes) (input_path : Path)
  : result (list Path) :=
  match kind w input_path with
  | IsFile => Ok [input_path]
  | IsDir entries =>
      match entries with
      | Ok ps => Ok (sorted (filter (fun p => String.eqb (lower (suffix p)) ".pdf") ps))
      | Raise e => Raise e
      end
  | Missing =>
      Raise (Exn FileNotFoundError
               ("Input path " ++ path_str input_path ++ " does not exist."))
  end.

(** The three checks [main] makes before its loop all pass. *)
Definition startup_ok (w : World image page bytes) (args : Args) : bool :=
  is_ok (get_tesseract_version w (if_set (args_tesseract_cmd args)))
  && is_ok (input_files w (args_input args))
  && negb (args_batch args && negb (is_dir w (args_input args))).

(** The entries printed, in order. *)
Fixpoint printed (es : list (event image)) : list entry :=
  match es with
  | [] => []
  | Printed r :: es' => r :: printed es'
  | _ :: es' => printed es'
  end.

(** The documents opened, in order. *)
Fixpoint opened (es : list (event image)) : list Path :=
  match es with
  | [] => []
  | OpenPdf p :: es' => p :: opened es'
  | _ :: es' => opened es'
  end.

End Provenance.

(** ** [pdf_ocr_gui.py]: the worker of the desktop form *)

(** [x or None] on the text of a field. *)
Definition or_none (s : string) : option string :=
  match s with
  | EmptyString => None
  | _ => Some s
  end.

(** The lines [run_ocr] hands to [gui_log]. *)
Inductive gui_message :=
| CheckingDependencies                     (* l.181 *)
| ProcessingFiles (total_files : nat)      (* l.193 *)
| Done (input : string)                    (* l.208 *)
| Failed (f : Path) (error : string)       (* l.210 *)
| AllTasksComplete.                        (* l.224 *)

(** What [run_ocr] does to the widgets and the desktop. *)
Inductive gui_event :=
| ShowError (title message : string)       (* [messagebox.showerror] *)
| ProgressMaximum (n : nat)                (* [self.progress["maximum"] = n] *)
| ProgressValue (n : nat)                  (* [self.progress["value"] = n] *)
| Notify (total_files : nat)               (* [notification.notify] *)
| ShowInfo (total_files : nat).            (* [messagebox.showinfo] *)

(** The fields of the form [run_ocr] reads.  Reading the DPI field raises
    when its text is no integer ([IntVar.get]). *)
Record Form := mkForm {
  form_input_path : Path;
  form_output_path : string;
  form_tesseract_path : string;
  form_poppler_path : string;
  form_log_to_file : string;
  form_dpi : result Z;
  form_lang : string;
  form_output_txt : bool;
  form_skip_text : bool
}.

Section Gui.

Variables image page bytes : Type.

Record Desktop := mkDesktop {
  (* the services the command line tool runs on *)
  desktop_world : World image page bytes;
  (* [input_path.exists()], l.165 *)
  path_exists : Path -> bool;
  (* [logging.FileHandler(log_file, mode='w', encoding='utf-8')], l.177 *)
  open_log_file : string -> result unit;
  (* [notification.notify(...)], l.216 *)
  notify : nat -> result unit
}.

(** The state of the tool, the queue [self.log_queue], the lines shown in
    the console widget, and what was done to the other widgets. *)
Record gui_state := mkGui {
  cli : state image page;
  log_queue : list gui_message;
  console : list gui_message;
  widgets : list gui_event
}.

(** A computation of the command line tool, run from the form. *)
Definition lift_cli {A} (m : M (state image page) A) : M gui_state A :=
  fun g =>
    let (r, s') := m (cli g) in
    (r, mkGui s' (log_queue g) (console g) (widgets g)).

(** [self.gui_log(msg)], lines 147-148. *)
Definition gui_log (m : gui_message) : M gui_state unit :=
  modify (fun g => mkGui (cli g) (log_queue g ++ [m]) (console g) (widgets g)).

Definition widget (e : gui_event) : M gui_state unit :=
  modify (fun g => mkGui (cli g) (log_queue g) (console g) (widgets g ++ [e])).

(** The loop of [process_log_queue], lines 151-156: each queued line is taken
    from the front and inserted at the end of the console. *)
Fixpoint drain (queue shown : list gui_message) : list gui_message :=
  match queue with
  | [] => shown
  | msg :: queue' => drain queue' (shown ++ [msg])
  end.

(** [process_log_queue], lines 150-157, without the timer that calls it again. *)
Definition process_log_queue (g : gui_state) : gui_state :=
  mkGui (cli g) [] (drain (log_queue g) (console g)) (widgets g).

(** [res['input']] *)
Definition entry_input (res : entry) : string :=
  match res with
  | Summary input _ _ _ => input
  | Failure input _ => input
  end.

(** [for i, x in enumerate(xs, start=i): body(i, x)] *)
Fixpoint for_enumerate_from {S A} (i : nat) (xs : list A)
    (body : nat -> A -> M S unit) : M S unit :=
  match xs with
  | [] => ret tt
  | x :: xs' => body i x ;; for_enumerate_from (Datatypes.S i) xs' body
  end.

(** The body of the loop of line 195, lines 196-213.  The fields are read
    inside the [try], among the arguments of the call. *)
Definition run_file (d : Desktop) (self : Form) (i : nat) (f : Path)
  : M gui_state unit :=
  (try (dpi <- call (form_dpi self) ;;
        res <- lift_cli
                 (process_single_pdf (collab (desktop_world d) f) f true
                    (form_output_txt self) dpi (form_lang self)
                    (form_skip_text self) (or_none (form_poppler_path self))
                    None (or_none (form_output_path self))) ;;
        gui_log (Done (entry_input res)))
   except e =>
     gui_log (Failed f (exn_str e))) ;;
  widget (ProgressValue i).

(** [run_ocr], lines 163-224.  A [return] ends the function. *)
Definition run_ocr (d : Desktop) (self : Form) : M gui_state unit :=
  let input_path := form_input_path self in
  if negb (path_exists d input_path) then
    widget (ShowError "Error" "Input path does not exist.")
  else
    let tesseract_cmd := or_none (form_tesseract_path self) in
    (* Logging setup *)
    match or_none (form_log_to_file self) with
    | Some log_file => call (open_log_file d log_file)
    | None => ret tt
    end ;;
    gui_log CheckingDependencies ;;
    deps_ok <-
      (try (lift_cli (check_dependencies (desktop_world d) tesseract_cmd) ;; ret true)
       except e => (widget (ShowError "Error" (exn_str e)) ;; ret false)) ;;
    if negb deps_ok then ret tt else
    files <- lift_cli (list_input_files (desktop_world d) input_path) ;;
    let total_files := length files in
    widget (ProgressMaximum total_files) ;;
    widget (ProgressValue 0) ;;
    gui_log (ProcessingFiles total_files) ;;
    for_enumerate_from 1 files (run_file d self) ;;
    (* Notify user *)
    call (notify d total_files) ;;
    widget (Notify total_files) ;;
    widget (ShowInfo total_files) ;;
    gui_log AllTasksComplete.

(** The call of lines 197-207 with the reading of its arguments: how it
    ends and the state it leaves. *)
Definition run_of (d : Desktop) (self : Form) (f : Path) (s : state image page)
  : result entry * state image page :=
  match form_dpi self with
  | Ok dpi =>
      process_single_pdf (collab (desktop_world d) f) f true
        (form_output_txt self) dpi (form_lang self) (form_skip_text self)
        (or_none (form_poppler_path self)) None (or_none (form_output_path self)) s
  | Raise e => (Raise e, s)
  end.

(** The log file, when one is asked for, can be opened. *)
Definition log_file_opens (d : Desktop) (self : Form) : result unit :=
  match or_none (form_log_to_file self) with
  | Some log_file => open_log_file d log_file
  | None => Ok tt
  end.

(** The line logged for a document, from how its processing ended. *)
Definition line_of (f : Path) (r : result entry) : gui_message :=
  match r with
  | Ok res => Done (entry_input res)
  | Raise e => Failed f (exn_str e)
  end.

End Gui.

Arguments mkGui {image page} cli log_queue console widgets.


(** ** More concrete documents and desktops *)

(** One page that is classified as text, whose text extraction raises and
    whose text recognition raises too. *)
Definition worst_case : Collab string string string :=
  mkCollab (Ok tt) (Ok ["p0"]) (fun _ _ => Ok ["i0"])
    (fun _ => Ok [Ok (Some long_text)])
    (fun _ => Ok tt)
    (fun _ => Raise boom)
    (fun _ => Ok tt)
    (fun img _ _ => Ok (String.append "ocr:" img))
    (fun _ _ _ => Raise boom)
    (fun pdf_bytes => Ok [pdf_bytes])
    (fun _ => Ok tt) (fun _ _ => Ok tt)
    (fun _ => Ok tt) (fun _ _ => Ok tt).

(** One scanned page on which the OCR engine raises and whose original
    cannot be copied either. *)
Definition all_broken : Collab string string string :=
  mkCollab (Ok tt) (Ok ["p0"]) (fun _ _ => Ok ["i0"])
    (fun _ => Ok [Ok None])
    (fun _ => Ok tt)
    (fun _ => Ok [Ok None])
    (fun _ => Raise boom)
    (fun _ _ _ => Raise boom)
    (fun _ _ _ => Raise boom)
    (fun pdf_bytes => Ok [pdf_bytes])
    (fun _ => Ok tt) (fun _ _ => Ok tt)
    (fun _ => Ok tt) (fun _ _ => Ok tt).

(** Two scanned pages; the output files can be opened, and writing into
    them ends as [pdf] and [txt]. *)
Definition scanned_writing (pdf txt : result unit) : Collab string string string :=
  mkCollab (Ok tt) (Ok ["p0"; "p1"]) (fun _ _ => Ok ["i0"; "i1"])
    (fun _ => Ok [Ok None; Ok None])
    (fun _ => Ok tt)
    (fun _ => Ok [Ok None; Ok None])
    (fun _ => Ok tt)
    (fun img _ _ => Ok (String.append "ocr:" img))
    (fun img _ _ => Ok (py img))
    (fun pdf_bytes => Ok [pdf_bytes])
    (fun _ => Ok tt) (fun _ _ => pdf)
    (fun _ => Ok tt) (fun _ _ => txt).

(** A directory that cannot be read. *)
Definition unlistable_world : World string string string :=
  mkWorld (fun _ => Ok tt) (fun _ => IsDir (Raise boom)) (fun _ => scanned).

Definition folder : Path := mkPath "/" "in" "".

(** A desktop on [w] where every path exists or none does, the log file
    can be opened, and the notification ends as [notified]. *)
Definition desktop_of (w : World string string string) (path_exists : bool)
    (notified : result unit) : Desktop string string string :=
  mkDesktop w (fun _ => path_exists) (fun _ => Ok tt) (fun _ => notified).

(** The form filled in with the folder, text output on, and the DPI field
    read as [dpi]. *)
Definition form_of (dpi : result Z) : Form :=
  mkForm folder "" "" "" "" dpi "eng" true false.

(** The state of the form before anything is done. *)
Definition gui_start : gui_state string string := mkGui start [] [] [].

(** * Properties *)

(** ** The classifier *)

(** Case analysis on the scrutinee of the innermost [match] of the goal. *)
Ltac case_match :=
  match goal with
  | |- context [match ?x with _ => _ end] =>
      lazymatch x with
      | context [match _ with _ => _ end] => fail
      | _ => destruct x eqn:?
      end
  end.

(** The classifier never raises. *)
Lemma pdf_page_has_text_total (pdf : plumber_doc) (page_number : Z) :
  exists b, pdf_page_has_text pdf page_number = Ok b.
Proof.
  unfold pdf_page_has_text, index, extract_text; simpl.
  destruct pdf as [doc|e]; [|now exists false].
  destruct (_ || _); [now exists false|].
  repeat case_match; eauto; discriminate.
Qed.

(** Within the pages of an opened document, the classifier is the test of
    line 101 on the extracted text. *)
Lemma pdf_page_has_text_in_range (doc : list plumber_page) (page_number : Z) :
  (0 <= page_number < Z.of_nat (length doc))%Z ->
  pdf_page_has_text (Ok doc) page_number =
  Ok match nth_error doc (Z.to_nat page_number) with
     | Some (Ok (Some t)) => 20 <? length (strip t)
     | _ => false
     end.
Proof.
  intros Hr. unfold pdf_page_has_text, index, extract_text; simpl.
  replace (_ || _) with false
    by (symmetry; apply orb_false_iff; split;
        [apply Z.ltb_ge|rewrite Z.geb_leb; apply Z.leb_gt]; lia).
  destruct (nth_error _ _) as [[[t|]|e]|]; try reflexivity.
  destruct t as [|a t]; [reflexivity|].
  cbn [truthy andb].
  now destruct (20 <? _).
Qed.

(** C3.  For an opened document and a page index within its pages, the
    classifier returns true exactly when [extract_text()] returns a text
    whose length after [strip()] is greater than 20, and false otherwise;
    a text of 21 characters after trimming gives true, one of 20 gives
    false. *)
Theorem pdf_page_has_text_threshold
    (doc : list plumber_page) (page_number : Z)
    (Hrange : (0 <= page_number < Z.of_nat (length doc))%Z) :
  (pdf_page_has_text (Ok doc) page_number = Ok true <->
   exists text, nth_error doc (Z.to_nat page_number) = Some (Ok (Some text))
                /\ 20 < length (strip text))
  /\ (pdf_page_has_text (Ok doc) page_number = Ok false <->
      ~ exists text, nth_error doc (Z.to_nat page_number) = Some (Ok (Some text))
                     /\ 20 < length (strip text))
  /\ (forall text,
        nth_error doc (Z.to_nat page_number) = Some (Ok (Some text)) ->
        (length (strip text) = 21 -> pdf_page_has_text (Ok doc) page_number = Ok true)
        /\ (length (strip text) = 20 -> pdf_page_has_text (Ok doc) page_number = Ok false)).
Proof.
  rewrite (pdf_page_has_text_in_range _ Hrange).
  split; [|split].
  - split.
    + destruct (nth_error doc (Z.to_nat page_number)) as [[[t|]|e]|]; try discriminate.
      intros H; injection H as H. apply Nat.ltb_lt in H. eauto.
    + intros (text & -> & H). f_equal. now apply Nat.ltb_lt.
  - split.
    + intros H (text & E & Hl). rewrite E in H. injection H as H.
      apply Nat.ltb_ge in H. lia.
    + intros H. destruct (nth_error doc (Z.to_nat page_number)) as [[[t|]|e]|]; try reflexivity.
      f_equal. apply Nat.ltb_ge. apply Nat.nlt_ge. intros Hl. apply H; eauto.
  - intros text ->. split; intros ->; reflexivity.
Qed.

(** C9.  For an index that is negative, or at or beyond the number of
    pages of the document (or when the document cannot be opened at all),
    the classifier returns false; and for every integer index it returns a
    boolean: no exception leaves it. *)
Theorem pdf_page_has_text_out_of_range
    (pdf : plumber_doc) (page_number : Z)
    (Hout : forall doc, pdf = Ok doc ->
              (page_number < 0 \/ page_number >= Z.of_nat (length doc))%Z) :
  pdf_page_has_text pdf page_number = Ok false
  /\ forall n : Z, exists b, pdf_page_has_text pdf n = Ok b.
Proof.
  split; [|intros n; apply pdf_page_has_text_total].
  unfold pdf_page_has_text; simpl.
  destruct pdf as [doc|e]; [|reflexivity].
  replace (_ || _) with true; [reflexivity|].
  symmetry; apply orb_true_iff.
  destruct (Hout doc eq_refl);
    [left; apply Z.ltb_lt|right; rewrite Z.geb_leb; apply Z.leb_le]; lia.
Qed.

(** ** The monad and the loops *)

Section Properties.

Variables image page bytes : Type.
Variable c : Collab image page bytes.

Lemma extend_extend (ps1 ps2 : list (out_page page)) (ts1 ts2 : list str)
    (es1 es2 : list (event image)) (s : state image page) :
  extend ps2 ts2 es2 (extend ps1 ts1 es1 s) =
  extend (ps1 ++ ps2) (ts1 ++ ts2) (es1 ++ es2) s.
Proof. unfold extend; simpl. now rewrite <- !app_assoc. Qed.

Lemma for_each_append (ps : list page) (s : state image page) :
  for_each ps (fun p => writer_append (image:=image) (OfPage p)) s =
  (Ok tt, extend (map (@OfPage page) ps) [] [] s).
Proof.
  revert s; induction ps as [|p ps IH]; intros s; simpl.
  - unfold extend. rewrite !app_nil_r. now destruct s.
  - unfold writer_append at 1, modify. rewrite IH, extend_extend. reflexivity.
Qed.

(** Unfolding of the state primitives, down to [extend]. *)
Ltac unfold_ops :=
  cbv [ocr_image_to_pdf_bytes ocr_image_to_text
       logging emit writer_append all_text_append call modify when
       bind ret raise try_except Monad_M MonadExc_M Monad_result MonadExc_result].

Ltac norm_state := repeat rewrite extend_extend; cbn [app]; repeat rewrite app_nil_r.

(** [merge_pdf_bytes_into_writer] appends the pages of the parsed bytes, or
    raises before appending any. *)
Lemma merge_pdf_bytes_into_writer_eq (pdf_bytes : bytes) (s : state image page) :
  merge_pdf_bytes_into_writer c pdf_bytes s =
  match PdfReader_bytes c pdf_bytes with
  | Ok ps => (Ok tt, extend (map (@OfPage page) ps) [] [] s)
  | Raise e => (Raise e, s)
  end.
Proof.
  unfold merge_pdf_bytes_into_writer.
  cbv [bind Monad_M call].
  destruct (PdfReader_bytes c pdf_bytes); [apply for_each_append|reflexivity].
Qed.

(** The OCR branch, case by case. *)
Lemma perform_ocr_eq (output_txt : bool) (lang : string) (config : option string)
    (img : image) (s : state image page) :
  perform_ocr c output_txt lang config img s =
  match image_to_pdf_or_hocr c img lang (or_empty config) with
  | Raise e => (Raise e, extend [] [] [OcrPdf img] s)
  | Ok pdf_bytes =>
      match PdfReader_bytes c pdf_bytes with
      | Raise e => (Raise e, extend [] [] [OcrPdf img] s)
      | Ok ps =>
          if output_txt then
            match image_to_string c img lang (or_empty config) with
            | Ok t => (Ok tt, extend (map (@OfPage page) ps) [t] [OcrPdf img; OcrText img] s)
            | Raise e => (Raise e, extend (map (@OfPage page) ps) [] [OcrPdf img; OcrText img] s)
            end
          else (Ok tt, extend (map (@OfPage page) ps) [] [OcrPdf img] s)
      end
  end.
Proof.
  unfold perform_ocr.
  cbv [bind Monad_M]. unfold ocr_image_to_pdf_bytes at 1.
  cbv [bind Monad_M emit modify call].
  destruct (image_to_pdf_or_hocr _ _ _ _) as [b|e]; [|reflexivity].
  rewrite merge_pdf_bytes_into_writer_eq.
  destruct (PdfReader_bytes c b) as [ps|e]; [|reflexivity].
  destruct output_txt; unfold_ops; norm_state; [|reflexivity].
  destruct (image_to_string _ _ _ _); norm_state; reflexivity.
Qed.


Variables (pdf_path : Path) (output_pdf output_txt : bool) (dpi : Z)
  (lang : string) (skip_if_text : bool) (poppler_path tesseract_config : option string).

Lemma progress_indices_app (es1 es2 : list (event image)) :
  progress_indices (es1 ++ es2) = progress_indices es1 ++ progress_indices es2.
Proof.
  induction es1 as [|e es1 IH]; [reflexivity|].
  destruct e; simpl; now rewrite IH.
Qed.

(** Runs the body of the loop through all its cases. *)
Ltac run_page :=
  unfold process_page; unfold_ops;
  repeat first [rewrite perform_ocr_eq | case_match | progress norm_state].

(** When both text steps return wherever they are called, those on the path
    taken do. *)
Lemma text_steps_succeed_executed (reader_orig : list page) (page_idx : nat)
    (img : image) :
  text_steps_succeed c lang tesseract_config page_idx img ->
  executed_text_steps_succeed c lang tesseract_config skip_if_text reader_orig
    page_idx img.
Proof.
  intros [Hx Hs]. unfold executed_text_steps_succeed.
  destruct (_ && _); auto.
Qed.

(** One turn of the loop never raises; it appends to [writer], [all_text]
    and the trace, and goes through one page index.  It appends exactly one
    page when OCR results are one-page documents and the text steps on the
    path taken do not raise. *)
Lemma process_page_extends (reader_orig : list page) (page_idx : nat) (img : image)
    (s : state image page) :
  exists ps ts es,
    process_page c pdf_path output_txt lang skip_if_text tesseract_config
      reader_orig page_idx img s = (Ok tt, extend ps ts es s)
    /\ progress_indices es = [page_idx]
    /\ (single_page_ocr c ->
        output_txt = false \/
        executed_text_steps_succeed c lang tesseract_config skip_if_text
          reader_orig page_idx img ->
        length ps = 1).
Proof.
  run_page;
    (do 3 eexists; split; [reflexivity|split; [reflexivity|]]);
    intros Hs Ht;
    repeat match goal with
           | H : PdfReader_bytes c _ = Ok _ |- _ => pose proof (Hs _ _ H); revert H
           end;
    intros;
    rewrite ?length_app, ?length_map; cbn [length];
    try lia;
    (destruct Ht as [Ht|Ht]; [congruence|]);
    unfold executed_text_steps_succeed, takes_skip_path in Ht;
    repeat match goal with
           | H : _ = _ |- _ => rewrite H in Ht
           end;
    cbn [andb is_ok] in Ht;
    first [ discriminate Ht
          | match goal with
            | H : image_to_pdf_or_hocr c _ _ _ = Ok ?b |- _ =>
                specialize (Ht b eq_refl)
            end;
            repeat match goal with
                   | H : _ = _ |- _ => rewrite H in Ht
                   end;
            discriminate (Ht eq_refl) ].
Qed.

(** The path that appends two pages for one index: on the OCR branch with
    text output on, when the text recognition of line 231 raises after the
    OCR page was merged, the handler of line 233 appends one more page. *)
Lemma text_failure_appends_a_second_page (reader_orig : list page) (page_idx : nat)
    (img : image) (pdf_bytes : bytes) (ps : list page) (e : exn)
    (s : state image page) :
  skip_if_text = false ->
  output_txt = true ->
  image_to_pdf_or_hocr c img lang (or_empty tesseract_config) = Ok pdf_bytes ->
  PdfReader_bytes c pdf_bytes = Ok ps ->
  image_to_string c img lang (or_empty tesseract_config) = Raise e ->
  exists extra,
    writer (snd (process_page c pdf_path output_txt lang skip_if_text
                   tesseract_config reader_orig page_idx img s))
    = writer s ++ map (@OfPage page) ps ++ [extra].
Proof.
  intros Hskip Htxt Hb Hps Ht.
  unfold process_page; unfold_ops. rewrite Hskip, perform_ocr_eq, Hb, Hps, Htxt, Ht.
  repeat first [case_match | progress norm_state];
    eexists; cbn [snd writer extend]; reflexivity.
Qed.

(** The loop of line 205 from index [i] on: it never raises, goes through
    the indices of the images in order, and appends one page per image as
    long as no page takes one of the paths that append two. *)
Lemma loop_extends (reader_orig : list page) (images : list image) :
  forall (i : nat) (s : state image page),
  exists PS TS ES,
    for_enumerate i images
      (process_page c pdf_path output_txt lang skip_if_text tesseract_config reader_orig) s
    = (Ok tt, extend PS TS ES s)
    /\ progress_indices ES = seq i (length images)
    /\ (single_page_ocr c ->
        output_txt = false \/
        (forall k img, nth_error images k = Some img ->
                       executed_text_steps_succeed c lang tesseract_config
                         skip_if_text reader_orig (i + k) img) ->
        length PS = length images).
Proof.
  induction images as [|img images IH]; intros i s.
  - exists [], [], []. split; [|split; [reflexivity|reflexivity]].
    simpl. unfold extend. rewrite !app_nil_r. now destruct s.
  - destruct (process_page_extends reader_orig i img s) as (ps & ts & es & Hp & Hi & Hl).
    destruct (IH (S i) (extend ps ts es s)) as (PS & TS & ES & HP & HI & HL).
    exists (ps ++ PS), (ts ++ TS), (es ++ ES). split; [|split].
    + cbn [for_enumerate]. cbv [bind Monad_M]. rewrite Hp, HP.
      now rewrite extend_extend.
    + rewrite progress_indices_app, Hi, HI. reflexivity.
    + intros Hs Ht. rewrite length_app. cbn [length].
      rewrite Hl, HL; trivial.
      * destruct Ht as [Ht|Ht]; [now left|right].
        intros k img' Hk. replace (S i + k) with (i + S k) by lia.
        now apply Ht.
      * destruct Ht as [Ht|Ht]; [now left|right].
        replace i with (i + 0) by lia. now apply Ht.
Qed.

(** A whole run of [process_single_pdf] on a document that can be read and
    rasterized: what it leaves in [writer], [all_text], the trace and the
    files, and how it ends. *)
Lemma process_single_pdf_run (out_dir : option string) (reader_orig : list page)
    (images : list image) (s : state image page) :
  mkdir c = Ok tt ->
  PdfReader_path c = Ok reader_orig ->
  convert_from_path c dpi (if_set poppler_path) = Ok images ->
  exists PS TS ES logs r s',
    process_single_pdf c pdf_path output_pdf output_txt dpi lang skip_if_text
      poppler_path tesseract_config out_dir s = (r, s')
    /\ for_enumerate 0 images
         (process_page c pdf_path output_txt lang skip_if_text tesseract_config
            reader_orig)
         (loop_start pdf_path dpi lang (length images) (length reader_orig) s)
       = (Ok tt,
          extend PS TS ES
            (loop_start pdf_path dpi lang (length images) (length reader_orig) s))
    /\ writer s' = PS /\ all_text s' = TS
    /\ trace s' =
         trace s ++ [Log INFO (Processing pdf_path dpi lang); OpenPdf pdf_path;
                     Rasterize pdf_path]
                 ++ mismatch_warning (length images) (length reader_orig)
                 ++ ES ++ logs
    /\ progress_indices ES = seq 0 (length images)
    /\ progress_indices logs = []
    /\ (single_page_ocr c ->
        output_txt = false \/
        (forall k img, nth_error images k = Some img ->
                       executed_text_steps_succeed c lang tesseract_config
                         skip_if_text reader_orig k img) ->
        length PS = length images)
    /\ r = ((if output_pdf
             then write_pdf c (searchable_pdf_path pdf_path out_dir) PS
             else Ok tt) ;;
            (if output_txt
             then write_text c (text_path pdf_path out_dir) (combined_text TS)
             else Ok tt) ;;
            Ok (Summary (path_str pdf_path)
                  (if output_pdf
                   then Some (path_str (searchable_pdf_path pdf_path out_dir))
                   else None)
                  (if output_txt
                   then Some (path_str (text_path pdf_path out_dir))
                   else None)
                  (length reader_orig)))
    /\ (is_ok r = true ->
        files s' =
          (if output_txt
           then [(text_path pdf_path out_dir, TextFile (combined_text TS))]
           else [])
          ++ (if output_pdf
              then [(searchable_pdf_path pdf_path out_dir, PdfFile PS)]
              else [])
          ++ files s).
Proof.
  intros Hmk Hrd Hcv.
  unfold process_single_pdf, pdf_to_images, with_open, write_pdf, write_text.
  cbv [bind ret raise try_except Monad_M MonadExc_M call logging emit modify when
       new_writer new_all_text get_writer get_all_text store].
  rewrite Hmk, Hrd, Hcv.
  fold (searchable_pdf_path pdf_path out_dir) (text_path pdf_path out_dir).
  unfold loop_start, mismatch_warning.
  cbn [bind Monad_result].
  destruct (length images =? length reader_orig); cbn [negb]; norm_state;
    cbn [writer all_text trace files extend];
    match goal with
    | |- context [for_enumerate 0 images _ ?s0] =>
        destruct (loop_extends reader_orig images 0 s0)
          as (PS & TS & ES & HL & HI & HN);
        rewrite HL
    end;
    exists PS, TS, ES;
    destruct output_pdf, output_txt;
    cbn [writer all_text trace files extend app]; rewrite ?app_nil_r;
    repeat (case_match; cbn [writer all_text trace files extend app];
            rewrite ?app_nil_r);
    (eexists; eexists; eexists; split; [reflexivity|]);
    (split; [reflexivity|]);
    cbn [writer all_text trace files extend app is_ok option_map];
    rewrite <- ?app_assoc; cbn [app];
    repeat split; rewrite ?app_nil_r; try reflexivity; try discriminate;
    try assumption.
  all: try (instantiate (1 := []); rewrite app_nil_r; reflexivity).
  all: try reflexivity.
Qed.

Lemma ocr_calls_app (es1 es2 : list (event image)) :
  ocr_calls (es1 ++ es2) = ocr_calls es1 ++ ocr_calls es2.
Proof.
  induction es1 as [|e es1 IH]; [reflexivity|].
  destruct e; simpl; now rewrite IH.
Qed.

Lemma progress_indices_mismatch_warning (n m : nat) :
  progress_indices (mismatch_warning (image:=image) n m) = [].
Proof. unfold mismatch_warning. now destruct (n =? m). Qed.

(** A run that returns has read and rasterized the document. *)
Lemma process_single_pdf_ok_inv (out_dir : option string) (s s' : state image page)
    (res : entry) :
  process_single_pdf c pdf_path output_pdf output_txt dpi lang skip_if_text
    poppler_path tesseract_config out_dir s = (Ok res, s') ->
  mkdir c = Ok tt
  /\ exists reader_orig images,
       PdfReader_path c = Ok reader_orig
       /\ convert_from_path c dpi (if_set poppler_path) = Ok images.
Proof.
  unfold process_single_pdf, pdf_to_images.
  cbv [bind ret raise try_except Monad_M MonadExc_M call logging emit modify].
  destruct (mkdir c) as [[]|e]; [|discriminate].
  destruct (PdfReader_path c) as [reader_orig|e]; [|discriminate].
  destruct (convert_from_path c dpi (if_set poppler_path)) as [images|e];
    [|discriminate].
  eauto.
Qed.

(** ** The page assembler *)

(** C1 (as amended).  When the rasterizer returns M images for a document,
    every OCR result is a one-page document, and text output is off or, for
    every page, the steps that fetch its text on the path its turn takes do
    not raise (the extraction of line 216 after a copy, the recognition of
    line 224 or 231 after an OCR page was merged), the run ends with exactly
    M pages in the writer, whatever the classifier, the copy of an original
    page and the OCR engine do, failures included; the searchable PDF that
    is written holds these M pages, and the run returns when the two
    outputs can be written. *)
Theorem page_count_invariant
    (out_dir : option string) (reader_orig : list page) (images : list image)
    (s : state image page)
    (Hmkdir : mkdir c = Ok tt)
    (Hreader : PdfReader_path c = Ok reader_orig)
    (Himages : convert_from_path c dpi (if_set poppler_path) = Ok images)
    (Hocr : single_page_ocr c)
    (Htext : output_txt = false \/
             forall k img, nth_error images k = Some img ->
                           executed_text_steps_succeed c lang tesseract_config
                             skip_if_text reader_orig k img) :
  exists r s',
    process_single_pdf c pdf_path output_pdf output_txt dpi lang skip_if_text
      poppler_path tesseract_config out_dir s = (r, s')
    /\ length (writer s') = length images
    /\ (is_ok r = true -> output_pdf = true ->
        In (searchable_pdf_path pdf_path out_dir, PdfFile (writer s')) (files s'))
    /\ (is_ok (write_pdf c (searchable_pdf_path pdf_path out_dir) (writer s')) = true ->
        is_ok (write_text c (text_path pdf_path out_dir)
                 (combined_text (all_text s'))) = true ->
        is_ok r = true).
Proof.
  destruct (process_single_pdf_run out_dir s Hmkdir Hreader Himages)
    as (PS & TS & ES & logs & r & s' & Hrun & _ & Hw & Ht & _ & _ & _ & Hlen & Hr & Hfiles).
  exists r, s'. rewrite Hw, Ht. repeat split; auto.
  - intros Hok Hpdf. rewrite (Hfiles Hok), Hpdf.
    apply in_or_app; right. now left.
  - intros Hwp Hwt. rewrite Hr. cbn [bind Monad_result].
    destruct output_pdf, output_txt;
      repeat match goal with
             | H : is_ok ?x = true |- context [?x] => destruct x; [|discriminate H]
             end; reflexivity.
Qed.

(** C2 (as amended).  With [skip_if_text] on, a page the classifier reports
    as text, whose copy into the writer succeeds (and whose text extraction
    returns, when text output is on), is appended as the reader's own page
    object and nothing is sent to the OCR engine. *)
Theorem skip_path_copies_original
    (reader_orig : list page) (page_idx : nat) (img : image) (p : page)
    (s : state image page)
    (Hskip : skip_if_text = true)
    (Hclass : pdf_page_has_text (plumber_classify c page_idx) (Z.of_nat page_idx)
              = Ok true)
    (Hpage : index reader_orig page_idx = Ok p)
    (Hcopy : copy_original c page_idx = Ok tt)
    (Htext : output_txt = false \/
             is_ok (extract_text_or_empty (plumber_text c page_idx) page_idx) = true) :
  exists s',
    process_page c pdf_path output_txt lang skip_if_text tesseract_config
      reader_orig page_idx img s = (Ok tt, s')
    /\ writer s' = writer s ++ [OfPage p]
    /\ trace s' = trace s ++ [Progress page_idx;
                              Log INFO (CopyingOriginal (page_idx + 1))]
    /\ ocr_calls (trace s') = ocr_calls (trace s).
Proof.
  unfold process_page; unfold_ops.
  rewrite Hskip, Hclass, Hpage, Hcopy.
  destruct Htext as [->|Htext].
  - norm_state. eexists; split; [reflexivity|].
    cbn [writer trace extend]. rewrite ocr_calls_app, app_nil_r. auto.
  - destruct (extract_text_or_empty _ _) as [t|e]; [|discriminate Htext].
    destruct output_txt; norm_state; (eexists; split; [reflexivity|]);
      cbn [writer trace extend]; rewrite ocr_calls_app, app_nil_r; auto.
Qed.

(** C4.  On the skip path, when copying the original page raises, the
    warning is logged and the image of the page is sent to the OCR engine;
    the pages of the OCR result, when there is one, are appended; the turn
    of the loop returns, and it leaves at least one page for this index as
    long as OCR results are one-page documents. *)
Theorem copy_failure_reroutes_to_ocr
    (reader_orig : list page) (page_idx : nat) (img : image) (e : exn)
    (s : state image page)
    (Hskip : skip_if_text = true)
    (Hclass : pdf_page_has_text (plumber_classify c page_idx) (Z.of_nat page_idx)
              = Ok true)
    (Hfail : copy_fails c reader_orig page_idx e) :
  exists ps ts es,
    process_page c pdf_path output_txt lang skip_if_text tesseract_config
      reader_orig page_idx img s
    = (Ok tt,
       extend ps ts
         ([Progress page_idx;
           Log INFO (CopyingOriginal (page_idx + 1));
           Log WARNING (CopyFailedFallingBack (page_idx + 1) e);
           OcrPdf img] ++ es) s)
    /\ (forall pdf_bytes pages,
          image_to_pdf_or_hocr c img lang (or_empty tesseract_config) = Ok pdf_bytes ->
          PdfReader_bytes c pdf_bytes = Ok pages ->
          exists rest, ps = map (@OfPage page) pages ++ rest)
    /\ (single_page_ocr c -> ps <> []).
Proof.
  unfold process_page; unfold_ops. rewrite Hskip, Hclass.
  destruct Hfail as [Hfail|[[p Hp] Hfail]];
    [rewrite Hfail|rewrite Hp, Hfail];
    repeat first [rewrite perform_ocr_eq | case_match | progress norm_state];
    (do 3 eexists; split; [reflexivity|]);
    (split; [intros pdf_bytes pages Hb Hr|intros Hs]);
    try congruence;
    try (match goal with
         | Hb : Ok ?a = Ok ?b, Hr : PdfReader_bytes c ?b = Ok _,
           H0 : PdfReader_bytes c ?a = Ok _ |- _ =>
             injection Hb as <-; rewrite H0 in Hr; injection Hr as <-
         end;
         eexists; first [reflexivity | symmetry; apply app_nil_r]);
    repeat match goal with
           | H : PdfReader_bytes c _ = Ok ?l |- _ =>
               apply Hs in H; destruct l; [discriminate H|]
           end;
    try discriminate.
Qed.

(** C8 (as amended).  When the rasterizer returns a number of images that
    differs from the reader's page count, the warning of line 199 is
    logged, the loop goes through the index of every image, 0 to M-1,
    whether M is below or above the page count, and the run returns when
    the outputs can be written. *)
Theorem image_count_mismatch_warns
    (out_dir : option string) (reader_orig : list page) (images : list image)
    (s : state image page)
    (Hmkdir : mkdir c = Ok tt)
    (Hreader : PdfReader_path c = Ok reader_orig)
    (Himages : convert_from_path c dpi (if_set poppler_path) = Ok images)
    (Hmismatch : length images <> length reader_orig) :
  exists r s',
    process_single_pdf c pdf_path output_pdf output_txt dpi lang skip_if_text
      poppler_path tesseract_config out_dir s = (r, s')
    /\ In (Log WARNING (ImageCountMismatch (length images) (length reader_orig)))
          (trace s')
    /\ progress_indices (trace s') =
       progress_indices (trace s) ++ seq 0 (length images)
    /\ (is_ok (write_pdf c (searchable_pdf_path pdf_path out_dir) (writer s')) = true ->
        is_ok (write_text c (text_path pdf_path out_dir)
                 (combined_text (all_text s'))) = true ->
        is_ok r = true).
Proof.
  destruct (process_single_pdf_run out_dir s Hmkdir Hreader Himages)
    as (PS & TS & ES & logs & r & s' & Hrun & _ & Hw & Ht & Htr & Hpi & Hlogs & _ & Hr & _).
  exists r, s'. rewrite Hw, Ht, Htr. repeat split; auto.
  - apply in_or_app; right. apply in_or_app; right. apply in_or_app; left.
    unfold mismatch_warning.
    destruct (Nat.eqb_spec (length images) (length reader_orig)) as [E|_];
      [contradiction|now left].
  - rewrite !progress_indices_app, progress_indices_mismatch_warning, Hpi, Hlogs.
    cbn [progress_indices app]. now rewrite app_nil_r.
  - intros Hwp Hwt. rewrite Hr. cbn [bind Monad_result].
    destruct output_pdf, output_txt;
      repeat match goal with
             | H : is_ok ?x = true |- context [?x] => destruct x; [|discriminate H]
             end; reflexivity.
Qed.

(** C10.  The [pages] field of the summary a run returns is the number of
    pages of the reader opened at line 190; the writer holds one page per
    rasterized image (under the conditions of the page count invariant), so
    the two differ whenever the rasterizer returns another number of images. *)
Theorem summary_pages_is_reader_count
    (out_dir : option string) (s s' : state image page) (res : entry)
    (Hrun : process_single_pdf c pdf_path output_pdf output_txt dpi lang
              skip_if_text poppler_path tesseract_config out_dir s = (Ok res, s')) :
  exists reader_orig images,
    PdfReader_path c = Ok reader_orig
    /\ convert_from_path c dpi (if_set poppler_path) = Ok images
    /\ res = Summary (path_str pdf_path)
               (if output_pdf
                then Some (path_str (searchable_pdf_path pdf_path out_dir))
                else None)
               (if output_txt
                then Some (path_str (text_path pdf_path out_dir))
                else None)
               (length reader_orig)
    /\ (single_page_ocr c ->
        output_txt = false \/
        (forall k img, nth_error images k = Some img ->
                       text_steps_succeed c lang tesseract_config k img) ->
        length (writer s') = length images
        /\ (length images <> length reader_orig ->
            length (writer s') <> length reader_orig)).
Proof.
  destruct (process_single_pdf_ok_inv _ _ Hrun)
    as (Hmkdir & reader_orig & images & Hreader & Himages).
  destruct (process_single_pdf_run out_dir s Hmkdir Hreader Himages)
    as (PS & TS & ES & logs & r & s1 & Hrun' & _ & Hw & _ & _ & _ & _ & Hlen & Hr & _).
  rewrite Hrun in Hrun'. injection Hrun' as <- <-.
  assert (Hlen' : single_page_ocr c ->
                  output_txt = false \/
                  (forall k img, nth_error images k = Some img ->
                                 text_steps_succeed c lang tesseract_config k img) ->
                  length PS = length images).
  { intros Hs [Ht|Ht]; apply Hlen; auto.
    right. intros k img Hk. apply text_steps_succeed_executed. eauto. }
  exists reader_orig, images. repeat split; auto.
  - unfold write_pdf, write_text in Hr. cbn [bind Monad_result] in Hr.
    destruct output_pdf, output_txt;
      repeat match type of Hr with
             | context [match ?x with _ => _ end] => destruct x
             end; congruence.
  - rewrite Hw. auto.
  - rewrite Hw, Hlen'; auto.
Qed.

(** ** Text output *)

Lemma join_app (sep : str) (xs ys : list str) :
  xs <> [] -> ys <> [] ->
  join sep (xs ++ ys) = join sep xs ++ sep ++ join sep ys.
Proof.
  intros Hx Hy. induction xs as [|x xs IH]; [contradiction|].
  destruct xs as [|x' xs].
  - destruct ys; [contradiction|reflexivity].
  - change (join sep ((x :: x' :: xs) ++ ys))
      with (x ++ sep ++ join sep ((x' :: xs) ++ ys)).
    rewrite IH by discriminate.
    change (join sep (x :: x' :: xs)) with (x ++ sep ++ join sep (x' :: xs)).
    now rewrite <- !app_assoc.
Qed.

Lemma kept_nonempty (texts : list str) :
  existsb truthy texts = true -> map strip (filter truthy texts) <> [].
Proof.
  induction texts as [|t texts IH]; [discriminate|].
  cbn [existsb filter]. destruct (truthy t); [discriminate|exact IH].
Qed.

(** When no step raises for a page, its turn appends the text fetched for
    it, and only that, to [all_text]. *)
Lemma process_page_yields (reader_orig : list page) (page_idx : nat) (img : image)
    (t : str) (s : state image page) :
  output_txt = true ->
  page_yields c lang tesseract_config skip_if_text reader_orig page_idx img t ->
  exists ps es,
    process_page c pdf_path output_txt lang skip_if_text tesseract_config
      reader_orig page_idx img s = (Ok tt, extend ps [t] es s).
Proof.
  intros Htxt Hy. unfold page_yields, takes_skip_path in Hy.
  destruct (pdf_page_has_text_total (plumber_classify c page_idx) (Z.of_nat page_idx))
    as [has_text Hclass].
  rewrite Hclass in Hy.
  unfold process_page; unfold_ops; rewrite Hclass, Htxt.
  repeat first [rewrite perform_ocr_eq | case_match | progress norm_state];
    repeat match goal with
           | H : ?x = ?b |- _ => is_var x; subst x
           end;
    cbn [andb] in Hy;
    try match type of Hy with
        | (exists _, _) /\ _ => destruct Hy as [(pdf_bytes & Hb & Hr) Hy]
        | _ /\ _ /\ _ => destruct Hy as (Hi & Hc & Hy)
        end;
    repeat first
      [ match goal with
        | H : ?x = _, H' : context [?x] |- _ => rewrite H in H'
        end
      | match goal with
        | H : Ok _ = Ok _ |- _ => injection H as ->
        end ];
    cbn [is_ok] in *;
    try discriminate;
    try (do 2 eexists; reflexivity).
Qed.

(** When no step raises for any page, the loop leaves in [all_text] the
    texts of the pages, in the order of the pages. *)
Lemma loop_yields (reader_orig : list page) (images : list image)
    (Htxt : output_txt = true) :
  forall (i : nat) (texts : list str) (s : state image page),
  Forall2 (fun ki t => page_yields c lang tesseract_config skip_if_text
                         reader_orig (fst ki) (snd ki) t)
          (combine (seq i (length images)) images) texts ->
  exists PS ES,
    for_enumerate i images
      (process_page c pdf_path output_txt lang skip_if_text tesseract_config reader_orig) s
    = (Ok tt, extend PS texts ES s).
Proof.
  induction images as [|img images IH]; intros i texts s Hy.
  - inversion Hy. exists [], []. simpl.
    unfold extend. rewrite !app_nil_r. now destruct s.
  - cbn [length seq combine] in Hy.
    inversion Hy as [|ki t kis ts Hp Hrest]. clear Hy. subst texts.
    destruct (process_page_yields reader_orig i img t s Htxt Hp) as (ps & es & Hrun).
    destruct (IH (S i) ts (extend ps [t] es s) Hrest) as (PS & ES & Hloop).
    exists (ps ++ PS), (es ++ ES).
    cbn [for_enumerate]. cbv [bind Monad_M]. rewrite Hrun, Hloop.
    now rewrite extend_extend.
Qed.

(** C5.  With text output on, the text file a run writes holds
    [combined_text] of the texts accumulated page after page; when no step
    raises, these are the texts of the pages in page order.  [combined_text]
    is the join by the page break separator of the trimmed page texts that
    are not empty: an empty page text contributes neither a segment nor a
    separator, one separator stands between what two runs of pages
    contribute, and the texts "A", "B", "C" give
    "A" + separator + "B" + separator + "C". *)
Theorem combined_text_joins_page_texts :
  (forall out_dir (s s' : state image page) res,
     output_txt = true ->
     process_single_pdf c pdf_path output_pdf output_txt dpi lang
       skip_if_text poppler_path tesseract_config out_dir s = (Ok res, s') ->
     hd_error (files s')
     = Some (text_path pdf_path out_dir, TextFile (combined_text (all_text s'))))
  /\ (forall out_dir (s : state image page) reader_orig images texts,
        output_txt = true ->
        mkdir c = Ok tt ->
        PdfReader_path c = Ok reader_orig ->
        convert_from_path c dpi (if_set poppler_path) = Ok images ->
        Forall2 (fun ki t => page_yields c lang tesseract_config skip_if_text
                               reader_orig (fst ki) (snd ki) t)
                (combine (seq 0 (length images)) images) texts ->
        all_text (snd (process_single_pdf c pdf_path output_pdf output_txt dpi lang
                         skip_if_text poppler_path tesseract_config out_dir s))
        = texts)
  /\ combined_text [] = []
  /\ (forall t, combined_text [t] = strip t)
  /\ (forall l1 l2, combined_text (l1 ++ [] :: l2) = combined_text (l1 ++ l2))
  /\ (forall l1 l2,
        existsb truthy l1 = true -> existsb truthy l2 = true ->
        combined_text (l1 ++ l2)
        = combined_text l1 ++ PAGE_BREAK ++ combined_text l2)
  /\ combined_text [py "A"; py "B"; py "C"]
     = py "A" ++ PAGE_BREAK ++ py "B" ++ PAGE_BREAK ++ py "C".
Proof.
  repeat split.
  - intros out_dir s s' res Htxt Hrun.
    destruct (process_single_pdf_ok_inv _ _ Hrun)
      as (Hmkdir & reader_orig & images & Hreader & Himages).
    destruct (process_single_pdf_run out_dir s Hmkdir Hreader Himages)
      as (PS & TS & ES & logs & r & s1 & Hrun' & _ & _ & Ht & _ & _ & _ & _ & _ & Hfiles).
    rewrite Hrun in Hrun'. injection Hrun' as <- <-.
    rewrite (Hfiles eq_refl), Ht, Htxt. reflexivity.
  - intros out_dir s reader_orig images texts Htxt Hmkdir Hreader Himages Hy.
    destruct (process_single_pdf_run out_dir s Hmkdir Hreader Himages)
      as (PS & TS & ES & logs & r & s1 & Hrun & Hloop & _ & Ht & _).
    destruct (loop_yields reader_orig images Htxt 0
                (loop_start pdf_path dpi lang (length images) (length reader_orig) s)
                Hy) as (PS' & ES' & Hloop').
    rewrite Hloop in Hloop'. injection Hloop' as _ Hts _.
    rewrite Hrun. cbn [snd]. rewrite Ht.
    cbn [loop_start all_text app] in Hts. exact Hts.
  - intros t. unfold combined_text. now destruct t.
  - intros l1 l2. unfold combined_text. now rewrite !filter_app.
  - intros l1 l2 H1 H2. unfold combined_text.
    rewrite filter_app, map_app.
    apply join_app; now apply kept_nonempty.
Qed.
End Properties.

(** ** The batch driver *)

Section Driver.

Variables image page bytes : Type.
Variable w : World image page bytes.
Variable args : Args.

Lemma for_each_emit {A} (f : A -> event image) (xs : list A)
    (s : state image page) :
  for_each xs (fun x s1 => (Ok tt, extend [] [] [f x] s1)) s =
  (Ok tt, extend [] [] (map f xs) s).
Proof.
  revert s; induction xs as [|x xs IH]; intros s; simpl.
  - unfold extend. rewrite !app_nil_r. now destruct s.
  - rewrite IH, extend_extend. reflexivity.
Qed.

(** C6.  The loop of [main] over the input documents never raises; it
    appends one entry per document, in order: what [process_single_pdf]
    returned for it, or, when that raised, the entry made of the document
    and the text of the exception; the documents after a failing one are
    processed all the same.  [main] itself never raises. *)
Theorem batch_isolation (files : list Path) (results0 : list entry)
    (s : state image page) :
  (exists results s',
     process_files w args files results0 s = (Ok (results0 ++ results), s')
     /\ length results = length files
     /\ Forall2
          (fun pdf_file r =>
             exists s0,
               r = entry_of pdf_file
                     (fst (process_single_pdf (collab w pdf_file) pdf_file
                             (negb (args_no_pdf args)) (args_txt args)
                             (args_dpi args) (args_lang args)
                             (args_skip_text_pages args) (args_poppler_path args)
                             (args_config args) (if_set (args_out_dir args)) s0)))
          files results)
  /\ exists o s', main w args s = (Ok o, s').
Proof.
  assert (Hloop : forall files results0 (s : state image page),
    exists results s',
     process_files w args files results0 s = (Ok (results0 ++ results), s')
     /\ length results = length files
     /\ Forall2
          (fun pdf_file r =>
             exists s0,
               r = entry_of pdf_file
                     (fst (process_single_pdf (collab w pdf_file) pdf_file
                             (negb (args_no_pdf args)) (args_txt args)
                             (args_dpi args) (args_lang args)
                             (args_skip_text_pages args) (args_poppler_path args)
                             (args_config args) (if_set (args_out_dir args)) s0)))
          files results).
  { clear. intros files. induction files as [|pdf_file files IH]; intros results0 s.
    - exists [], s. rewrite app_nil_r. repeat split; constructor.
    - cbn [process_files].
      cbv [bind ret try_except Monad_M MonadExc_M logging emit modify].
      destruct (process_single_pdf _ _ _ _ _ _ _ _ _ _ s) as [[res|e] s1] eqn:Hrun.
      + destruct (IH (results0 ++ [res]) s1) as (results & s' & Hp & Hl & Hf).
        exists (res :: results), s'. rewrite Hp, <- app_assoc.
        repeat split; [cbn; now rewrite Hl|].
        constructor; [|exact Hf]. exists s. now rewrite Hrun.
      + destruct (IH (results0 ++ [Failure (path_str pdf_file) (exn_str e)])
                     (extend [] [] [Log ERROR (FailedProcessing pdf_file e)] s1))
          as (results & s' & Hp & Hl & Hf).
        exists (Failure (path_str pdf_file) (exn_str e) :: results), s'.
        rewrite Hp, <- app_assoc.
        repeat split; [cbn; now rewrite Hl|].
        constructor; [|exact Hf]. exists s. now rewrite Hrun. }
  split; [apply Hloop|].
  unfold main, try_except_only, check_dependencies, list_input_files.
  cbv [bind ret raise try_except Monad_M MonadExc_M call logging emit modify].
  unfold is_dir.
  repeat first
    [ progress cbn [exn_type app]
    | rewrite for_each_emit
    | match goal with
      | |- context [process_files w args ?fs [] ?s0] =>
          let Hp := fresh "Hp" in
          destruct (Hloop fs [] s0) as (? & ? & Hp & _); rewrite Hp
      end
    | case_match ];
    eauto.
Qed.

End Driver.


(** * The properties on concrete documents *)

Lemma single_page_ocr_collab_of pages images plumber copy to_string :
  single_page_ocr (collab_of pages images plumber copy to_string).
Proof. intros pdf_bytes ps H. injection H as <-. reflexivity. Qed.

(** C1: the theorem at a one-page document rasterized into two images,
    with text output on: pdfplumber has no second page, and is not asked
    for one. *)
Lemma page_count_invariant_witness :
  exists r s',
    process_single_pdf more_images sample true true 300 "eng" true
      None None None start = (r, s')
    /\ length (writer s') = length ["i0"; "i1"]
    /\ (is_ok r = true -> true = true ->
        In (searchable_pdf_path sample None, PdfFile (writer s')) (files s'))
    /\ (is_ok (write_pdf more_images (searchable_pdf_path sample None) (writer s')) = true ->
        is_ok (write_text more_images (text_path sample None)
                 (combined_text (all_text s'))) = true ->
        is_ok r = true).
Proof.
  apply (@page_count_invariant string string string more_images sample true true
           300 "eng" true None None None ["p0"] ["i0"; "i1"] start).
  - reflexivity.
  - reflexivity.
  - reflexivity.
  - apply single_page_ocr_collab_of.
  - right. intros [|[|[|k]]] img H; cbn in H; try discriminate H;
      injection H as <-; vm_compute; intros; reflexivity.
Defined.

(** C1 as stated fails: a two-page document rasterized into one image gives
    a one-page output, and a one-page document whose text recognition raises
    after its OCR page was appended gives a two-page output. *)
Lemma page_count_invariant_counterexample :
  (PdfReader_path fewer_images = Ok ["p0"; "p1"]
   /\ is_ok (fst (run fewer_images false false)) = true
   /\ files (snd (run fewer_images false false))
      = [(searchable_pdf_path sample None, PdfFile [OfPage "ocr:i0"])])
  /\ (PdfReader_path text_fails = Ok ["p0"]
      /\ convert_from_path text_fails 300 None = Ok ["i0"]
      /\ is_ok (fst (run text_fails true false)) = true
      /\ files (snd (run text_fails true false))
         = [(text_path sample None, TextFile []);
            (searchable_pdf_path sample None,
             PdfFile [OfPage "ocr:i0"; OfPage "p0"])]).
Proof. vm_compute. repeat split. Qed.

(** C2: the theorem at a page that carries text, with text output on. *)
Lemma skip_path_copies_original_witness :
  exists s',
    process_page born_digital sample true "eng" true None ["p0"] 0 "i0" start
    = (Ok tt, s')
    /\ writer s' = writer start ++ [OfPage "p0"]
    /\ trace s' = trace start ++ [Progress 0; Log INFO (CopyingOriginal (0 + 1))]
    /\ ocr_calls (trace s') = ocr_calls (trace start).
Proof.
  apply (@skip_path_copies_original string string string born_digital sample true
           "eng" true None ["p0"] 0 "i0" "p0" start).
  - reflexivity.
  - reflexivity.
  - reflexivity.
  - reflexivity.
  - right; reflexivity.
Defined.

(** C2 as stated fails: a page classified as text whose copy raises is sent
    to the OCR engine, and the output holds the OCR page. *)
Lemma skip_path_counterexample :
  pdf_page_has_text (plumber_classify copy_broken 0) 0 = Ok true
  /\ fst (turn copy_broken false) = Ok tt
  /\ writer (snd (turn copy_broken false)) = [OfPage "ocr:i0"]
  /\ ocr_calls (trace (snd (turn copy_broken false))) = ["i0"].
Proof. vm_compute. repeat split. Qed.

(** C3: the theorem at a page of 21 characters. *)
Lemma pdf_page_has_text_threshold_witness :
  (pdf_page_has_text (Ok [Ok (Some long_text)]) 0 = Ok true <->
   exists text, nth_error [Ok (Some long_text)] (Z.to_nat 0) = Some (Ok (Some text))
                /\ 20 < length (strip text))
  /\ (pdf_page_has_text (Ok [Ok (Some long_text)]) 0 = Ok false <->
      ~ exists text, nth_error [Ok (Some long_text)] (Z.to_nat 0) = Some (Ok (Some text))
                     /\ 20 < length (strip text))
  /\ (forall text,
        nth_error [Ok (Some long_text)] (Z.to_nat 0) = Some (Ok (Some text)) ->
        (length (strip text) = 21 ->
         pdf_page_has_text (Ok [Ok (Some long_text)]) 0 = Ok true)
        /\ (length (strip text) = 20 ->
            pdf_page_has_text (Ok [Ok (Some long_text)]) 0 = Ok false)).
Proof.
  apply (@pdf_page_has_text_threshold [Ok (Some long_text)] 0%Z).
  simpl; lia.
Defined.

(** C4: the theorem at a page whose copy raises [boom]. *)
Lemma copy_failure_reroutes_to_ocr_witness :
  exists ps ts es,
    process_page copy_broken sample false "eng" true None ["p0"] 0 "i0" start
    = (Ok tt,
       extend ps ts
         ([Progress 0; Log INFO (CopyingOriginal (0 + 1));
           Log WARNING (CopyFailedFallingBack (0 + 1) boom); OcrPdf "i0"] ++ es)
         start)
    /\ (forall pdf_bytes pages,
          image_to_pdf_or_hocr copy_broken "i0" "eng" (or_empty None) = Ok pdf_bytes ->
          PdfReader_bytes copy_broken pdf_bytes = Ok pages ->
          exists rest, ps = map (@OfPage string) pages ++ rest)
    /\ (single_page_ocr copy_broken -> ps <> []).
Proof.
  apply (@copy_failure_reroutes_to_ocr string string string copy_broken sample false
           "eng" true None ["p0"] 0 "i0" boom start).
  - reflexivity.
  - reflexivity.
  - right. split; [exists "p0"; reflexivity|reflexivity].
Defined.

(** C5: the theorem at a run on three pages with text output on, and at
    the texts "A" and "B", "C". *)
Lemma combined_text_joins_page_texts_witness :
  hd_error (files (snd (process_single_pdf three_pages sample true true 300
                          "eng" true None None None start)))
  = Some (text_path sample None,
          TextFile (combined_text
                      (all_text (snd (process_single_pdf three_pages sample
                                        true true 300 "eng" true None None None
                                        start)))))
  /\ all_text (snd (process_single_pdf three_pages sample true true 300
                      "eng" true None None None start))
     = [py "A"; py "B"; py "C"]
  /\ combined_text ([py "A"] ++ [py "B"; py "C"])
     = combined_text [py "A"] ++ PAGE_BREAK ++ combined_text [py "B"; py "C"].
Proof.
  pose proof (@combined_text_joins_page_texts string string string three_pages
                sample true true 300 "eng" true None None)
    as (Hfile & Horder & _ & _ & _ & Happ & _).
  split; [|split].
  - apply (Hfile None start _
             (Summary "/in/sample.pdf" (Some "/in/sample_searchable.pdf")
                (Some "/in/sample.txt") 3)).
    + reflexivity.
    + reflexivity.
  - apply (Horder None start ["p0"; "p1"; "p2"] ["A"; "b"; "C"]).
    + reflexivity.
    + reflexivity.
    + reflexivity.
    + reflexivity.
    + repeat constructor; cbn; eexists; split; reflexivity.
  - apply Happ; reflexivity.
Defined.

(** The example of the specification: pages 1 and 3 are OCRed into "A" and
    "C", page 2 is copied and its text is "B". *)
Example text_accumulation_example :
  hd_error (files (snd (process_single_pdf three_pages sample true true 300
                          "eng" true None None None start)))
  = Some (text_path sample None,
          TextFile (py "A" ++ PAGE_BREAK ++ py "B" ++ PAGE_BREAK ++ py "C"))
  /\ writer (snd (process_single_pdf three_pages sample true true 300
                    "eng" true None None None start))
     = [OfPage "ocr:A"; OfPage "p1"; OfPage "ocr:C"].
Proof. vm_compute. split; reflexivity. Qed.

(** The example of the specification: of three documents the second cannot
    be rasterized; [main] returns 0 and prints three entries. *)
Example batch_isolation_example :
  fst (main batch_world (default_args (mkPath "/" "in" "")) start) = Ok (Returned 0)
  /\ filter (fun e => match e with Printed _ => true | _ => false end)
       (trace (snd (main batch_world (default_args (mkPath "/" "in" "")) start)))
     = [Printed (Summary "/in/a.pdf" (Some "/in/a_searchable.pdf") None 2);
        Printed (Failure "/in/b.pdf"
                 "Failed to convert PDF to images: Unable to get page count. Is poppler installed and in PATH?");
        Printed (Summary "/in/c.pdf" (Some "/in/c_searchable.pdf") None 2)].
Proof. vm_compute. split; reflexivity. Qed.

(** C8: the theorem at a one-page document rasterized into two images. *)
Lemma image_count_mismatch_warns_witness :
  exists r s',
    process_single_pdf more_images sample true false 300 "eng" false
      None None None start = (r, s')
    /\ In (Log WARNING (ImageCountMismatch (length ["i0"; "i1"]) (length ["p0"])))
          (trace s')
    /\ progress_indices (trace s') =
       progress_indices (trace start) ++ seq 0 (length ["i0"; "i1"])
    /\ (is_ok (write_pdf more_images (searchable_pdf_path sample None) (writer s')) = true ->
        is_ok (write_text more_images (text_path sample None)
                 (combined_text (all_text s'))) = true ->
        is_ok r = true).
Proof.
  apply (@image_count_mismatch_warns string string string more_images sample true
           false 300 "eng" false None None None ["p0"] ["i0"; "i1"] start).
  - reflexivity.
  - reflexivity.
  - reflexivity.
  - discriminate.
Defined.

(** C8 as stated fails: with one page and two images, the shorter sequence
    has one element and the loop goes through the indices 0 and 1. *)
Lemma image_count_mismatch_counterexample :
  PdfReader_path more_images = Ok ["p0"]
  /\ convert_from_path more_images 300 None = Ok ["i0"; "i1"]
  /\ progress_indices (trace (snd (run more_images false false))) = [0; 1]
  /\ writer (snd (run more_images false false)) = [OfPage "ocr:i0"; OfPage "ocr:i1"].
Proof. vm_compute. repeat split. Qed.

(** C9: the theorem at index -1 of a one-page document. *)
Lemma pdf_page_has_text_out_of_range_witness :
  pdf_page_has_text (Ok [Ok (Some long_text)]) (-1) = Ok false
  /\ forall n : Z, exists b, pdf_page_has_text (Ok [Ok (Some long_text)]) n = Ok b.
Proof.
  apply (@pdf_page_has_text_out_of_range (Ok [Ok (Some long_text)]) (-1)%Z).
  intros doc H. left. lia.
Defined.

(** C10: the theorem at a two-page document rasterized into one image: the
    summary reports 2 pages, the writer holds 1. *)
Lemma summary_pages_is_reader_count_witness :
  exists reader_orig images,
    PdfReader_path fewer_images = Ok reader_orig
    /\ convert_from_path fewer_images 300 (if_set None) = Ok images
    /\ Summary "/in/sample.pdf" (Some "/in/sample_searchable.pdf") None 2
       = Summary (path_str sample)
           (if true then Some (path_str (searchable_pdf_path sample None)) else None)
           (if false then Some (path_str (text_path sample None)) else None)
           (length reader_orig)
    /\ (single_page_ocr fewer_images ->
        false = false \/
        (forall k img, nth_error images k = Some img ->
                       text_steps_succeed fewer_images "eng" None k img) ->
        length (writer (snd (run fewer_images false false))) = length images
        /\ (length images <> length reader_orig ->
            length (writer (snd (run fewer_images false false))) <> length reader_orig)).
Proof.
  apply (@summary_pages_is_reader_count string string string fewer_images sample true
           false 300 "eng" false None None None start
           (snd (run fewer_images false false))
           (Summary "/in/sample.pdf" (Some "/in/sample_searchable.pdf") None 2)).
  reflexivity.
Defined.

(** * More properties of the code *)

Section MoreProperties.

Variables image page bytes : Type.
Variable c : Collab image page bytes.
Variables (pdf_path : Path) (output_pdf output_txt : bool) (dpi : Z)
  (lang : string) (skip_if_text : bool) (poppler_path tesseract_config : option string).

Ltac step_ops :=
  cbv [ocr_image_to_pdf_bytes ocr_image_to_text
       logging emit writer_append all_text_append call modify when
       bind ret raise try_except Monad_M MonadExc_M Monad_result MonadExc_result].

Ltac merge_state := repeat rewrite extend_extend; cbn [app]; repeat rewrite app_nil_r.

Ltac run_turn :=
  unfold process_page; step_ops;
  repeat first [rewrite perform_ocr_eq | case_match | progress merge_state].

(** A whole run on a document that can be read and rasterized, in closed
    form: the loop leaves pages [PS] and texts [TS]; the result and the final
    state follow from how the two writes end. *)
Lemma process_single_pdf_outputs (out_dir : option string) (reader_orig : list page)
    (images : list image) (s : state image page) :
  mkdir c = Ok tt ->
  PdfReader_path c = Ok reader_orig ->
  convert_from_path c dpi (if_set poppler_path) = Ok images ->
  exists PS TS ES,
    for_enumerate 0 images
      (process_page c pdf_path output_txt lang skip_if_text tesseract_config
         reader_orig)
      (loop_start pdf_path dpi lang (length images) (length reader_orig) s)
    = (Ok tt,
       extend PS TS ES
         (loop_start pdf_path dpi lang (length images) (length reader_orig) s))
    /\ process_single_pdf c pdf_path output_pdf output_txt dpi lang skip_if_text
         poppler_path tesseract_config out_dir s
       = (pdf_write c pdf_path out_dir output_pdf PS ;;
          text_write c pdf_path out_dir output_txt TS ;;
          Ok (Summary (path_str pdf_path)
                (if output_pdf
                 then Some (path_str (searchable_pdf_path pdf_path out_dir))
                 else None)
                (if output_txt
                 then Some (path_str (text_path pdf_path out_dir))
                 else None)
                (length reader_orig)),
          mkState PS TS
            (trace s ++ [Log INFO (Processing pdf_path dpi lang); OpenPdf pdf_path;
                         Rasterize pdf_path]
                     ++ mismatch_warning (length images) (length reader_orig)
                     ++ ES
                     ++ write_logs c pdf_path out_dir output_pdf output_txt PS TS)
            (written_files c pdf_path out_dir output_pdf output_txt PS TS
             ++ files s)).
Proof.
  intros Hmk Hrd Hcv.
  unfold process_single_pdf, pdf_to_images, with_open.
  cbv [bind ret raise try_except Monad_M MonadExc_M call logging emit modify when
       new_writer new_all_text get_writer get_all_text store].
  rewrite Hmk, Hrd, Hcv.
  fold (searchable_pdf_path pdf_path out_dir) (text_path pdf_path out_dir).
  unfold loop_start, mismatch_warning, write_logs, written_files, left_at,
    pdf_write, text_write, write_pdf, write_text.
  cbn [bind Monad_result].
  destruct (length images =? length reader_orig); cbn [negb]; merge_state;
    cbn [writer all_text trace files extend];
    match goal with
    | |- context [for_enumerate 0 images _ ?s0] =>
        destruct (loop_extends c pdf_path output_txt lang skip_if_text
                    tesseract_config reader_orig images 0 s0)
          as (PS & TS & ES & HL & _ & _);
        rewrite HL
    end;
    exists PS, TS, ES;
    (split; [reflexivity|]);
    destruct output_pdf, output_txt;
    cbn [writer all_text trace files extend app is_ok andb]; rewrite ?app_nil_r;
    repeat (match goal with
            | |- context [open_output_pdf c ?p] => destruct (open_output_pdf c p) eqn:?
            | |- context [writer_write c ?p ?ps] => destruct (writer_write c p ps) eqn:?
            | |- context [open_output_txt c ?p] => destruct (open_output_txt c p) eqn:?
            | |- context [f_write c ?p ?t] => destruct (f_write c p t) eqn:?
            end;
            cbn [writer all_text trace files extend app is_ok andb option_map];
            rewrite ?app_nil_r);
    unfold extend;
    cbn [writer all_text trace files app is_ok option_map andb];
    rewrite <- ?app_assoc; cbn [app]; rewrite ?app_nil_r;
    try reflexivity.
Qed.


(** ** Where the pages of the output come from *)

Ltac solve_page_from :=
  unfold page_from;
  first
    [ left; eexists; split; [eassumption|reflexivity]
    | right; right; split; [reflexivity|];
      first
        [ left;
          match goal with
          | H : index _ _ = Raise _ |- _ => rewrite H; reflexivity
          end
        | right;
          match goal with
          | H : copy_original_again _ _ = Raise _ |- _ => rewrite H; reflexivity
          end ]
    | right; left; do 3 eexists; repeat split; eassumption ].

Ltac solve_pages :=
  repeat first
    [ apply Forall_nil
    | apply Forall_cons; [solve_page_from|]
    | apply Forall_app; split
    | apply Forall_map, Forall_forall; intros ? ?; solve_page_from ].

(** One turn of the loop, page by page: every page it appends comes from
    its own index, it appends at most one text, and between one and three
    pages when OCR results are one-page documents. *)
Lemma process_page_pages (reader_orig : list page) (page_idx : nat) (img : image)
    (s : state image page) :
  exists ps ts es,
    process_page c pdf_path output_txt lang skip_if_text tesseract_config
      reader_orig page_idx img s = (Ok tt, extend ps ts es s)
    /\ Forall (page_from c lang tesseract_config reader_orig page_idx img) ps
    /\ length ts <= 1
    /\ (single_page_ocr c -> 1 <= length ps <= 3)
    /\ (single_page_ocr c ->
        output_txt = false \/
        executed_text_steps_succeed c lang tesseract_config skip_if_text
          reader_orig page_idx img ->
        length ps = 1).
Proof.
  run_turn;
    (do 3 eexists; split; [reflexivity|]);
    (split; [solve_pages|]);
    (split; [cbn [length]; lia|]);
    (split; intros Hs; [|intros Ht]);
    repeat match goal with
           | H : PdfReader_bytes c _ = Ok _ |- _ => pose proof (Hs _ _ H); revert H
           end;
    intros;
    cbn [length]; rewrite ?length_app, ?length_map; cbn [length];
    try lia;
    (destruct Ht as [Ht|Ht]; [congruence|]);
    unfold executed_text_steps_succeed, takes_skip_path in Ht;
    repeat match goal with
           | H : _ = _ |- _ => rewrite H in Ht
           end;
    cbn [andb is_ok] in Ht;
    first [ discriminate Ht
          | match goal with
            | H : image_to_pdf_or_hocr c _ _ _ = Ok ?b |- _ =>
                specialize (Ht b eq_refl)
            end;
            repeat match goal with
                   | H : _ = _ |- _ => rewrite H in Ht
                   end;
            discriminate (Ht eq_refl) ].
Qed.


(** The loop of line 205 from index [i] on, page by page. *)
Lemma loop_pages (reader_orig : list page) (images : list image) :
  forall (i : nat) (s : state image page),
  exists PS TS ES,
    for_enumerate i images
      (process_page c pdf_path output_txt lang skip_if_text tesseract_config reader_orig) s
    = (Ok tt, extend PS TS ES s)
    /\ Forall (fun pg => exists k img,
                  nth_error images k = Some img
                  /\ page_from c lang tesseract_config reader_orig (i + k) img pg) PS
    /\ length TS <= length images
    /\ (single_page_ocr c -> length images <= length PS <= 3 * length images)
    /\ (single_page_ocr c ->
        output_txt = false \/
        (forall k img, nth_error images k = Some img ->
                       executed_text_steps_succeed c lang tesseract_config
                         skip_if_text reader_orig (i + k) img) ->
        Forall2 (fun ki pg => page_from c lang tesseract_config reader_orig
                                (fst ki) (snd ki) pg)
                (combine (seq i (length images)) images) PS).
Proof.
  induction images as [|img images IH]; intros i s.
  - exists [], [], []. repeat split; try constructor; cbn; try lia.
    unfold extend. rewrite !app_nil_r. now destruct s.
  - destruct (process_page_pages reader_orig i img s)
      as (ps & ts & es & Hp & Hfrom & Hts & Hb & H1).
    destruct (IH (S i) (extend ps ts es s)) as (PS & TS & ES & HP & HFrom & HTS & HB & HA).
    exists (ps ++ PS), (ts ++ TS), (es ++ ES). repeat split.
    + cbn [for_enumerate]. cbv [bind Monad_M]. rewrite Hp, HP.
      now rewrite extend_extend.
    + apply Forall_app; split.
      * eapply Forall_impl; [|exact Hfrom].
        intros pg Hpg. exists 0, img. split; [reflexivity|].
        now rewrite Nat.add_0_r.
      * eapply Forall_impl; [|exact HFrom].
        intros pg (k & img' & Hk & Hpg). exists (S k), img'. split; [exact Hk|].
        now replace (i + S k) with (S i + k) by lia.
    + rewrite length_app. cbn [length]. lia.
    + rewrite length_app. cbn [length]. specialize (Hb H). specialize (HB H). lia.
    + rewrite length_app. cbn [length]. specialize (Hb H). specialize (HB H). lia.
    + intros Hs Ht.
      assert (Hl : length ps = 1).
      { apply H1; trivial. destruct Ht as [Ht|Ht]; [now left|right].
        replace i with (i + 0) by lia. now apply Ht. }
      destruct ps as [|pg [|? ?]]; try discriminate Hl.
      cbn [length seq combine app]. constructor.
      * now inversion Hfrom.
      * apply HA; trivial. destruct Ht as [Ht|Ht]; [now left|right].
        intros k img' Hk. replace (S i + k) with (i + S k) by lia. now apply Ht.
Qed.

(** Two descriptions of what the loop left agree. *)
Lemma extend_loop_start_inj (PS PS' : list (out_page page)) (TS TS' : list str)
    (ES ES' : list (event image)) (n m : nat) (s : state image page) :
  extend PS TS ES (loop_start pdf_path dpi lang n m s)
  = extend PS' TS' ES' (loop_start pdf_path dpi lang n m s) ->
  PS = PS' /\ TS = TS' /\ ES = ES'.
Proof.
  unfold extend, loop_start; cbn [writer all_text trace files app].
  intros H. injection H as Hp Ht He. repeat split; trivial.
  now apply app_inv_head in He.
Qed.


(** A run, with what is known of the pages and texts its loop left. *)
Lemma process_single_pdf_pages (out_dir : option string) (reader_orig : list page)
    (images : list image) (s : state image page) :
  mkdir c = Ok tt ->
  PdfReader_path c = Ok reader_orig ->
  convert_from_path c dpi (if_set poppler_path) = Ok images ->
  exists r s',
    process_single_pdf c pdf_path output_pdf output_txt dpi lang skip_if_text
      poppler_path tesseract_config out_dir s = (r, s')
    /\ Forall (fun pg => exists k img,
                  nth_error images k = Some img
                  /\ page_from c lang tesseract_config reader_orig k img pg)
              (writer s')
    /\ length (all_text s') <= length images
    /\ (single_page_ocr c ->
        length images <= length (writer s') <= 3 * length images)
    /\ (single_page_ocr c ->
        output_txt = false \/
        (forall k img, nth_error images k = Some img ->
                       executed_text_steps_succeed c lang tesseract_config
                         skip_if_text reader_orig k img) ->
        Forall2 (fun ki pg => page_from c lang tesseract_config reader_orig
                                (fst ki) (snd ki) pg)
                (combine (seq 0 (length images)) images) (writer s')).
Proof.
  intros Hmk Hrd Hcv.
  destruct (process_single_pdf_outputs out_dir s Hmk Hrd Hcv)
    as (PS & TS & ES & Hloop & Hrun).
  destruct (loop_pages reader_orig images 0
              (loop_start pdf_path dpi lang (length images) (length reader_orig) s))
    as (PS' & TS' & ES' & Hloop' & Hfrom & Hts & Hb & Ha).
  rewrite Hloop in Hloop'.
  assert (Heq : extend PS TS ES
                  (loop_start pdf_path dpi lang (length images) (length reader_orig) s)
                = extend PS' TS' ES'
                    (loop_start pdf_path dpi lang (length images) (length reader_orig) s))
    by congruence.
  apply extend_loop_start_inj in Heq. destruct Heq as (<- & <- & <-).
  rewrite Hrun. do 2 eexists. split; [reflexivity|].
  cbn [writer all_text]. auto.
Qed.

(** X1.  Page order.  On a document that can be read and rasterized, when OCR
    results are one-page documents and text output is off or, for every
    page, the steps that fetch its text on the path its turn takes do not
    raise, the k-th page of the output comes from index k: it is the
    reader's page k, or the page the OCR engine returned for image k, or a
    blank page 595 x 842 after the copy of page k failed. *)
Theorem output_pages_in_page_order
    (out_dir : option string) (reader_orig : list page) (images : list image)
    (s : state image page)
    (Hmkdir : mkdir c = Ok tt)
    (Hreader : PdfReader_path c = Ok reader_orig)
    (Himages : convert_from_path c dpi (if_set poppler_path) = Ok images)
    (Hocr : single_page_ocr c)
    (Htext : output_txt = false \/
             forall k img, nth_error images k = Some img ->
                           executed_text_steps_succeed c lang tesseract_config
                             skip_if_text reader_orig k img) :
  Forall2 (fun ki pg => page_from c lang tesseract_config reader_orig
                          (fst ki) (snd ki) pg)
          (combine (seq 0 (length images)) images)
          (writer (snd (process_single_pdf c pdf_path output_pdf output_txt dpi
                          lang skip_if_text poppler_path tesseract_config
                          out_dir s))).
Proof.
  destruct (process_single_pdf_pages out_dir s Hmkdir Hreader Himages)
    as (r & s' & Hrun & _ & _ & _ & Ha).
  rewrite Hrun. cbn [snd]. auto.
Qed.

(** X2.  Provenance.  Whatever fails, the output holds nothing but pages of
    the indices the loop went through: every page of the writer is, for
    some image k, the reader's page k, a page of the OCR result of image k,
    or the blank page. *)
Theorem output_pages_come_from_input
    (out_dir : option string) (reader_orig : list page) (images : list image)
    (s : state image page) (pg : out_page page)
    (Hmkdir : mkdir c = Ok tt)
    (Hreader : PdfReader_path c = Ok reader_orig)
    (Himages : convert_from_path c dpi (if_set poppler_path) = Ok images)
    (Hin : In pg (writer (snd (process_single_pdf c pdf_path output_pdf output_txt
                                 dpi lang skip_if_text poppler_path
                                 tesseract_config out_dir s)))) :
  exists k img,
    nth_error images k = Some img
    /\ page_from c lang tesseract_config reader_orig k img pg.
Proof.
  destruct (process_single_pdf_pages out_dir s Hmkdir Hreader Himages)
    as (r & s' & Hrun & Hfrom & _).
  rewrite Hrun in Hin. cbn [snd] in Hin.
  rewrite Forall_forall in Hfrom. auto.
Qed.

(** X3.  Blank pages.  A blank page in the output is 595 x 842 and stands for
    an index whose original page could not be copied at line 237; so the
    output has no blank page when every original can be copied. *)
Theorem blank_pages_only_after_failed_copy
    (out_dir : option string) (reader_orig : list page) (images : list image)
    (s : state image page) (width height : Z)
    (Hmkdir : mkdir c = Ok tt)
    (Hreader : PdfReader_path c = Ok reader_orig)
    (Himages : convert_from_path c dpi (if_set poppler_path) = Ok images)
    (Hin : In (BlankPage width height)
              (writer (snd (process_single_pdf c pdf_path output_pdf output_txt
                              dpi lang skip_if_text poppler_path
                              tesseract_config out_dir s)))) :
  width = 595%Z /\ height = 842%Z
  /\ exists k, k < length images
              /\ (is_ok (index reader_orig k) = false
                  \/ is_ok (copy_original_again c k) = false).
Proof.
  destruct (process_single_pdf_pages out_dir s Hmkdir Hreader Himages)
    as (r & s' & Hrun & Hfrom & _).
  rewrite Hrun in Hin. cbn [snd] in Hin.
  rewrite Forall_forall in Hfrom.
  destruct (Hfrom _ Hin) as (k & img & Hk & [(p & _ & Hp)|[(b & ps & p & _ & _ & _ & Hp)|(Hp & Hfail)]]);
    try discriminate Hp.
  injection Hp as -> ->. repeat split. exists k. split; [|exact Hfail].
  apply nth_error_Some. congruence.
Qed.

(** X4.  Size of the output.  When OCR results are one-page documents, the
    output has at least one page per rasterized image and at most three:
    no failure loses a page, and the paths that append again after a raise
    add at most two. *)
Theorem page_count_bounds
    (out_dir : option string) (reader_orig : list page) (images : list image)
    (s : state image page)
    (Hmkdir : mkdir c = Ok tt)
    (Hreader : PdfReader_path c = Ok reader_orig)
    (Himages : convert_from_path c dpi (if_set poppler_path) = Ok images)
    (Hocr : single_page_ocr c) :
  length images
  <= length (writer (snd (process_single_pdf c pdf_path output_pdf output_txt dpi
                            lang skip_if_text poppler_path tesseract_config
                            out_dir s)))
  <= 3 * length images.
Proof.
  destruct (process_single_pdf_pages out_dir s Hmkdir Hreader Himages)
    as (r & s' & Hrun & _ & _ & Hb & _).
  rewrite Hrun. cbn [snd]. auto.
Qed.

(** X5.  Texts.  A run accumulates at most one text per rasterized image,
    whatever fails. *)
Theorem text_count_bound
    (out_dir : option string) (reader_orig : list page) (images : list image)
    (s : state image page)
    (Hmkdir : mkdir c = Ok tt)
    (Hreader : PdfReader_path c = Ok reader_orig)
    (Himages : convert_from_path c dpi (if_set poppler_path) = Ok images) :
  length (all_text (snd (process_single_pdf c pdf_path output_pdf output_txt dpi
                           lang skip_if_text poppler_path tesseract_config
                           out_dir s)))
  <= length images.
Proof.
  destruct (process_single_pdf_pages out_dir s Hmkdir Hreader Himages)
    as (r & s' & Hrun & _ & Ht & _).
  rewrite Hrun. cbn [snd]. auto.
Qed.


(** ** How a run ends *)

(** X6.  Failures of one page stay inside the run.  On a document that can be
    read and rasterized, when the outputs can be written, the run returns
    the summary of the document whatever the classifier, the copies and the
    OCR engine do on its pages. *)
Theorem page_failures_never_escape
    (out_dir : option string) (reader_orig : list page) (images : list image)
    (s : state image page)
    (Hmkdir : mkdir c = Ok tt)
    (Hreader : PdfReader_path c = Ok reader_orig)
    (Himages : convert_from_path c dpi (if_set poppler_path) = Ok images)
    (Hpdf : forall p pages, is_ok (write_pdf c p pages) = true)
    (Htxt : forall p t, is_ok (write_text c p t) = true) :
  fst (process_single_pdf c pdf_path output_pdf output_txt dpi lang skip_if_text
         poppler_path tesseract_config out_dir s)
  = Ok (Summary (path_str pdf_path)
          (if output_pdf
           then Some (path_str (searchable_pdf_path pdf_path out_dir))
           else None)
          (if output_txt
           then Some (path_str (text_path pdf_path out_dir))
           else None)
          (length reader_orig)).
Proof.
  destruct (process_single_pdf_outputs out_dir s Hmkdir Hreader Himages)
    as (PS & TS & ES & _ & Hrun).
  rewrite Hrun. cbn [fst bind Monad_result]. unfold pdf_write, text_write.
  destruct output_pdf, output_txt;
    repeat match goal with
           | |- context [write_pdf c ?p ?ps] =>
               let H := fresh in
               pose proof (Hpdf p ps) as H; destruct (write_pdf c p ps);
               [clear H|discriminate H]
           | |- context [write_text c ?p ?t] =>
               let H := fresh in
               pose proof (Htxt p t) as H; destruct (write_text c p t);
               [clear H|discriminate H]
           end; reflexivity.
Qed.

(** X7.  A document that cannot be read or rasterized.  The run raises a
    [RuntimeError] that carries the text of the collaborator's exception,
    before the loop: the writer, the texts and the files are as they were,
    and nothing was handed to the OCR engine. *)
Theorem unusable_document_raises_runtime_error
    (out_dir : option string) (e : exn) (s : state image page)
    (Hmkdir : mkdir c = Ok tt) :
  (PdfReader_path c = Raise e ->
   process_single_pdf c pdf_path output_pdf output_txt dpi lang skip_if_text
     poppler_path tesseract_config out_dir s
   = (Raise (Exn RuntimeError
               ("Failed to read PDF file with PyPDF2: " ++ exn_str e)),
      extend [] [] [Log INFO (Processing pdf_path dpi lang); OpenPdf pdf_path] s))
  /\ (is_ok (PdfReader_path c) = true ->
      convert_from_path c dpi (if_set poppler_path) = Raise e ->
      process_single_pdf c pdf_path output_pdf output_txt dpi lang skip_if_text
        poppler_path tesseract_config out_dir s
      = (Raise (Exn RuntimeError
                  ("Failed to convert PDF to images: " ++ exn_str e)),
         extend [] [] [Log INFO (Processing pdf_path dpi lang); OpenPdf pdf_path;
                       Rasterize pdf_path] s)).
Proof.
  unfold process_single_pdf, pdf_to_images.
  cbv [bind ret raise try_except Monad_M MonadExc_M call logging emit modify].
  rewrite Hmkdir. split.
  - intros ->. merge_state. reflexivity.
  - intros Hok ->. destruct (PdfReader_path c); [|discriminate Hok].
    merge_state. reflexivity.
Qed.

(** X8.  A failed write of the searchable PDF.  When the [with] block of
    lines 246-247 raises, at [open] or at [writer.write], the exception is
    logged and raised again as it is, and the text output is not attempted
    although it was asked for.  When [open] raised, no file is left by the
    run; when [writer.write] raised after [open], an unfinished file, empty
    or partly written, is left at the path of the searchable PDF, in place
    of what was there before. *)
Theorem failed_pdf_write_skips_text_output
    (out_dir : option string) (reader_orig : list page) (images : list image)
    (e : exn) (s : state image page)
    (Hmkdir : mkdir c = Ok tt)
    (Hreader : PdfReader_path c = Ok reader_orig)
    (Himages : convert_from_path c dpi (if_set poppler_path) = Ok images)
    (Hon : output_pdf = true)
    (Hfail : forall pages,
        write_pdf c (searchable_pdf_path pdf_path out_dir) pages = Raise e) :
  fst (process_single_pdf c pdf_path output_pdf output_txt dpi lang skip_if_text
         poppler_path tesseract_config out_dir s) = Raise e
  /\ files (snd (process_single_pdf c pdf_path output_pdf output_txt dpi lang
                   skip_if_text poppler_path tesseract_config out_dir s))
     = (if is_ok (open_output_pdf c (searchable_pdf_path pdf_path out_dir))
        then [(searchable_pdf_path pdf_path out_dir, Unfinished)]
        else [])
       ++ files s
  /\ exists es,
      trace (snd (process_single_pdf c pdf_path output_pdf output_txt dpi lang
                    skip_if_text poppler_path tesseract_config out_dir s))
      = es ++ [Log ERROR (WritePdfFailed (searchable_pdf_path pdf_path out_dir) e)].
Proof.
  destruct (process_single_pdf_outputs out_dir s Hmkdir Hreader Himages)
    as (PS & TS & ES & _ & Hrun).
  rewrite Hrun. cbn [fst snd files trace bind Monad_result].
  unfold written_files, write_logs, pdf_write. rewrite Hon, Hfail.
  cbn [is_ok andb app]. split; [reflexivity|]. split.
  - specialize (Hfail PS). unfold write_pdf in Hfail. unfold left_at.
    destruct (open_output_pdf c _) as [[]|e1]; cbn [bind Monad_result] in Hfail;
      [rewrite Hfail|]; reflexivity.
  - exists (trace s ++ [Log INFO (Processing pdf_path dpi lang); OpenPdf pdf_path;
                        Rasterize pdf_path]
                    ++ mismatch_warning (length images) (length reader_orig) ++ ES).
    rewrite <- !app_assoc. reflexivity.
Qed.

(** X9.  A failed write of the text.  When both outputs are asked for and
    the [with] block of lines 257-258 raises, at [open] or at [f.write],
    after the searchable PDF was written, the exception is logged and raised
    again, and the searchable PDF, holding the pages of the writer, stays in
    place.  When [open] raised it is the only file the run leaves; when
    [f.write] raised after [open], an unfinished text file, empty or partly
    written, is left beside it. *)
Theorem failed_text_write_keeps_pdf
    (out_dir : option string) (reader_orig : list page) (images : list image)
    (e : exn) (s : state image page)
    (Hmkdir : mkdir c = Ok tt)
    (Hreader : PdfReader_path c = Ok reader_orig)
    (Himages : convert_from_path c dpi (if_set poppler_path) = Ok images)
    (Hpdf : output_pdf = true)
    (Htxt : output_txt = true)
    (Hwritten : forall pages,
        is_ok (write_pdf c (searchable_pdf_path pdf_path out_dir) pages) = true)
    (Hfail : forall t, write_text c (text_path pdf_path out_dir) t = Raise e) :
  fst (process_single_pdf c pdf_path output_pdf output_txt dpi lang skip_if_text
         poppler_path tesseract_config out_dir s) = Raise e
  /\ exists pages,
      files (snd (process_single_pdf c pdf_path output_pdf output_txt dpi lang
                    skip_if_text poppler_path tesseract_config out_dir s))
      = (if is_ok (open_output_txt c (text_path pdf_path out_dir))
         then [(text_path pdf_path out_dir, Unfinished)]
         else [])
        ++ (searchable_pdf_path pdf_path out_dir, PdfFile pages) :: files s
      /\ pages = writer (snd (process_single_pdf c pdf_path output_pdf output_txt
                                dpi lang skip_if_text poppler_path
                                tesseract_config out_dir s)).
Proof.
  destruct (process_single_pdf_outputs out_dir s Hmkdir Hreader Himages)
    as (PS & TS & ES & _ & Hrun).
  rewrite Hrun. cbn [fst snd files writer bind Monad_result].
  unfold written_files, pdf_write, text_write. rewrite Hpdf, Htxt, Hfail.
  pose proof (Hwritten PS) as Hw.
  specialize (Hfail (combined_text TS)).
  unfold write_pdf, write_text, left_at in *.
  destruct (open_output_pdf c (searchable_pdf_path pdf_path out_dir)) as [[]|e1];
    [|discriminate Hw].
  destruct (writer_write c (searchable_pdf_path pdf_path out_dir) PS) as [[]|e2];
    [|discriminate Hw].
  cbn [bind Monad_result is_ok andb app] in *.
  split; [reflexivity|]. exists PS. split; [|reflexivity].
  destruct (open_output_txt c (text_path pdf_path out_dir)) as [[]|e3];
    cbn [is_ok app]; [rewrite Hfail|]; reflexivity.
Qed.


(** ** Runs in which nothing fails *)

(** A turn in which no step raises appends what it is meant to. *)
Lemma process_page_succeeds (reader_orig : list page) (page_idx : nat) (img : image)
    (s : state image page) :
  page_succeeds c lang tesseract_config skip_if_text output_txt reader_orig page_idx img ->
  exists ts es,
    process_page c pdf_path output_txt lang skip_if_text tesseract_config
      reader_orig page_idx img s
    = (Ok tt,
       extend (expected_pages c lang tesseract_config skip_if_text reader_orig
                 (page_idx, img)) ts es s)
    /\ ocr_calls es = expected_ocr_calls c skip_if_text output_txt (page_idx, img).
Proof.
  unfold page_succeeds, expected_pages, expected_ocr_calls, takes_skip_path,
    ocr_succeeds, ocr_pages, index.
  cbn [fst snd]. intros Hy.
  destruct (pdf_page_has_text_total (plumber_classify c page_idx) (Z.of_nat page_idx))
    as [has_text Hclass].
  rewrite Hclass in Hy |- *.
  unfold process_page, index; step_ops; rewrite Hclass.
  repeat first [rewrite perform_ocr_eq | case_match | progress merge_state];
    repeat match goal with
           | H : ?x = ?b |- _ => is_var x; subst x
           end;
    cbn [andb] in *;
    try match type of Hy with
        | ((exists _, _) /\ _) /\ _ => destruct Hy as [[(pdf_bytes & Hb & Hr) Ht] Hy]
        | (exists _, _) /\ _ => destruct Hy as [(pdf_bytes & Hb & Hr) Ht]
        | _ /\ _ /\ _ => destruct Hy as (Hi & Hc & Ht)
        end;
    try specialize (Ht eq_refl);
    repeat first
      [ match goal with
        | H : ?x = _, H' : context [?x] |- _ => rewrite H in H'
        end
      | match goal with
        | H : Ok _ = Ok _ |- _ => injection H as ->
        end ];
    cbn [is_ok] in *;
    try discriminate;
    try (do 2 eexists; split; reflexivity).

Qed.


(** A loop in which no step raises. *)
Lemma loop_succeeds (reader_orig : list page) (images : list image) :
  forall (i : nat) (s : state image page),
  (forall k img, nth_error images k = Some img ->
                 page_succeeds c lang tesseract_config skip_if_text output_txt
                   reader_orig (i + k) img) ->
  exists TS ES,
    for_enumerate i images
      (process_page c pdf_path output_txt lang skip_if_text tesseract_config reader_orig) s
    = (Ok tt,
       extend (flat_map (expected_pages c lang tesseract_config skip_if_text reader_orig)
                 (combine (seq i (length images)) images)) TS ES s)
    /\ ocr_calls ES
       = flat_map (expected_ocr_calls c skip_if_text output_txt)
           (combine (seq i (length images)) images).
Proof.
  induction images as [|img images IH]; intros i s Hok.
  - exists [], []. split; [|reflexivity]. cbn.
    unfold extend. rewrite !app_nil_r. now destruct s.
  - assert (H0 : page_succeeds c lang tesseract_config skip_if_text output_txt
                   reader_orig i img).
    { replace i with (i + 0) by lia. now apply Hok. }
    destruct (process_page_succeeds reader_orig i img s H0) as (ts & es & Hp & Hc).
    destruct (IH (S i)
                (extend (expected_pages c lang tesseract_config skip_if_text
                           reader_orig (i, img)) ts es s))
      as (TS & ES & HP & HC).
    { intros k img' Hk. replace (S i + k) with (i + S k) by lia. now apply Hok. }
    exists (ts ++ TS), (es ++ ES). split.
    + cbn [for_enumerate length seq combine flat_map]. cbv [bind Monad_M].
      rewrite Hp, HP. now rewrite extend_extend.
    + cbn [length seq combine flat_map]. now rewrite ocr_calls_app, Hc, HC.
Qed.

Lemma ocr_calls_mismatch_warning (n m : nat) :
  ocr_calls (mismatch_warning (image:=image) n m) = [].
Proof. unfold mismatch_warning. now destruct (n =? m). Qed.

Lemma ocr_calls_write_logs (out_dir : option string) (PS : list (out_page page))
    (TS : list str) :
  ocr_calls (write_logs c pdf_path out_dir output_pdf output_txt PS TS) = [].
Proof.
  unfold write_logs.
  destruct (pdf_write c pdf_path out_dir output_pdf PS),
           (text_write c pdf_path out_dir output_txt TS),
           output_pdf, output_txt; reflexivity.
Qed.

(** A run in which no step raises, in closed form. *)
Lemma process_single_pdf_succeeds (out_dir : option string) (reader_orig : list page)
    (images : list image) (s : state image page) :
  mkdir c = Ok tt ->
  PdfReader_path c = Ok reader_orig ->
  convert_from_path c dpi (if_set poppler_path) = Ok images ->
  (forall k img, nth_error images k = Some img ->
                 page_succeeds c lang tesseract_config skip_if_text output_txt
                   reader_orig k img) ->
  writer (snd (process_single_pdf c pdf_path output_pdf output_txt dpi lang
                 skip_if_text poppler_path tesseract_config out_dir s))
  = flat_map (expected_pages c lang tesseract_config skip_if_text reader_orig)
      (combine (seq 0 (length images)) images)
  /\ ocr_calls (trace (snd (process_single_pdf c pdf_path output_pdf output_txt dpi
                              lang skip_if_text poppler_path tesseract_config
                              out_dir s)))
     = ocr_calls (trace s)
       ++ flat_map (expected_ocr_calls c skip_if_text output_txt)
            (combine (seq 0 (length images)) images).
Proof.
  intros Hmk Hrd Hcv Hok.
  destruct (process_single_pdf_outputs out_dir s Hmk Hrd Hcv)
    as (PS & TS & ES & Hloop & Hrun).
  destruct (loop_succeeds reader_orig images 0
              (loop_start pdf_path dpi lang (length images) (length reader_orig) s) Hok)
    as (TS' & ES' & Hloop' & Hcalls).
  rewrite Hloop in Hloop'.
  match type of Hloop' with
  | (_, ?x) = (_, ?y) => assert (Heq : x = y) by congruence
  end.
  apply extend_loop_start_inj in Heq. destruct Heq as (-> & -> & ->).
  rewrite Hrun. cbn [snd writer trace]. split; [reflexivity|].
  rewrite !ocr_calls_app, ocr_calls_mismatch_warning, ocr_calls_write_logs, Hcalls.
  cbn [ocr_calls app]. now rewrite app_nil_r.
Qed.

(** X10.  A run in which nothing fails.  When no step raises on any page, the
    output is, index by index and in order, the reader's own page for the
    pages that take the branch that copies and the pages of the OCR result
    for the others; the OCR engine is called for the latter only, once per
    image, and once more with text output on. *)
Theorem faultless_run_assembles_expected_pages
    (out_dir : option string) (reader_orig : list page) (images : list image)
    (s : state image page)
    (Hmkdir : mkdir c = Ok tt)
    (Hreader : PdfReader_path c = Ok reader_orig)
    (Himages : convert_from_path c dpi (if_set poppler_path) = Ok images)
    (Hok : forall k img, nth_error images k = Some img ->
             page_succeeds c lang tesseract_config skip_if_text output_txt
               reader_orig k img) :
  writer (snd (process_single_pdf c pdf_path output_pdf output_txt dpi lang
                 skip_if_text poppler_path tesseract_config out_dir s))
  = flat_map (expected_pages c lang tesseract_config skip_if_text reader_orig)
      (combine (seq 0 (length images)) images)
  /\ ocr_calls (trace (snd (process_single_pdf c pdf_path output_pdf output_txt dpi
                              lang skip_if_text poppler_path tesseract_config
                              out_dir s)))
     = ocr_calls (trace s)
       ++ flat_map (expected_ocr_calls c skip_if_text output_txt)
            (combine (seq 0 (length images)) images).
Proof. now apply process_single_pdf_succeeds. Qed.


Lemma flat_map_combine_seq {B} (f : nat * image -> list B) (g : image -> list B)
    (images : list image) :
  (forall ki, f ki = g (snd ki)) ->
  forall i, flat_map f (combine (seq i (length images)) images) = flat_map g images.
Proof.
  intros Hfg. induction images as [|img images IH]; intros i; [reflexivity|].
  cbn [length seq combine flat_map]. now rewrite Hfg, IH.
Qed.

Lemma flat_map_map_out {A B C} (f : B -> C) (g : A -> list B) (l : list A) :
  flat_map (fun x => map f (g x)) l = map f (flat_map g l).
Proof.
  induction l as [|x l IH]; [reflexivity|].
  cbn [flat_map]. now rewrite map_app, IH.
Qed.

Lemma skipn_nth_error {A} (l : list A) (i : nat) (x : A) :
  nth_error l i = Some x -> skipn i l = x :: skipn (S i) l.
Proof.
  revert l; induction i as [|i IH]; intros [|y l] H; try discriminate.
  - now injection H as ->.
  - cbn [skipn]. now apply IH.
Qed.

(** The pages meant for a run of indices that all take the branch that
    copies are the reader's pages at these indices. *)
Lemma expected_pages_copies (reader_orig : list page) (images : list image) :
  forall i,
  (forall k, k < length images ->
             takes_skip_path c skip_if_text (i + k) = true
             /\ is_ok (index reader_orig (i + k)) = true) ->
  flat_map (expected_pages c lang tesseract_config skip_if_text reader_orig)
    (combine (seq i (length images)) images)
  = map (@OfPage page) (firstn (length images) (skipn i reader_orig)).
Proof.
  induction images as [|img images IH]; intros i Hk; [reflexivity|].
  cbn [length seq combine flat_map].
  destruct (Hk 0 ltac:(cbn; lia)) as [Hskip Hidx].
  rewrite Nat.add_0_r in Hskip, Hidx.
  unfold expected_pages at 1. cbn [fst]. rewrite Hskip.
  unfold index in Hidx.
  destruct (nth_error reader_orig i) as [p|] eqn:Hp; [|discriminate Hidx].
  rewrite (skipn_nth_error _ _ Hp). cbn [firstn map app]. f_equal.
  apply IH. intros k Hlt. replace (S i + k) with (i + S k) by lia.
  apply Hk. cbn [length]. lia.
Qed.

(** X11.  A scanned document.  With [skip_if_text] off, when OCR returns for
    every image, the output is the pages of the OCR results of the images,
    in the order of the images, and the OCR engine is called on each image
    in turn: once, or twice with text output on. *)
Theorem scanned_document_is_ocred_in_order
    (out_dir : option string) (reader_orig : list page) (images : list image)
    (s : state image page)
    (Hmkdir : mkdir c = Ok tt)
    (Hreader : PdfReader_path c = Ok reader_orig)
    (Himages : convert_from_path c dpi (if_set poppler_path) = Ok images)
    (Hskip : skip_if_text = false)
    (Hocr : forall img, In img images ->
              ocr_succeeds c lang tesseract_config output_txt img) :
  writer (snd (process_single_pdf c pdf_path output_pdf output_txt dpi lang
                 skip_if_text poppler_path tesseract_config out_dir s))
  = map (@OfPage page) (flat_map (ocr_pages c lang tesseract_config) images)
  /\ ocr_calls (trace (snd (process_single_pdf c pdf_path output_pdf output_txt dpi
                              lang skip_if_text poppler_path tesseract_config
                              out_dir s)))
     = ocr_calls (trace s)
       ++ flat_map (fun img => if output_txt then [img; img] else [img]) images.
Proof.
  destruct (process_single_pdf_succeeds out_dir s Hmkdir Hreader Himages) as [Hw Hc].
  { intros k img Hk. unfold page_succeeds, takes_skip_path. rewrite Hskip.
    cbn [andb]. apply Hocr. eapply nth_error_In; eauto. }
  rewrite Hw, Hc. split.
  - rewrite (flat_map_combine_seq _
               (fun img => map (@OfPage page) (ocr_pages c lang tesseract_config img))).
    + apply flat_map_map_out.
    + intros ki. unfold expected_pages, takes_skip_path. now rewrite Hskip.
  - f_equal. apply flat_map_combine_seq.
    intros ki. unfold expected_ocr_calls, takes_skip_path. now rewrite Hskip.
Qed.

(** X12.  A document that already carries text.  With [skip_if_text] on, when
    every page is classified as text and can be copied, the output is the
    reader's own pages, as many as there are images, in order and
    unchanged, and nothing is handed to the OCR engine. *)
Theorem born_digital_document_passes_through
    (out_dir : option string) (reader_orig : list page) (images : list image)
    (s : state image page)
    (Hmkdir : mkdir c = Ok tt)
    (Hreader : PdfReader_path c = Ok reader_orig)
    (Himages : convert_from_path c dpi (if_set poppler_path) = Ok images)
    (Hskip : skip_if_text = true)
    (Hcopy : forall k, k < length images ->
               copies_cleanly c output_txt reader_orig k) :
  writer (snd (process_single_pdf c pdf_path output_pdf output_txt dpi lang
                 skip_if_text poppler_path tesseract_config out_dir s))
  = map (@OfPage page) (firstn (length images) reader_orig)
  /\ ocr_calls (trace (snd (process_single_pdf c pdf_path output_pdf output_txt dpi
                              lang skip_if_text poppler_path tesseract_config
                              out_dir s)))
     = ocr_calls (trace s).
Proof.
  assert (Hpath : forall k, k < length images ->
                    takes_skip_path c skip_if_text k = true).
  { intros k Hk. destruct (Hcopy k Hk) as (Hclass & _).
    unfold takes_skip_path. now rewrite Hskip, Hclass. }
  destruct (process_single_pdf_succeeds out_dir s Hmkdir Hreader Himages) as [Hw Hc].
  { intros k img Hk.
    assert (Hlt : k < length images) by (apply nth_error_Some; congruence).
    unfold page_succeeds. rewrite (Hpath k Hlt).
    destruct (Hcopy k Hlt) as (_ & Hi & Hcp & Ht). auto. }
  rewrite Hw, Hc. split.
  - rewrite expected_pages_copies; [reflexivity|].
    intros k Hk. cbn [Nat.add]. split; [now apply Hpath|].
    now destruct (Hcopy k Hk) as (_ & Hi & _).
  - rewrite <- (app_nil_r (ocr_calls (trace s))) at 2. f_equal.
    assert (Hall : forall i,
               (forall k, k < length images ->
                          takes_skip_path c skip_if_text (i + k) = true) ->
               flat_map (expected_ocr_calls c skip_if_text output_txt)
                 (combine (seq i (length images)) images) = []).
    { clear. induction images as [|img l IH]; intros i Hk; [reflexivity|].
      cbn [length seq combine flat_map]. unfold expected_ocr_calls at 1.
      cbn [fst]. pose proof (Hk 0 ltac:(cbn; lia)) as H0.
      rewrite Nat.add_0_r in H0. rewrite H0. cbn [app].
      apply IH. intros k Hlt. replace (S i + k) with (i + S k) by lia.
      apply Hk. cbn [length]. lia. }
    apply Hall. intros k Hk. now apply Hpath.
Qed.

(** ** What a run leaves in the trace *)

Lemma printed_app (es es' : list (event image)) :
  printed (es ++ es') = printed es ++ printed es'.
Proof.
  induction es as [|[] es IH]; cbn [app printed]; now rewrite ?IH.
Qed.

Lemma opened_app (es es' : list (event image)) :
  opened (es ++ es') = opened es ++ opened es'.
Proof.
  induction es as [|[] es IH]; cbn [app opened]; now rewrite ?IH.
Qed.

Lemma process_page_frame (reader_orig : list page) (page_idx : nat) (img : image)
    (s : state image page) :
  exists ps ts es,
    process_page c pdf_path output_txt lang skip_if_text tesseract_config
      reader_orig page_idx img s = (Ok tt, extend ps ts es s)
    /\ printed es = [] /\ opened es = [].
Proof.
  run_turn; (do 3 eexists; split; [reflexivity|]); split; reflexivity.
Qed.

Lemma loop_frame (reader_orig : list page) (images : list image) :
  forall (i : nat) (s : state image page),
  exists PS TS ES,
    for_enumerate i images
      (process_page c pdf_path output_txt lang skip_if_text tesseract_config reader_orig) s
    = (Ok tt, extend PS TS ES s)
    /\ printed ES = [] /\ opened ES = [].
Proof.
  induction images as [|img images IH]; intros i s.
  - exists [], [], []. repeat split.
    cbn. unfold extend. rewrite !app_nil_r. now destruct s.
  - destruct (process_page_frame reader_orig i img s) as (ps & ts & es & Hp & Hpr & Hop).
    destruct (IH (S i) (extend ps ts es s)) as (PS & TS & ES & HP & HPr & HOp).
    exists (ps ++ PS), (ts ++ TS), (es ++ ES). repeat split.
    + cbn [for_enumerate]. cbv [bind Monad_M]. rewrite Hp, HP.
      now rewrite extend_extend.
    + now rewrite printed_app, Hpr, HPr.
    + now rewrite opened_app, Hop, HOp.
Qed.

Lemma printed_mismatch_warning (n m : nat) :
  printed (mismatch_warning (image := image) n m) = []
  /\ opened (mismatch_warning (image := image) n m) = [].
Proof. unfold mismatch_warning. now destruct (n =? m). Qed.

Lemma printed_write_logs (out_dir : option string) (PS : list (out_page page))
    (TS : list str) :
  printed (write_logs c pdf_path out_dir output_pdf output_txt PS TS) = []
  /\ opened (write_logs c pdf_path out_dir output_pdf output_txt PS TS) = [].
Proof.
  unfold write_logs.
  destruct (pdf_write _ _ _ _ _), (text_write _ _ _ _ _), output_pdf, output_txt;
    split; reflexivity.
Qed.

(** A run only appends to the trace; it prints nothing and opens its own
    document, once, when the output directory could be made; the entry it
    returns names its document. *)
Lemma process_single_pdf_frame (out_dir : option string) (s : state image page) :
  exists es,
    trace (snd (process_single_pdf c pdf_path output_pdf output_txt dpi lang
                  skip_if_text poppler_path tesseract_config out_dir s))
    = trace s ++ es
    /\ printed es = []
    /\ opened es = (if is_ok (mkdir c) then [pdf_path] else [])
    /\ (forall res,
          fst (process_single_pdf c pdf_path output_pdf output_txt dpi lang
                 skip_if_text poppler_path tesseract_config out_dir s) = Ok res ->
          entry_input res = path_str pdf_path)
    /\ (exists fs,
          files (snd (process_single_pdf c pdf_path output_pdf output_txt dpi lang
                        skip_if_text poppler_path tesseract_config out_dir s))
          = fs ++ files s).
Proof.
  destruct (mkdir c) as [[]|e0] eqn:Hmk;
    [destruct (PdfReader_path c) as [reader_orig|e1] eqn:Hrd;
     [destruct (convert_from_path c dpi (if_set poppler_path)) as [images|e2] eqn:Hcv|]|].
  - destruct (process_single_pdf_outputs out_dir s Hmk Hrd Hcv)
      as (PS & TS & ES & Hloop & Hrun).
    destruct (loop_frame reader_orig images 0
                (loop_start pdf_path dpi lang (length images) (length reader_orig) s))
      as (PS' & TS' & ES' & Hloop' & Hpr & Hop).
    rewrite Hloop in Hloop'.
    assert (Heq : extend PS TS ES
                    (loop_start pdf_path dpi lang (length images) (length reader_orig) s)
                  = extend PS' TS' ES'
                      (loop_start pdf_path dpi lang (length images) (length reader_orig) s))
      by congruence.
    apply extend_loop_start_inj in Heq. destruct Heq as (<- & <- & <-).
    rewrite Hrun. cbn [fst snd trace is_ok].
    eexists. split; [reflexivity|].
    destruct (printed_mismatch_warning (length images) (length reader_orig)) as [Hm1 Hm2].
    destruct (printed_write_logs out_dir PS TS) as [Hw1 Hw2].
    repeat split.
    + cbn [app printed]. now rewrite !printed_app, Hm1, Hpr, Hw1.
    + cbn [app opened]. now rewrite !opened_app, Hm2, Hop, Hw2.
    + intros res.
      destruct (pdf_write _ _ _ _ _), (text_write _ _ _ _ _);
        cbn [bind Monad_result]; intros H; inversion H; reflexivity.
    + cbn [files]. eexists; reflexivity.
  - unfold process_single_pdf, pdf_to_images.
    cbv [bind ret raise try_except Monad_M MonadExc_M call logging emit modify when].
    rewrite Hmk, Hrd, Hcv. cbn [fst snd trace extend is_ok].
    eexists. split; [rewrite <- ?app_assoc; reflexivity|].
    repeat split; [intros res H; discriminate H|now exists []].
  - unfold process_single_pdf, pdf_to_images.
    cbv [bind ret raise try_except Monad_M MonadExc_M call logging emit modify when].
    rewrite Hmk, Hrd. cbn [fst snd trace extend is_ok].
    eexists. split; [rewrite <- ?app_assoc; reflexivity|].
    repeat split; [intros res H; discriminate H|now exists []].
  - unfold process_single_pdf.
    cbv [bind ret raise try_except Monad_M MonadExc_M call logging emit modify when].
    rewrite Hmk. cbn [fst snd is_ok].
    exists []. rewrite app_nil_r.
    repeat split; [intros res H; discriminate H|now exists []].
Qed.

(** A document that cannot be rasterized: the run raises before its loop,
    having at most opened and rasterized the document. *)
Lemma process_single_pdf_without_images (out_dir : option string)
    (s : state image page) :
  is_ok (convert_from_path c dpi (if_set poppler_path)) = false ->
  exists e es,
    process_single_pdf c pdf_path output_pdf output_txt dpi lang skip_if_text
      poppler_path tesseract_config out_dir s = (Raise e, extend [] [] es s)
    /\ printed es = [] /\ ocr_calls es = []
    /\ opened es = (if is_ok (mkdir c) then [pdf_path] else [])
    /\ (mkdir c = Ok tt -> is_ok (PdfReader_path c) = true ->
        exists e0,
          convert_from_path c dpi (if_set poppler_path) = Raise e0
          /\ e = Exn RuntimeError
                   ("Failed to convert PDF to images: " ++ exn_str e0)).
Proof.
  intros Hno.
  unfold process_single_pdf, pdf_to_images.
  cbv [bind ret raise try_except Monad_M MonadExc_M call logging emit modify when].
  destruct (mkdir c) as [[]|e0].
  - destruct (PdfReader_path c) as [reader_orig|e1].
    + destruct (convert_from_path c dpi (if_set poppler_path)) as [images|e2];
        [discriminate Hno|].
      merge_state. do 2 eexists. split; [reflexivity|].
      repeat split. intros _ _. now exists e2.
    + merge_state. do 2 eexists. split; [reflexivity|].
      repeat split. intros _ H; discriminate H.
  - exists e0, []. split.
    + unfold extend. rewrite !app_nil_r. now destruct s.
    + repeat split. intros H; discriminate H.
Qed.

(** X13.  The files of a run that returns.  A run that returns a summary
    leaves exactly the outputs that were asked for: the text file, holding
    the combined text of the accumulated page texts, and the searchable PDF,
    holding the pages of the writer; with neither asked for it writes no
    file, although it has gone through every page. *)
Theorem returning_run_leaves_requested_files
    (out_dir : option string) (reader_orig : list page) (images : list image)
    (s : state image page)
    (Hmkdir : mkdir c = Ok tt)
    (Hreader : PdfReader_path c = Ok reader_orig)
    (Himages : convert_from_path c dpi (if_set poppler_path) = Ok images)
    (Hreturns : is_ok (fst (process_single_pdf c pdf_path output_pdf output_txt
                              dpi lang skip_if_text poppler_path
                              tesseract_config out_dir s)) = true) :
  let s' := snd (process_single_pdf c pdf_path output_pdf output_txt dpi lang
                   skip_if_text poppler_path tesseract_config out_dir s) in
  files s'
  = (if output_txt
     then [(text_path pdf_path out_dir, TextFile (combined_text (all_text s')))]
     else [])
    ++ (if output_pdf
        then [(searchable_pdf_path pdf_path out_dir, PdfFile (writer s'))]
        else [])
    ++ files s.
Proof.
  destruct (process_single_pdf_outputs out_dir s Hmkdir Hreader Himages)
    as (PS & TS & ES & _ & Hrun).
  rewrite Hrun in *. cbn [fst snd files writer all_text] in *.
  unfold written_files, left_at, pdf_write, text_write, write_pdf, write_text in *.
  destruct output_pdf, output_txt; cbn [bind Monad_result is_ok andb] in *;
    repeat match goal with
           | |- context [open_output_pdf c ?p] => destruct (open_output_pdf c p) as [[]|?]
           | |- context [writer_write c ?p ?ps] => destruct (writer_write c p ps) as [[]|?]
           | |- context [open_output_txt c ?p] => destruct (open_output_txt c p) as [[]|?]
           | |- context [f_write c ?p ?t] => destruct (f_write c p t) as [[]|?]
           end;
    cbn [bind Monad_result is_ok andb app] in *;
    try discriminate Hreturns; rewrite <- ?app_assoc; reflexivity.
Qed.

End MoreProperties.

(** ** The classifier and surrounding whitespace *)

Lemma lstrip_spaces (l t : str) :
  forallb isspace l = true -> lstrip (l ++ t) = lstrip t.
Proof.
  induction l as [|ch l IH]; [reflexivity|].
  cbn [forallb app lstrip]. intros H. apply andb_true_iff in H as [Hc Hl].
  rewrite Hc. now apply IH.
Qed.

Lemma lstrip_no_leading_space (t : str) :
  no_leading_space t = true -> lstrip t = t.
Proof.
  destruct t as [|ch t]; [reflexivity|].
  cbn [no_leading_space lstrip]. intros H. apply negb_true_iff in H.
  now rewrite H.
Qed.

Lemma forallb_rev {A} (f : A -> bool) (l : list A) :
  forallb f l = true -> forallb f (rev l) = true.
Proof.
  rewrite !forallb_forall. intros H x Hx. apply H. now apply in_rev.
Qed.

(** [strip()] removes the whitespace around a text that neither begins nor
    ends with whitespace, and nothing else. *)
Lemma strip_padded (l t r : str) :
  forallb isspace l = true ->
  forallb isspace r = true ->
  no_leading_space t = true ->
  no_leading_space (rev t) = true ->
  strip (l ++ t ++ r) = t.
Proof.
  intros Hl Hr Ht Hrt. unfold strip, rstrip.
  rewrite (lstrip_spaces _ _ Hl).
  destruct t as [|ch t].
  - cbn [app]. rewrite <- (app_nil_r r), (lstrip_spaces _ _ Hr). reflexivity.
  - rewrite (lstrip_no_leading_space ((ch :: t) ++ r)) by exact Ht.
    rewrite rev_app_distr, (lstrip_spaces _ _ (forallb_rev _ _ Hr)).
    rewrite (lstrip_no_leading_space _ Hrt). apply rev_involutive.
Qed.

(** X14.  Whitespace does not count.  For a page whose extracted text is a
    text [t] (neither beginning nor ending with whitespace) with whitespace
    before and after, the classifier answers by the length of [t] alone; in
    particular a text of whitespace only is never enough, however long. *)
Theorem classifier_ignores_surrounding_whitespace
    (doc : list plumber_page) (page_number : Z) (l t r : str)
    (Hrange : (0 <= page_number < Z.of_nat (length doc))%Z)
    (Hpage : nth_error doc (Z.to_nat page_number) = Some (Ok (Some (l ++ t ++ r))))
    (Hl : forallb isspace l = true)
    (Hr : forallb isspace r = true)
    (Ht : no_leading_space t = true)
    (Hrt : no_leading_space (rev t) = true) :
  pdf_page_has_text (Ok doc) page_number = Ok (20 <? length t)
  /\ (t = [] -> pdf_page_has_text (Ok doc) page_number = Ok false).
Proof.
  rewrite (pdf_page_has_text_in_range _ Hrange), Hpage.
  rewrite (strip_padded _ _ _ Hl Hr Ht Hrt).
  split; [reflexivity|]. now intros ->.
Qed.

(** ** The listing of the input *)

Lemma insert_path_perm (p : Path) (ps : list Path) :
  Permutation (insert_path p ps) (p :: ps).
Proof.
  induction ps as [|q ps IH]; [reflexivity|].
  cbn [insert_path]. destruct (String.leb (name p) (name q)); [reflexivity|].
  rewrite IH. apply perm_swap.
Qed.

Lemma sorted_perm (ps : list Path) : Permutation (sorted ps) ps.
Proof.
  induction ps as [|p ps IH]; [reflexivity|].
  cbn [sorted fold_right]. fold (sorted ps).
  rewrite insert_path_perm. now constructor.
Qed.

Lemma insert_path_sorted (p : Path) (ps : list Path) :
  Sorted name_le ps -> Sorted name_le (insert_path p ps).
Proof.
  induction ps as [|q ps IH]; intros Hs.
  - repeat constructor.
  - cbn [insert_path]. destruct (String.leb (name p) (name q)) eqn:Hpq.
    + constructor; [exact Hs|]. constructor. exact Hpq.
    + inversion Hs as [|? ? Hs' Hhd]; subst.
      constructor; [now apply IH|].
      assert (Hqp : name_le q p).
      { destruct (String.leb_total (name p) (name q)) as [H|H]; [congruence|exact H]. }
      destruct ps as [|q' ps]; cbn [insert_path].
      * constructor. exact Hqp.
      * destruct (String.leb (name p) (name q')); constructor; trivial.
        now inversion Hhd.
Qed.

Lemma sorted_sorted (ps : list Path) : Sorted name_le (sorted ps).
Proof.
  induction ps as [|p ps IH]; [constructor|].
  cbn [sorted fold_right]. fold (sorted ps). now apply insert_path_sorted.
Qed.

Section DriverProperties.

Variables image page bytes : Type.
Variable w : World image page bytes.
Variable args : Args.

(** [list_input_files] as a value, with the one event it leaves. *)
Lemma list_input_files_eq (input_path : Path) (s : state image page) :
  list_input_files w input_path s
  = (input_files w input_path, extend [] [] [ListInputs input_path] s).
Proof.
  unfold list_input_files, input_files.
  cbv [bind ret raise Monad_M MonadExc_M call emit modify].
  destruct (kind w input_path) as [|[ps|e]|]; reflexivity.
Qed.

(** X15.  The listing of a directory.  For a directory, [list_input_files]
    returns the entries whose suffix is ".pdf" in any letter case, each as
    often as the directory yields it and no other, in ascending order of
    their names. *)
Theorem directory_listing_is_sorted_pdfs
    (input_path : Path) (entries : list Path) (s : state image page)
    (Hdir : kind w input_path = IsDir (Ok entries)) :
  exists listed,
    fst (list_input_files w input_path s) = Ok listed
    /\ Permutation listed (filter is_pdf entries)
    /\ Sorted name_le listed
    /\ (forall f, In f listed <-> In f entries /\ lower (suffix f) = ".pdf").
Proof.
  rewrite list_input_files_eq. unfold input_files. rewrite Hdir. cbn [fst].
  eexists. split; [reflexivity|]. split; [apply sorted_perm|].
  split; [apply sorted_sorted|].
  intros f. split.
  - intros Hin. apply (Permutation_in _ (sorted_perm _)) in Hin.
    apply filter_In in Hin as [Hin Hpdf]. split; [exact Hin|].
    now apply String.eqb_eq.
  - intros [Hin Hpdf]. apply (Permutation_in _ (Permutation_sym (sorted_perm _))).
    apply filter_In. split; [exact Hin|]. now apply String.eqb_eq.
Qed.

(** ** [main] from start to exit *)

(** The loop of [main]: it prints nothing itself, opens each document whose
    output directory could be made, and records for each document an entry
    that names it. *)
Lemma process_files_frame (listed : list Path) :
  forall (results0 : list entry) (s : state image page),
  exists results s',
    process_files w args listed results0 s = (Ok (results0 ++ results), s')
    /\ Forall2 (fun f r => entry_input r = path_str f) listed results
    /\ printed (trace s') = printed (trace s)
    /\ opened (trace s')
       = opened (trace s) ++ filter (fun f => is_ok (mkdir (collab w f))) listed
    /\ exists fs, files s' = fs ++ files s.
Proof.
  induction listed as [|pdf_file listed IH]; intros results0 s.
  - exists [], s. rewrite !app_nil_r. repeat split; [constructor|now exists []].
  - cbn [process_files].
    cbv [bind ret try_except Monad_M MonadExc_M logging emit modify].
    destruct (process_single_pdf_frame (collab w pdf_file) pdf_file
                (negb (args_no_pdf args)) (args_txt args) (args_dpi args)
                (args_lang args) (args_skip_text_pages args)
                (args_poppler_path args) (args_config args)
                (if_set (args_out_dir args)) s)
      as (es & Htr & Hpr & Hop & Hres & Hfiles).
    destruct (process_single_pdf _ _ _ _ _ _ _ _ _ _ s) as [[res|e] s1] eqn:Hrun;
      cbn [fst snd] in Htr, Hres, Hfiles; destruct Hfiles as [fs1 Hfs1].
    + destruct (IH (results0 ++ [res]) s1) as (results & s' & Hp & Hf & Hpr' & Hop' & fs & Hfs).
      exists (res :: results), s'. rewrite Hp, <- app_assoc.
      repeat split.
      * constructor; [now apply Hres|exact Hf].
      * now rewrite Hpr', Htr, printed_app, Hpr, app_nil_r.
      * rewrite Hop', Htr, opened_app, Hop. cbn [filter].
        destruct (is_ok (mkdir (collab w pdf_file))); now rewrite <- app_assoc.
      * exists (fs ++ fs1). now rewrite Hfs, Hfs1, app_assoc.
    + destruct (IH (results0 ++ [Failure (path_str pdf_file) (exn_str e)])
                   (extend [] [] [Log ERROR (FailedProcessing pdf_file e)] s1))
        as (results & s' & Hp & Hf & Hpr' & Hop' & fs & Hfs).
      exists (Failure (path_str pdf_file) (exn_str e) :: results), s'.
      rewrite Hp, <- app_assoc.
      cbn [extend trace files] in Hpr', Hop', Hfs.
      repeat split.
      * constructor; [reflexivity|exact Hf].
      * now rewrite Hpr', Htr, !printed_app, Hpr, !app_nil_r.
      * rewrite Hop', Htr, !opened_app, Hop. cbn [filter opened].
        rewrite app_nil_r.
        destruct (is_ok (mkdir (collab w pdf_file))); now rewrite <- app_assoc.
      * exists (fs ++ fs1). now rewrite Hfs, Hfs1, app_assoc.
Qed.

Lemma printed_map_Printed (results : list entry) :
  printed (map (fun r => Printed (image := image) r) results) = results.
Proof. induction results as [|r rs IH]; cbn; now rewrite ?IH. Qed.

Lemma opened_map_Printed (results : list entry) :
  opened (map (fun r => Printed (image := image) r) results) = [].
Proof. induction results as [|r rs IH]; cbn; now rewrite ?IH. Qed.

Ltac run_main :=
  unfold main, try_except_only, check_dependencies;
  cbv [bind ret raise try_except Monad_M MonadExc_M call logging emit modify];
  rewrite ?list_input_files_eq.

(** ** The dependency check *)

(** With no rasterizer, the loop of [main] records a failure for every
    document, and nothing is handed to the OCR engine. *)
Lemma process_files_without_rasterizer (Hno : rasterizer_unreachable w)
    (listed : list Path) :
  forall (results0 : list entry) (s : state image page),
  exists results es,
    process_files w args listed results0 s
    = (Ok (results0 ++ results), extend [] [] es s)
    /\ Forall2
         (fun f r =>
            exists error,
              r = Failure (path_str f) error
              /\ (mkdir (collab w f) = Ok tt ->
                  is_ok (PdfReader_path (collab w f)) = true ->
                  exists e0,
                    convert_from_path (collab w f) (args_dpi args)
                      (if_set (args_poppler_path args)) = Raise e0
                    /\ error = ("Failed to convert PDF to images: " ++ exn_str e0)%string))
         listed results
    /\ printed es = [] /\ ocr_calls es = []
    /\ opened es = filter (fun f => is_ok (mkdir (collab w f))) listed.
Proof.
  induction listed as [|pdf_file listed IH]; intros results0 s.
  - exists [], []. rewrite app_nil_r. repeat split; [|constructor].
    cbn [process_files]. unfold extend. rewrite !app_nil_r. now destruct s.
  - cbn [process_files].
    cbv [bind ret try_except Monad_M MonadExc_M logging emit modify].
    destruct (process_single_pdf_without_images (collab w pdf_file) pdf_file
                (negb (args_no_pdf args)) (args_txt args) (args_dpi args)
                (args_lang args) (args_skip_text_pages args)
                (args_poppler_path args) (args_config args)
                (if_set (args_out_dir args)) s (Hno _ _ _))
      as (e & es & Hrun & Hpr & Hocr & Hop & Hmsg).
    rewrite Hrun. rewrite extend_extend. cbn [app].
    destruct (IH (results0 ++ [Failure (path_str pdf_file) (exn_str e)])
                 (extend [] [] (es ++ [Log ERROR (FailedProcessing pdf_file e)]) s))
      as (results & es' & Hp & Hf & Hpr' & Hocr' & Hop').
    exists (Failure (path_str pdf_file) (exn_str e) :: results),
           ((es ++ [Log ERROR (FailedProcessing pdf_file e)]) ++ es').
    rewrite Hp, <- app_assoc, extend_extend. cbn [app].
    repeat split.
    + constructor; [|exact Hf].
      exists (exn_str e). split; [reflexivity|].
      intros Hmk Hrd. destruct (Hmsg Hmk Hrd) as (e0 & He0 & ->). now exists e0.
    + now rewrite !printed_app, Hpr, Hpr'.
    + now rewrite !ocr_calls_app, Hocr, Hocr'.
    + rewrite !opened_app, Hop, Hop'. cbn [filter opened].
      rewrite app_nil_r.
      destruct (is_ok (mkdir (collab w pdf_file))); reflexivity.
Qed.

(** C7.  What the dependency check does.  For the OCR engine the claim
    holds: when it cannot be reached, [main] logs the dependency error and
    ends with [sys.exit(1)], having listed no input and touched no document.
    For the rasterizer it does not: [check_dependencies] returns as soon as
    the OCR engine answers, whatever the rasterizer does, against its
    docstring; with no rasterizer and the other startup checks passing,
    [main] lists the input, opens every document whose output directory
    could be made, records a failure for every document and returns 0,
    where the claim has it exit non-zero before any document is listed. *)
Theorem startup_gate (s : state image page) :
  (ocr_engine_unreachable w args ->
   main w args s =
   (Ok (SysExit 1),
    extend [] [] [Log ERROR (DependencyError (Exn RuntimeError TESSERACT_NOT_FOUND))] s))
  /\ (is_ok (get_tesseract_version w (if_set (args_tesseract_cmd args))) = true ->
      check_dependencies w (args_tesseract_cmd args) s = (Ok tt, s))
  /\ (startup_ok w args = true ->
      rasterizer_unreachable w ->
      exists listed results es,
        input_files w (args_input args) = Ok listed
        /\ main w args s
           = (Ok (Returned 0),
              extend [] []
                (ListInputs (args_input args) :: es
                 ++ map (fun r => Printed r) results) s)
        /\ Forall2
             (fun f r =>
                exists error,
                  r = Failure (path_str f) error
                  /\ (mkdir (collab w f) = Ok tt ->
                      is_ok (PdfReader_path (collab w f)) = true ->
                      exists e0,
                        convert_from_path (collab w f) (args_dpi args)
                          (if_set (args_poppler_path args)) = Raise e0
                        /\ error
                           = ("Failed to convert PDF to images: " ++ exn_str e0)%string))
             listed results
        /\ ocr_calls es = []
        /\ opened es = filter (fun f => is_ok (mkdir (collab w f))) listed).
Proof.
  unfold ocr_engine_unreachable, startup_ok. run_main.
  destruct (get_tesseract_version w _) as [[]|e];
    cbn [exn_type is_ok andb negb].
  - split; [discriminate|]. split; [reflexivity|].
    rewrite list_input_files_eq.
    destruct (input_files w (args_input args)) as [listed|e];
      cbn [is_ok andb negb]; [|discriminate].
    destruct (args_batch args && negb (is_dir w (args_input args)));
      cbn [negb]; [discriminate|].
    intros _ Hno.
    match goal with
    | |- context [process_files w args listed [] ?s0] =>
        destruct (process_files_without_rasterizer Hno listed [] s0)
          as (results & es & Hp & Hf & _ & Hocr & Hop)
    end.
    rewrite Hp. cbn [app]. rewrite for_each_emit, !extend_extend. cbn [app].
    exists listed, results, es. repeat split; assumption.
  - split; [reflexivity|]. split; discriminate.
Qed.

(** X16.  The exit status.  [main] returns 0 when the OCR engine answers, the
    input can be listed and --batch is not given for a single file; otherwise
    it ends with [sys.exit(1)].  How the documents fare does not enter: a
    run in which every document fails still returns 0. *)
Theorem exit_status_depends_on_startup_only (s : state image page) :
  fst (main w args s)
  = Ok (if startup_ok w args then Returned 0 else SysExit 1).
Proof.
  run_main. unfold startup_ok.
  destruct (get_tesseract_version w _) as [[]|e]; cbn [exn_type is_ok andb negb fst];
    [|reflexivity].
  rewrite list_input_files_eq.
  destruct (input_files w (args_input args)) as [listed|e];
    cbn [is_ok andb negb fst]; [|reflexivity].
  destruct (args_batch args && negb (is_dir w (args_input args)));
    cbn [negb fst]; [reflexivity|].
  match goal with
  | |- context [process_files w args listed [] ?s0] =>
      destruct (process_files_frame listed [] s0) as (results & s' & Hp & _)
  end.
  rewrite Hp. cbn [app]. rewrite for_each_emit. reflexivity.
Qed.

(** X17.  A failed startup.  When one of the startup checks fails, [main]
    logs one error and stops, having at most listed the input: no document
    is opened, rasterized or OCRed, no file is written and no summary line
    is printed. *)
Theorem failed_startup_touches_no_document (s : state image page)
    (Hfail : startup_ok w args = false) :
  exists pre m,
    main w args s
    = (Ok (SysExit 1), extend [] [] (pre ++ [Log ERROR m]) s)
    /\ (pre = [] \/ pre = [ListInputs (args_input args)]).
Proof.
  revert Hfail. run_main. unfold startup_ok.
  destruct (get_tesseract_version w _) as [[]|e]; cbn [exn_type is_ok andb negb].
  - rewrite list_input_files_eq.
    destruct (input_files w (args_input args)) as [listed|e];
      cbn [is_ok andb negb].
    + destruct (args_batch args && negb (is_dir w (args_input args)));
        cbn [negb]; [|discriminate].
      intros _. exists [ListInputs (args_input args)], BatchNeedsDirectory.
      rewrite extend_extend. split; [reflexivity|now right].
    + intros _. exists [ListInputs (args_input args)], (InputError e).
      rewrite extend_extend. split; [reflexivity|now right].
  - intros _. exists [], (DependencyError (Exn RuntimeError TESSERACT_NOT_FOUND)).
    split; [reflexivity|now left].
Qed.

(** X18.  The printed summary.  When the startup checks pass, [main] prints
    one entry per listed document, in the order of the listing and after
    all of them were processed; each entry names its document, whether it
    succeeded or failed.  Each document whose output directory could be made
    is opened once, in that order, and no other document is opened. *)
Theorem summary_names_every_document (s : state image page)
    (Hstart : startup_ok w args = true) :
  exists listed results,
    input_files w (args_input args) = Ok listed
    /\ printed (trace (snd (main w args s))) = printed (trace s) ++ results
    /\ Forall2 (fun f r => entry_input r = path_str f) listed results
    /\ opened (trace (snd (main w args s)))
       = opened (trace s)
         ++ filter (fun f => is_ok (mkdir (collab w f))) listed.
Proof.
  revert Hstart. run_main. unfold startup_ok.
  destruct (get_tesseract_version w _) as [[]|e]; cbn [exn_type is_ok andb negb];
    [|discriminate].
  rewrite list_input_files_eq.
  destruct (input_files w (args_input args)) as [listed|e];
    cbn [is_ok andb negb]; [|discriminate].
  destruct (args_batch args && negb (is_dir w (args_input args)));
    cbn [negb]; [discriminate|]. intros _.
  match goal with
  | |- context [process_files w args listed [] ?s0] =>
      destruct (process_files_frame listed [] s0)
        as (results & s' & Hp & Hf & Hpr & Hop & _)
  end.
  rewrite Hp. cbn [app]. rewrite for_each_emit.
  cbn [extend trace] in Hpr, Hop.
  rewrite printed_app in Hpr. rewrite opened_app in Hop.
  cbn [printed opened] in Hpr, Hop. rewrite app_nil_r in Hpr, Hop.
  exists listed, results. split; [reflexivity|].
  cbn [snd extend trace]. rewrite printed_app, opened_app.
  rewrite printed_map_Printed, opened_map_Printed, app_nil_r, Hpr, Hop.
  repeat split. exact Hf.
Qed.

End DriverProperties.

(** ** The worker of the desktop form *)

Section GuiProperties.

Variables image page bytes : Type.
Variable d : Desktop image page bytes.
Variable self : Form.

Ltac gui_ops :=
  cbv [bind ret raise try_except Monad_M MonadExc_M call modify gui_log widget
       lift_cli].

(** X19.  The console.  [process_log_queue] shows every queued line once, in
    the order the lines were queued, below what the console already shows,
    and leaves the queue empty; queueing lines and then draining shows them
    in the order of the calls of [gui_log]. *)
Theorem log_queue_drains_in_order (g : gui_state image page) :
  console (process_log_queue g) = console g ++ log_queue g
  /\ log_queue (process_log_queue g) = []
  /\ forall m,
       console (process_log_queue (snd (gui_log m (process_log_queue g))))
       = console g ++ log_queue g ++ [m].
Proof.
  assert (Hdrain : forall queue shown, drain queue shown = shown ++ queue).
  { induction queue as [|msg queue IH]; intros shown; cbn [drain].
    - now rewrite app_nil_r.
    - now rewrite IH, <- app_assoc. }
  unfold process_log_queue, gui_log, modify.
  cbn [console log_queue cli widgets snd app]. rewrite !Hdrain.
  repeat split. intros m. now rewrite Hdrain, <- app_assoc.
Qed.

(** One turn of the loop of line 195: [run_file] never raises; it queues
    the line of the document and sets the progress bar. *)
Lemma run_file_eq (i : nat) (f : Path) (g : gui_state image page) :
  run_file d self i f g
  = (Ok tt,
     mkGui (snd (run_of d self f (cli g)))
       (log_queue g ++ [line_of f (fst (run_of d self f (cli g)))])
       (console g) (widgets g ++ [ProgressValue i])).
Proof.
  unfold run_file, run_of. gui_ops.
  destruct (form_dpi self) as [dpi|e]; cbn [cli log_queue console widgets fst snd line_of];
    [|reflexivity].
  destruct (process_single_pdf _ _ _ _ _ _ _ _ _ _ (cli g)) as [[res|e] s1];
    reflexivity.
Qed.

(** The line of a document names it. *)
Lemma line_of_run_of (f : Path) (s : state image page) :
  line_of f (fst (run_of d self f s)) = Done (path_str f)
  \/ exists error, line_of f (fst (run_of d self f s)) = Failed f error.
Proof.
  unfold run_of. destruct (form_dpi self) as [dpi|e]; [|right; now eexists].
  destruct (process_single_pdf_frame (collab (desktop_world d) f) f true
              (form_output_txt self) dpi (form_lang self) (form_skip_text self)
              (or_none (form_poppler_path self)) None
              (or_none (form_output_path self)) s)
    as (_ & _ & _ & _ & Hres & _).
  destruct (fst (process_single_pdf _ _ _ _ _ _ _ _ _ _ s)) as [res|e];
    [left|right; now eexists].
  cbn [line_of]. now rewrite (Hres res eq_refl).
Qed.

(** The loop of line 195 from number [i] on. *)
Lemma gui_loop (listed : list Path) :
  forall (i : nat) (g : gui_state image page),
  exists s' lines,
    for_enumerate_from i listed (run_file d self) g
    = (Ok tt,
       mkGui s' (log_queue g ++ lines) (console g)
         (widgets g ++ map ProgressValue (seq i (length listed))))
    /\ Forall2 (fun f l => l = Done (path_str f) \/ exists error, l = Failed f error)
         listed lines
    /\ (forall e, form_dpi self = Raise e ->
          s' = cli g /\ lines = map (fun f => Failed f (exn_str e)) listed).
Proof.
  induction listed as [|f listed IH]; intros i g.
  - exists (cli g), []. cbn. rewrite !app_nil_r. destruct g. repeat split. constructor.
  - cbn [for_enumerate_from]. cbv [bind Monad_M]. rewrite run_file_eq.
    match goal with
    | |- context [for_enumerate_from (S i) listed _ ?g1] =>
        destruct (IH (S i) g1) as (s' & lines & Hrun & Hlines & Hdpi)
    end.
    rewrite Hrun. cbn [cli log_queue console widgets].
    exists s', (line_of f (fst (run_of d self f (cli g))) :: lines).
    repeat split.
    + rewrite <- !app_assoc. reflexivity.
    + constructor; [apply line_of_run_of|exact Hlines].
    + destruct (Hdpi e H) as [Hs _]. rewrite Hs. cbn [cli].
      unfold run_of. now rewrite H.
    + destruct (Hdpi e H) as [_ Hl]. rewrite Hl. cbn [map].
      unfold run_of. now rewrite H.
Qed.

Let input_path := form_input_path self.
Let tesseract_cmd := or_none (form_tesseract_path self).

Lemma run_ocr_eq (listed : list Path) (g : gui_state image page)
    (Hexists : path_exists d input_path = true)
    (Hlog : log_file_opens d self = Ok tt)
    (Hdeps : is_ok (get_tesseract_version (desktop_world d) (if_set tesseract_cmd)) = true)
    (Hlist : input_files (desktop_world d) input_path = Ok listed) :
  exists s' lines,
    run_ocr d self g
    = (let g' :=
         mkGui s'
           (log_queue g ++ [CheckingDependencies; ProcessingFiles (length listed)]
            ++ lines)
           (console g)
           (widgets g ++ [ProgressMaximum (length listed); ProgressValue 0]
            ++ map ProgressValue (seq 1 (length listed))) in
       match notify d (length listed) with
       | Ok _ =>
           (Ok tt,
            mkGui s' (log_queue g' ++ [AllTasksComplete]) (console g)
              (widgets g' ++ [Notify (length listed); ShowInfo (length listed)]))
       | Raise e => (Raise e, g')
       end)
    /\ Forall2 (fun f l => l = Done (path_str f) \/ exists error, l = Failed f error)
         listed lines
    /\ (forall e, form_dpi self = Raise e ->
          s' = extend [] [] [ListInputs input_path] (cli g)
          /\ lines = map (fun f => Failed f (exn_str e)) listed).
Proof.
  unfold run_ocr, log_file_opens in *. fold input_path tesseract_cmd.
  rewrite Hexists. cbn [negb].
  unfold check_dependencies. gui_ops.
  destruct (or_none (form_log_to_file self)) as [log_file|];
    [rewrite Hlog|];
    cbn [cli log_queue console widgets];
    (destruct (get_tesseract_version _ _) as [[]|e0]; [|discriminate Hdeps]);
    cbn [negb];
    rewrite list_input_files_eq, Hlist;
    cbn [cli log_queue console widgets];
    match goal with
    | |- context [for_enumerate_from 1 listed _ ?g1] =>
        destruct (gui_loop listed 1 g1) as (s' & lines & Hrun & Hlines & Hdpi);
        rewrite Hrun
    end;
    cbn [cli log_queue console widgets] in *;
    exists s', lines;
    (split; [|split; [exact Hlines|exact Hdpi]]);
    cbn zeta;
    destruct (notify d (length listed)) as [[]|e1];
    cbn [cli log_queue console widgets];
    rewrite <- ?app_assoc; reflexivity.
Qed.

(** X20.  Handled startup failures.  When the input path does not exist,
    [run_ocr] shows one error dialog and returns, with nothing logged; when
    the OCR engine cannot be reached, it shows the message of
    [check_dependencies] in one error dialog and returns.  In both cases the
    input is not listed, no document is touched and the progress bar is left
    alone. *)
Theorem gui_startup_failure_shows_one_error (g : gui_state image page) :
  (path_exists d input_path = false ->
   run_ocr d self g
   = (Ok tt,
      mkGui (cli g) (log_queue g) (console g)
        (widgets g ++ [ShowError "Error" "Input path does not exist."])))
  /\ (path_exists d input_path = true ->
      log_file_opens d self = Ok tt ->
      is_ok (get_tesseract_version (desktop_world d) (if_set tesseract_cmd)) = false ->
      run_ocr d self g
      = (Ok tt,
         mkGui (cli g) (log_queue g ++ [CheckingDependencies]) (console g)
           (widgets g ++ [ShowError "Error" TESSERACT_NOT_FOUND]))).
Proof.
  unfold run_ocr, log_file_opens. fold input_path tesseract_cmd.
  split; [intros ->; reflexivity|].
  intros -> Hlog Hdeps. cbn [negb].
  unfold check_dependencies. gui_ops.
  destruct (or_none (form_log_to_file self)) as [log_file|];
    [rewrite Hlog|];
    cbn [cli log_queue console widgets];
    (destruct (get_tesseract_version _ _) as [[]|e0]; [discriminate Hdeps|]);
    reflexivity.
Qed.


(** X22.  An unreadable DPI field.  The fields of the form are read inside the
    [try] of the loop, once per document.  When reading the DPI field raises,
    every listed document is reported as failed with the text of that
    exception, no document is opened and no file is written; the run still
    ends with the notification, the closing dialog and the closing line. *)
Theorem unreadable_dpi_fails_every_document
    (listed : list Path) (e : exn) (g : gui_state image page)
    (Hexists : path_exists d input_path = true)
    (Hlog : log_file_opens d self = Ok tt)
    (Hdeps : is_ok (get_tesseract_version (desktop_world d) (if_set tesseract_cmd)) = true)
    (Hlist : input_files (desktop_world d) input_path = Ok listed)
    (Hnotify : notify d (length listed) = Ok tt)
    (Hdpi : form_dpi self = Raise e) :
  run_ocr d self g
  = (Ok tt,
     mkGui (extend [] [] [ListInputs input_path] (cli g))
       (log_queue g ++ [CheckingDependencies; ProcessingFiles (length listed)]
        ++ map (fun f => Failed f (exn_str e)) listed ++ [AllTasksComplete])
       (console g)
       (widgets g ++ [ProgressMaximum (length listed); ProgressValue 0]
        ++ map ProgressValue (seq 1 (length listed))
        ++ [Notify (length listed); ShowInfo (length listed)])).
Proof.
  destruct (run_ocr_eq g Hexists Hlog Hdeps Hlist) as (s' & lines & Hrun & _ & Hl).
  destruct (Hl e Hdpi) as [-> ->].
  rewrite Hrun, Hnotify. cbn zeta. cbn [log_queue widgets].
  now rewrite <- !app_assoc.
Qed.

(** X23.  Unguarded startup steps.  Opening the log file and listing the input
    are outside every [try] of [run_ocr]: when one of them raises, the
    exception leaves [run_ocr] and no dialog is shown.  For the same input
    and OCR engine, [main] catches the failed listing and ends with
    [sys.exit(1)]. *)
Theorem gui_unguarded_startup_failures_escape
    (e : exn) (g : gui_state image page)
    (Hexists : path_exists d input_path = true) :
  (log_file_opens d self = Raise e -> run_ocr d self g = (Raise e, g))
  /\ (log_file_opens d self = Ok tt ->
      is_ok (get_tesseract_version (desktop_world d) (if_set tesseract_cmd)) = true ->
      input_files (desktop_world d) input_path = Raise e ->
      run_ocr d self g
      = (Raise e,
         mkGui (extend [] [] [ListInputs input_path] (cli g))
           (log_queue g ++ [CheckingDependencies]) (console g) (widgets g))
      /\ forall (args : Args) (s : state image page),
           args_input args = input_path ->
           args_tesseract_cmd args = tesseract_cmd ->
           fst (main (desktop_world d) args s) = Ok (SysExit 1)).
Proof.
  unfold run_ocr, log_file_opens. fold input_path tesseract_cmd.
  rewrite Hexists. cbn [negb]. unfold check_dependencies. gui_ops.
  split.
  - destruct (or_none (form_log_to_file self)) as [log_file|]; [|discriminate].
    intros ->. reflexivity.
  - intros Hlog Hdeps Hlist. split.
    + destruct (or_none (form_log_to_file self)) as [log_file|];
        [rewrite Hlog|];
        cbn [cli log_queue console widgets];
        (destruct (get_tesseract_version _ _) as [[]|e0]; [|discriminate Hdeps]);
        cbn [negb];
        rewrite list_input_files_eq, Hlist; reflexivity.
    + intros args s Hin Hcmd.
      unfold main, try_except_only, check_dependencies.
      cbv [bind ret raise try_except Monad_M MonadExc_M call logging emit modify].
      rewrite Hcmd.
      destruct (get_tesseract_version _ _) as [[]|e0]; [|discriminate Hdeps].
      cbn [exn_type negb].
      rewrite list_input_files_eq, Hin, Hlist. reflexivity.
Qed.

(** X24.  A failed notification.  The desktop notification is outside every
    [try]: when it raises, after all documents were processed and reported,
    the exception leaves [run_ocr]; the closing dialog is not shown and the
    closing line is not logged. *)
Theorem failed_notification_hides_completion
    (listed : list Path) (e : exn) (g : gui_state image page)
    (Hexists : path_exists d input_path = true)
    (Hlog : log_file_opens d self = Ok tt)
    (Hdeps : is_ok (get_tesseract_version (desktop_world d) (if_set tesseract_cmd)) = true)
    (Hlist : input_files (desktop_world d) input_path = Ok listed)
    (Hnotify : notify d (length listed) = Raise e) :
  exists s' lines,
    run_ocr d self g
    = (Raise e,
       mkGui s'
         (log_queue g ++ [CheckingDependencies; ProcessingFiles (length listed)]
          ++ lines)
         (console g)
         (widgets g ++ [ProgressMaximum (length listed); ProgressValue 0]
          ++ map ProgressValue (seq 1 (length listed))))
    /\ Forall2 (fun f l => l = Done (path_str f) \/ exists error, l = Failed f error)
         listed lines.
Proof.
  destruct (run_ocr_eq g Hexists Hlog Hdeps Hlist) as (s' & lines & Hrun & Hlines & _).
  exists s', lines. split; [|exact Hlines].
  rewrite Hrun, Hnotify. reflexivity.
Qed.

End GuiProperties.

(** * The properties at concrete inputs *)

Lemma single_page_ocr_returns_singleton
    (c : Collab string string string) :
  PdfReader_bytes c = (fun pdf_bytes => Ok [pdf_bytes]) -> single_page_ocr c.
Proof. intros Hc pdf_bytes ps H. rewrite Hc in H. injection H as <-. reflexivity. Qed.

(** X1: three pages, the second copied, with text output. *)
Lemma output_pages_in_page_order_witness :
  Forall2 (fun ki pg => page_from three_pages "eng" None ["p0"; "p1"; "p2"]
                          (fst ki) (snd ki) pg)
    (combine (seq 0 3) ["A"; "b"; "C"])
    (writer (snd (process_single_pdf three_pages sample true true 300 "eng" true
                    None None None start))).
Proof.
  apply (@output_pages_in_page_order string string string three_pages sample true
           true 300 "eng" true None None None ["p0"; "p1"; "p2"] ["A"; "b"; "C"]
           start).
  - reflexivity.
  - reflexivity.
  - reflexivity.
  - now apply single_page_ocr_returns_singleton.
  - right. intros [|[|[|[|k]]]] img H; cbn in H; try discriminate H;
      injection H as <-; vm_compute; intros; reflexivity.
Defined.

(** X2: the page the OCR engine returned for the first image. *)
Lemma output_pages_come_from_input_witness :
  exists k img,
    nth_error ["i0"; "i1"] k = Some img
    /\ page_from scanned "eng" None ["p0"; "p1"] k img (OfPage "ocr:i0").
Proof.
  apply (@output_pages_come_from_input string string string scanned sample true
           false 300 "eng" false None None None ["p0"; "p1"] ["i0"; "i1"] start).
  - reflexivity.
  - reflexivity.
  - reflexivity.
  - left; reflexivity.
Defined.

(** X3: the blank page of a document on which everything fails. *)
Lemma blank_pages_only_after_failed_copy_witness :
  595%Z = 595%Z /\ 842%Z = 842%Z
  /\ exists k, k < length ["i0"]
              /\ (is_ok (index ["p0"] k) = false
                  \/ is_ok (copy_original_again all_broken k) = false).
Proof.
  apply (@blank_pages_only_after_failed_copy string string string all_broken sample
           true false 300 "eng" false None None None ["p0"] ["i0"] start).
  - reflexivity.
  - reflexivity.
  - reflexivity.
  - left; reflexivity.
Defined.

(** X4: one image, three pages: the upper bound is reached. *)
Lemma page_count_bounds_witness :
  length (writer (snd (process_single_pdf worst_case sample true true 300 "eng"
                         true None None None start))) = 3
  /\ length ["i0"]
     <= length (writer (snd (process_single_pdf worst_case sample true true 300
                               "eng" true None None None start)))
     <= 3 * length ["i0"].
Proof.
  split; [reflexivity|].
  apply (@page_count_bounds string string string worst_case sample true true 300
           "eng" true None None None ["p0"] ["i0"] start).
  - reflexivity.
  - reflexivity.
  - reflexivity.
  - now apply single_page_ocr_returns_singleton.
Defined.

(** X5: a page whose text recognition raises leaves no text. *)
Lemma text_count_bound_witness :
  length (all_text (snd (process_single_pdf text_fails sample true true 300 "eng"
                           false None None None start)))
  <= length ["i0"].
Proof.
  apply (@text_count_bound string string string text_fails sample true true 300
           "eng" false None None None ["p0"] ["i0"] start); reflexivity.
Defined.

(** X6: the document on which everything fails still gets its summary. *)
Lemma page_failures_never_escape_witness :
  fst (process_single_pdf all_broken sample true true 300 "eng" true
         None None None start)
  = Ok (Summary (path_str sample)
          (Some (path_str (searchable_pdf_path sample None)))
          (Some (path_str (text_path sample None)))
          (length ["p0"])).
Proof.
  apply (@page_failures_never_escape string string string all_broken sample true
           true 300 "eng" true None None None ["p0"] ["i0"] start).
  - reflexivity.
  - reflexivity.
  - reflexivity.
  - intros p pages; reflexivity.
  - intros p t; reflexivity.
Defined.

(** X7: poppler is missing. *)
Lemma unusable_document_raises_runtime_error_witness :
  process_single_pdf no_poppler sample true false 300 "eng" false
    None None None start
  = (Raise (Exn RuntimeError
              ("Failed to convert PDF to images: "
               ++ "Unable to get page count. Is poppler installed and in PATH?")),
     extend [] [] [Log INFO (Processing sample 300 "eng"); OpenPdf sample;
                   Rasterize sample] start).
Proof.
  apply (proj2 (@unusable_document_raises_runtime_error string string string
                  no_poppler sample true false 300 "eng" false None None None
                  (Exn OtherError "Unable to get page count. Is poppler installed and in PATH?")
                  start eq_refl)).
  - reflexivity.
  - reflexivity.
Defined.

(** X8: writing the searchable PDF raises after the file was opened. *)
Lemma failed_pdf_write_skips_text_output_witness :
  fst (process_single_pdf (scanned_writing (Raise boom) (Ok tt)) sample true true
         300 "eng" false None None None start) = Raise boom
  /\ files (snd (process_single_pdf (scanned_writing (Raise boom) (Ok tt)) sample
                   true true 300 "eng" false None None None start))
     = [(searchable_pdf_path sample None, Unfinished)]
  /\ exists es,
      trace (snd (process_single_pdf (scanned_writing (Raise boom) (Ok tt)) sample
                    true true 300 "eng" false None None None start))
      = es ++ [Log ERROR (WritePdfFailed (searchable_pdf_path sample None) boom)].
Proof.
  apply (@failed_pdf_write_skips_text_output string string string
           (scanned_writing (Raise boom) (Ok tt)) sample true true 300 "eng" false
           None None None ["p0"; "p1"] ["i0"; "i1"] boom start).
  - reflexivity.
  - reflexivity.
  - reflexivity.
  - reflexivity.
  - intros pages; reflexivity.
Defined.

(** X9: writing the text raises after the file was opened. *)
Lemma failed_text_write_keeps_pdf_witness :
  fst (process_single_pdf (scanned_writing (Ok tt) (Raise boom)) sample true true
         300 "eng" false None None None start) = Raise boom
  /\ exists pages,
      files (snd (process_single_pdf (scanned_writing (Ok tt) (Raise boom)) sample
                    true true 300 "eng" false None None None start))
      = [(text_path sample None, Unfinished);
         (searchable_pdf_path sample None, PdfFile pages)]
      /\ pages = writer (snd (process_single_pdf
                                (scanned_writing (Ok tt) (Raise boom)) sample true
                                true 300 "eng" false None None None start)).
Proof.
  apply (@failed_text_write_keeps_pdf string string string
           (scanned_writing (Ok tt) (Raise boom)) sample true true 300 "eng" false
           None None None ["p0"; "p1"] ["i0"; "i1"] boom start).
  - reflexivity.
  - reflexivity.
  - reflexivity.
  - reflexivity.
  - reflexivity.
  - intros pages; reflexivity.
  - intros t; reflexivity.
Defined.

(** X10: three pages, the second copied, with text output. *)
Lemma faultless_run_assembles_expected_pages_witness :
  writer (snd (process_single_pdf three_pages sample true true 300 "eng" true
                 None None None start))
  = [OfPage "ocr:A"; OfPage "p1"; OfPage "ocr:C"]
  /\ ocr_calls (trace (snd (process_single_pdf three_pages sample true true 300
                              "eng" true None None None start)))
     = ["A"; "A"; "C"; "C"].
Proof.
  apply (@faultless_run_assembles_expected_pages string string string three_pages
           sample true true 300 "eng" true None None None ["p0"; "p1"; "p2"]
           ["A"; "b"; "C"] start).
  - reflexivity.
  - reflexivity.
  - reflexivity.
  - intros [|[|[|[|k]]]] img H; cbn in H; try discriminate H;
      injection H as <-; vm_compute;
      repeat split; try reflexivity; eexists; split; reflexivity.
Defined.

(** X11: two scanned pages, with text output. *)
Lemma scanned_document_is_ocred_in_order_witness :
  writer (snd (process_single_pdf scanned sample true true 300 "eng" false
                 None None None start))
  = [OfPage "ocr:i0"; OfPage "ocr:i1"]
  /\ ocr_calls (trace (snd (process_single_pdf scanned sample true true 300 "eng"
                              false None None None start)))
     = ["i0"; "i0"; "i1"; "i1"].
Proof.
  apply (@scanned_document_is_ocred_in_order string string string scanned sample
           true true 300 "eng" false None None None ["p0"; "p1"] ["i0"; "i1"] start).
  - reflexivity.
  - reflexivity.
  - reflexivity.
  - reflexivity.
  - intros img _. split; [eexists; split; reflexivity|reflexivity].
Defined.

(** X12: one page that carries text. *)
Lemma born_digital_document_passes_through_witness :
  writer (snd (process_single_pdf born_digital sample true true 300 "eng" true
                 None None None start))
  = [OfPage "p0"]
  /\ ocr_calls (trace (snd (process_single_pdf born_digital sample true true 300
                              "eng" true None None None start)))
     = [].
Proof.
  apply (@born_digital_document_passes_through string string string born_digital
           sample true true 300 "eng" true None None None ["p0"] ["i0"] start).
  - reflexivity.
  - reflexivity.
  - reflexivity.
  - reflexivity.
  - intros [|k] H; [|cbn in H; lia].
    repeat split; reflexivity.
Defined.

(** X13: two output files asked for and written. *)
Lemma returning_run_leaves_requested_files_witness :
  files (snd (process_single_pdf scanned sample true true 300 "eng" false
                None None None start))
  = [(text_path sample None,
      TextFile (combined_text [py "i0"; py "i1"]));
     (searchable_pdf_path sample None,
      PdfFile [OfPage "ocr:i0"; OfPage "ocr:i1"])].
Proof.
  apply (@returning_run_leaves_requested_files string string string scanned sample
           true true 300 "eng" false None None None ["p0"; "p1"] ["i0"; "i1"] start);
    reflexivity.
Defined.

(** X14: a stamp of seven characters between blanks and a newline. *)
Lemma classifier_ignores_surrounding_whitespace_witness :
  pdf_page_has_text (Ok [Ok (Some (py "   a stamp  "))]) 0
  = Ok (20 <? length (py "a stamp"))
  /\ (py "a stamp" = [] ->
      pdf_page_has_text (Ok [Ok (Some (py "   a stamp  "))]) 0 = Ok false).
Proof.
  apply (@classifier_ignores_surrounding_whitespace
           [Ok (Some (py "   a stamp  "))] 0 (py "   ") (py "a stamp") (py "  "));
    try reflexivity.
  cbn; lia.
Defined.

(** X15: the directory of [batch_world]. *)
Lemma directory_listing_is_sorted_pdfs_witness :
  exists listed,
    fst (list_input_files batch_world folder start) = Ok listed
    /\ Permutation listed
         (filter is_pdf [doc3; mkPath "/in" "notes" ".txt"; doc1; doc2])
    /\ Sorted name_le listed
    /\ (forall f, In f listed <->
                  In f [doc3; mkPath "/in" "notes" ".txt"; doc1; doc2]
                  /\ lower (suffix f) = ".pdf").
Proof.
  apply (@directory_listing_is_sorted_pdfs string string string batch_world folder
           [doc3; mkPath "/in" "notes" ".txt"; doc1; doc2] start).
  reflexivity.
Defined.

(** C7: Tesseract answers and poppler is missing; the input is one file.
    [main] lists it, opens it, records its failure, prints it and returns 0. *)
Lemma startup_gate_witness :
  (rasterizer_unreachable world_without_poppler
   /\ main world_without_poppler (default_args sample) start
      = (Ok (Returned 0),
         extend [] []
           [ListInputs sample;
            Log INFO (Processing sample 300 "eng");
            OpenPdf sample;
            Rasterize sample;
            Log ERROR (FailedProcessing sample
              (Exn RuntimeError "Failed to convert PDF to images: Unable to get page count. Is poppler installed and in PATH?"));
            Printed (Failure "/in/sample.pdf"
              "Failed to convert PDF to images: Unable to get page count. Is poppler installed and in PATH?")]
           start))
  /\ exists listed results es,
       input_files world_without_poppler (args_input (default_args sample)) = Ok listed
       /\ main world_without_poppler (default_args sample) start
          = (Ok (Returned 0),
             extend [] []
               (ListInputs (args_input (default_args sample)) :: es
                ++ map (fun r => Printed r) results) start)
       /\ Forall2
            (fun f r =>
               exists error,
                 r = Failure (path_str f) error
                 /\ (mkdir (collab world_without_poppler f) = Ok tt ->
                     is_ok (PdfReader_path (collab world_without_poppler f)) = true ->
                     exists e0,
                       convert_from_path (collab world_without_poppler f)
                         (args_dpi (default_args sample))
                         (if_set (args_poppler_path (default_args sample))) = Raise e0
                       /\ error
                          = ("Failed to convert PDF to images: " ++ exn_str e0)%string))
            listed results
       /\ ocr_calls es = []
       /\ opened es
          = filter (fun f => is_ok (mkdir (collab world_without_poppler f))) listed.
Proof.
  assert (Hno : rasterizer_unreachable world_without_poppler)
    by (intros pdf dpi poppler_path; reflexivity).
  split; [split; [exact Hno|reflexivity]|].
  apply (proj2 (proj2 (@startup_gate string string string world_without_poppler
                         (default_args sample) start))).
  - reflexivity.
  - exact Hno.
Defined.

(** X17: Tesseract is missing. *)
Lemma failed_startup_touches_no_document_witness :
  exists pre m,
    main world_without_tesseract (default_args sample) start
    = (Ok (SysExit 1), extend [] [] (pre ++ [Log ERROR m]) start)
    /\ (pre = [] \/ pre = [ListInputs (args_input (default_args sample))]).
Proof.
  apply (@failed_startup_touches_no_document string string string
           world_without_tesseract (default_args sample) start).
  reflexivity.
Defined.

(** X18: the directory of three documents, the second of which fails. *)
Lemma summary_names_every_document_witness :
  exists listed results,
    input_files batch_world (args_input (default_args folder)) = Ok listed
    /\ printed (trace (snd (main batch_world (default_args folder) start)))
       = printed (trace start) ++ results
    /\ Forall2 (fun f r => entry_input r = path_str f) listed results
    /\ opened (trace (snd (main batch_world (default_args folder) start)))
       = opened (trace start)
         ++ filter (fun f => is_ok (mkdir (collab batch_world f))) listed.
Proof.
  apply (@summary_names_every_document string string string batch_world
           (default_args folder) start).
  reflexivity.
Defined.

(** X20: the OCR engine cannot be reached from the form. *)
Lemma gui_startup_failure_shows_one_error_witness :
  run_ocr (desktop_of world_without_tesseract true (Ok tt)) (form_of (Ok 300%Z))
    gui_start
  = (Ok tt,
     mkGui start [CheckingDependencies] [] [ShowError "Error" TESSERACT_NOT_FOUND]).
Proof.
  apply (proj2 (@gui_startup_failure_shows_one_error string string string
                  (desktop_of world_without_tesseract true (Ok tt))
                  (form_of (Ok 300%Z)) gui_start)).
  - reflexivity.
  - reflexivity.
  - reflexivity.
Defined.


(** X22: the DPI field holds no number. *)
Lemma unreadable_dpi_fails_every_document_witness :
  run_ocr (desktop_of batch_world true (Ok tt))
    (form_of (Raise (Exn OtherError "expected floating-point number but got abc")))
    gui_start
  = (Ok tt,
     mkGui (extend [] [] [ListInputs folder] start)
       ([] ++ [CheckingDependencies; ProcessingFiles 3]
        ++ map (fun f => Failed f "expected floating-point number but got abc")
             [doc1; doc2; doc3]
        ++ [AllTasksComplete])
       []
       ([] ++ [ProgressMaximum 3; ProgressValue 0]
        ++ map ProgressValue (seq 1 3) ++ [Notify 3; ShowInfo 3])).
Proof.
  apply (@unreadable_dpi_fails_every_document string string string
           (desktop_of batch_world true (Ok tt))
           (form_of (Raise (Exn OtherError "expected floating-point number but got abc")))
           [doc1; doc2; doc3]
           (Exn OtherError "expected floating-point number but got abc") gui_start).
  - reflexivity.
  - reflexivity.
  - reflexivity.
  - reflexivity.
  - reflexivity.
  - reflexivity.
Defined.

(** X23: a directory that cannot be read. *)
Lemma gui_unguarded_startup_failures_escape_witness :
  run_ocr (desktop_of unlistable_world true (Ok tt)) (form_of (Ok 300%Z)) gui_start
  = (Raise boom,
     mkGui (extend [] [] [ListInputs folder] start) [CheckingDependencies] [] [])
  /\ forall (args : Args) (s : state string string),
       args_input args = folder ->
       args_tesseract_cmd args = None ->
       fst (main unlistable_world args s) = Ok (SysExit 1).
Proof.
  apply (proj2 (@gui_unguarded_startup_failures_escape string string string
                  (desktop_of unlistable_world true (Ok tt)) (form_of (Ok 300%Z))
                  boom gui_start eq_refl)).
  - reflexivity.
  - reflexivity.
  - reflexivity.
Defined.

(** X24: the notification cannot be shown. *)
Lemma failed_notification_hides_completion_witness :
  exists s' lines,
    run_ocr (desktop_of batch_world true (Raise boom)) (form_of (Ok 300%Z))
      gui_start
    = (Raise boom,
       mkGui s'
         ([] ++ [CheckingDependencies; ProcessingFiles 3] ++ lines)
         []
         ([] ++ [ProgressMaximum 3; ProgressValue 0]
          ++ map ProgressValue (seq 1 3)))
    /\ Forall2 (fun f l => l = Done (path_str f) \/ exists error, l = Failed f error)
         [doc1; doc2; doc3] lines.
Proof.
  apply (@failed_notification_hides_completion string string string
           (desktop_of batch_world true (Raise boom)) (form_of (Ok 300%Z))
           [doc1; doc2; doc3] boom gui_start).
  - reflexivity.
  - reflexivity.
  - reflexivity.
  - reflexivity.
  - reflexivity.
Defined.
